(** * owmeta: document identity, context merging and WormBase translators

    A shallow embedding of
      - [owmeta/document.py]                 (module [document]),
      - [owmeta/data_trans/context_merge.py] (module [context_merge]),
      - [owmeta/data_trans/wormbase.py]      (module [wormbase]),
    together with the properties of these modules that the design
    document states.

    Python objects that are mutated in place ([self], a context that
    receives imports, the log of the network layer) are threaded as
    explicit state; Python exceptions are the left summand of the result.
    Functions of the libraries the package depends on ([owmeta_core],
    [rdflib], [urllib], [bibtexparser]) are section variables. *)

From Stdlib Require Import Ascii String List Bool Arith ZArith Lia DecimalString.
From Stdlib Require Import Sorted.
From stdpp Require Import base list strings gmap.

Open Scope string_scope.

(* ===================================================================== *)
(** * Python values, strings and exceptions *)
(* ===================================================================== *)

Module Py.

#[local] Set Warnings "-register-all".

(** The Python values that travel through the modelled code: what
    [json.loads] returns, and what a property holds. *)
Inductive PyVal : Type :=
| PNone
| PBool (b : bool)
| PInt (z : Z)
| PStr (s : string)
| PList (l : list PyVal)
| PDict (kv : list (string * PyVal)).

(** The exceptions the modelled code raises, by their Python class. *)
Inductive PyExn : Type :=
| Exception_ (msg : string)
| ValueError (msg : string)
| TypeError
| IndexError
| KeyError (key : string)
| AttributeError
| IdentifierMissingException
| WormbaseRetrievalException (msg : string)
| PubmedRetrievalException (msg : string).

(** A call either raises or returns. *)
Definition result (A : Type) : Type := PyExn + A.

Definition raise {A} (e : PyExn) : result A := inl e.
Definition ret {A} (a : A) : result A := inr a.
Definition bind {A B} (m : result A) (k : A -> result B) : result B :=
  match m with
  | inl e => inl e
  | inr a => k a
  end.

Definition succeeds {A} (m : result A) : bool :=
  match m with inr _ => true | inl _ => false end.

(** ** Strings *)

(** [s[:n]] *)
Definition slice_to (n : nat) (s : string) : string := substring 0 n s.

(** [s.startswith(p)] *)
Fixpoint startswith (p s : string) : bool :=
  match p, s with
  | EmptyString, _ => true
  | String a p', String b s' => if Ascii.eqb a b then startswith p' s' else false
  | String _ _, EmptyString => false
  end.

(** [sub in s] *)
Fixpoint contains (sub s : string) : bool :=
  startswith sub s ||
  match s with
  | EmptyString => false
  | String _ s' => contains sub s'
  end.

Definition rev_string (cs : list ascii) : string :=
  string_of_list_ascii (List.rev cs).

(** [s.split(sep)] for a non-empty separator: the pieces between the
    non-overlapping occurrences of [sep], scanned from the left.  [skip]
    counts the characters of a separator that are still to be passed over,
    [cur] holds the current piece, reversed. *)
Fixpoint split_aux (sep s : string) (skip : nat) (cur : list ascii) : list string :=
  match s with
  | EmptyString => [rev_string cur]
  | String c s' =>
      match skip with
      | S k => split_aux sep s' k cur
      | O =>
          if startswith sep s
          then rev_string cur :: split_aux sep s' (String.length sep - 1) []
          else split_aux sep s' 0 (c :: cur)
      end
  end.

Definition split (sep s : string) : list string := split_aux sep s 0 [].

(** [s.split(sep, 1)]: cut at the first occurrence of [sep] only. *)
Fixpoint split1_aux (sep s : string) (cur : list ascii) : list string :=
  match s with
  | EmptyString => [rev_string cur]
  | String c s' =>
      if startswith sep s
      then [rev_string cur; substring (String.length sep) (String.length s) s]
      else split1_aux sep s' (c :: cur)
  end.

Definition split1 (sep s : string) : list string := split1_aux sep s [].

(** [l[i]] on a list *)
Definition getitem {A} (l : list A) (i : nat) : result A :=
  match l !! i with
  | Some x => ret x
  | None => raise IndexError
  end.

(** [s.upper()] on a text of ASCII characters: the letters [a] to [z] are
    mapped, every other ASCII character is left as it is.  Texts with
    characters outside ASCII, which [str.upper] maps as Unicode defines, are
    outside this model. *)
Definition upper_ascii (c : ascii) : ascii :=
  let n := nat_of_ascii c in
  if (97 <=? n)%nat && (n <=? 122)%nat then ascii_of_nat (n - 32) else c.

Fixpoint upper (s : string) : string :=
  match s with
  | EmptyString => EmptyString
  | String c s' => String (upper_ascii c) (upper s')
  end.

(** [s.replace(a, b)] for single characters *)
Fixpoint replace_char (a b : ascii) (s : string) : string :=
  match s with
  | EmptyString => EmptyString
  | String c s' => String (if Ascii.eqb c a then b else c) (replace_char a b s')
  end.

(** The white space of [str.strip] among the ASCII characters: space, tab,
    line feed, vertical tab, form feed, carriage return, and the four
    separators from 28 to 31.  White space outside ASCII is outside this
    model. *)
Definition is_space (c : ascii) : bool :=
  let n := nat_of_ascii c in
  (n =? 32)%nat || ((9 <=? n)%nat && (n <=? 13)%nat)
  || ((28 <=? n)%nat && (n <=? 31)%nat).

Fixpoint lstrip_list (cs : list ascii) : list ascii :=
  match cs with
  | c :: cs' => if is_space c then lstrip_list cs' else cs
  | [] => []
  end.

(** [s.strip()] *)
Definition strip (s : string) : string :=
  string_of_list_ascii
    (List.rev (lstrip_list (List.rev (lstrip_list (list_ascii_of_string s))))).

(** Truth value of a string: the empty string is false. *)
Definition truthy (s : string) : bool :=
  match s with EmptyString => false | _ => true end.

(** ** Operations on values *)

Definition is_str (k : string) (v : PyVal) : bool :=
  match v with PStr s => String.eqb s k | _ => false end.

(** [v is None] *)
Definition is_None (v : PyVal) : bool :=
  match v with PNone => true | _ => false end.

(** A dictionary read from JSON has each key once; the first binding of a
    key in the association list is its value. *)
Fixpoint assoc (k : string) (kv : list (string * PyVal)) : option PyVal :=
  match kv with
  | [] => None
  | (k', v) :: kv' => if String.eqb k' k then Some v else assoc k kv'
  end.

(** [k in v] for a string [k] *)
Definition py_in (k : string) (v : PyVal) : result bool :=
  match v with
  | PDict kv => ret (match assoc k kv with Some _ => true | None => false end)
  | PList l => ret (existsb (is_str k) l)
  | PStr s => ret (contains k s)
  | _ => raise TypeError
  end.

(** [v[k]] for a string [k] *)
Definition py_getitem (v : PyVal) (k : string) : result PyVal :=
  match v with
  | PDict kv =>
      match assoc k kv with
      | Some x => ret x
      | None => raise (KeyError k)
      end
  | _ => raise TypeError
  end.

(** [v[0]] *)
Definition py_first (v : PyVal) : result PyVal :=
  match v with
  | PList l => getitem l 0
  | PStr s =>
      match s with
      | String c _ => ret (PStr (String c EmptyString))
      | EmptyString => raise IndexError
      end
  | PDict _ => raise (KeyError "0")
  | _ => raise TypeError
  end.

(** [len(v)] *)
Definition py_len (v : PyVal) : result nat :=
  match v with
  | PList l => ret (List.length l)
  | PDict kv => ret (List.length kv)
  | PStr s => ret (String.length s)
  | _ => raise TypeError
  end.

(** The items [for x in v] runs through. *)
Definition py_iter (v : PyVal) : result (list PyVal) :=
  match v with
  | PList l => ret l
  | PDict kv => ret (List.map (fun p => PStr (fst p)) kv)
  | PStr s => ret (List.map (fun c => PStr (String c EmptyString)) (list_ascii_of_string s))
  | _ => raise TypeError
  end.

(** [v[:4] == 'http'] *)
Definition slice4_is_http (v : PyVal) : result bool :=
  match v with
  | PStr s => ret (String.eqb (slice_to 4 s) "http")
  | PList _ => ret false
  | _ => raise TypeError
  end.

(** [v.split(sep)]: only a string has the method *)
Definition py_split (sep : string) (v : PyVal) : result (list string) :=
  match v with
  | PStr s => ret (split sep s)
  | _ => raise AttributeError
  end.

(** ** State

    A method that changes [self], asks the network or writes to the log
    maps the state before the call to the state after it, and raises or
    returns.  The state reached when an exception is raised is kept: what
    was changed before stays changed. *)
Section State.

Context {St : Type}.

Definition M (A : Type) : Type := St -> result A * St.

Definition mret {A} (a : A) : M A := fun w => (ret a, w).
Definition mraise {A} (e : PyExn) : M A := fun w => (raise e, w).
Definition mbind {A B} (m : M A) (k : A -> M B) : M B :=
  fun w =>
    match m w with
    | (inl e, w') => (inl e, w')
    | (inr a, w') => k a w'
    end.
Definition lift {A} (r : result A) : M A := fun w => (r, w).
Definition gets {A} (f : St -> A) : M A := fun w => (ret (f w), w).
Definition modify (f : St -> St) : M unit := fun w => (ret tt, f w).

(** [try: m  except Exception: h]; [None] tells that the handler ran. *)
Definition try_except {A} (m : M A) (h : M unit) : M (option A) :=
  fun w =>
    match m w with
    | (inl _, w') =>
        match h w' with
        | (inl e, w'') => (inl e, w'')
        | (inr _, w'') => (ret None, w'')
        end
    | (inr a, w') => (ret (Some a), w')
    end.

(** [for x in l: body(x)] *)
Fixpoint mfor {A} (l : list A) (body : A -> M unit) : M unit :=
  match l with
  | [] => mret tt
  | x :: l' => mbind (body x) (fun _ => mfor l' body)
  end.

Definition when (b : bool) (m : M unit) : M unit := if b then m else mret tt.

End State.

Arguments M : clear implicits.

End Py.

Export Py.

Notation "'do' x <- m ; k" := (bind m (fun x => k))
  (at level 10, x name, m at level 100, k at level 200, only parsing).
Notation "'do_' m ; k" := (bind m (fun _ => k))
  (at level 10, m at level 100, k at level 200, only parsing).
Notation "'doM' x <- m ; k" := (mbind m (fun x => k))
  (at level 10, x name, m at level 100, k at level 200, only parsing).
Notation "'doM_' m ; k" := (mbind m (fun _ => k))
  (at level 10, m at level 100, k at level 200, only parsing).

(* ===================================================================== *)
(** * owmeta/document.py *)
(* ===================================================================== *)

Module document.

(** ** Properties of a data object

    A property of a data object holds its values in the order they were
    set.  A value is either a literal, or a variable standing for an
    unknown value in a query; only a literal is [defined]. *)
Inductive PropertyValue : Type :=
| Literal (v : PyVal)
| Var (name : string).

Definition defined (x : PropertyValue) : bool :=
  match x with Literal _ => true | Var _ => false end.

Definition Property : Type := list PropertyValue.

(** [prop.has_defined_value()] *)
Definition has_defined_value (p : Property) : bool := existsb defined p.

(** [prop.defined_values], each as the Python value it holds *)
Fixpoint defined_values (p : Property) : list PyVal :=
  match p with
  | [] => []
  | Literal v :: p' => v :: defined_values p'
  | Var _ :: p' => defined_values p'
  end.

(** [prop.set(v)]: [None] is refused; a property declared with
    [multiple=True] keeps its earlier values, any other is cleared first. *)
Definition Property_set (multiple : bool) (v : PyVal) (p : Property) : result Property :=
  match v with
  | PNone => raise (ValueError "It is not permitted to declare a property to have value the None")
  | _ => ret ((if multiple then p else []) ++ [Literal v])%list
  end.

(** [prop()]: the values when [multiple], else the first value or [None] *)
Definition Property_get (p : Property) : PyVal :=
  match defined_values p with
  | v :: _ => v
  | [] => PNone
  end.

(** ** The Document class *)

Record Document : Type := mkDocument {
  author : Property;   (* DatatypeProperty(multiple=True) *)
  doi : Property;
  uri : Property;      (* DatatypeProperty(multiple=True) *)
  wbid : Property;
  pmid : Property;
  year : Property;
  title : Property
}.

(** Names of the properties of a Document. *)
Inductive Attr : Type :=
| a_author | a_doi | a_uri | a_wbid | a_pmid | a_year | a_title.

Definition attr_name (a : Attr) : string :=
  match a with
  | a_author => "author" | a_doi => "doi" | a_uri => "uri" | a_wbid => "wbid"
  | a_pmid => "pmid" | a_year => "year" | a_title => "title"
  end.

Definition multiple (a : Attr) : bool :=
  match a with a_author | a_uri => true | _ => false end.

Definition getattr (self : Document) (a : Attr) : Property :=
  match a with
  | a_author => author self | a_doi => doi self | a_uri => uri self
  | a_wbid => wbid self | a_pmid => pmid self | a_year => year self
  | a_title => title self
  end.

(** The document in which property [a] holds the values [p]. *)
Definition with_attr (a : Attr) (p : Property) (self : Document) : Document :=
  match a with
  | a_author => mkDocument p (doi self) (uri self) (wbid self) (pmid self) (year self) (title self)
  | a_doi => mkDocument (author self) p (uri self) (wbid self) (pmid self) (year self) (title self)
  | a_uri => mkDocument (author self) (doi self) p (wbid self) (pmid self) (year self) (title self)
  | a_wbid => mkDocument (author self) (doi self) (uri self) p (pmid self) (year self) (title self)
  | a_pmid => mkDocument (author self) (doi self) (uri self) (wbid self) p (year self) (title self)
  | a_year => mkDocument (author self) (doi self) (uri self) (wbid self) (pmid self) p (title self)
  | a_title => mkDocument (author self) (doi self) (uri self) (wbid self) (pmid self) (year self) p
  end.

(** [getattr(self, a).set(v)], also written [self.a(v)] *)
Definition set (a : Attr) (v : PyVal) (self : Document) : result Document :=
  do p <- Property_set (multiple a) v (getattr self a);
  ret (with_attr a p self).

(** [getattr(self, a).clear()] ([owmeta_core], which is not among the
    sources), taken to do what its name says: the property is left without
    a value. *)
Definition clear (a : Attr) (self : Document) : Document := with_attr a [] self.

Definition empty_document : Document := mkDocument [] [] [] [] [] [] [].

(** [self.id_precedence = ('doi', 'pmid', 'wbid', 'uri')] *)
Definition id_precedence : list Attr := [a_doi; a_pmid; a_wbid; a_uri].

(** ** Keyword arguments

    [__init__] binds [bibtex], [doi], [pubmed] and [wormbase] itself; every
    other keyword goes to the constructor of the base class, which sets the
    property of that name.  [wormbaseid] and [date] are aliases. *)
Inductive KwKey : Type :=
| kw_author | kw_uri | kw_wbid | kw_wormbaseid | kw_pmid | kw_year | kw_date
| kw_title.

Definition kw_attr (k : KwKey) : Attr :=
  match k with
  | kw_author => a_author | kw_uri => a_uri
  | kw_wbid | kw_wormbaseid => a_wbid
  | kw_pmid => a_pmid
  | kw_year | kw_date => a_year
  | kw_title => a_title
  end.

Definition Kwargs : Type := list (KwKey * PyVal).

Definition is_alias (k : KwKey) : bool :=
  match k with kw_wormbaseid | kw_date => true | _ => false end.

(** Setting the property of every keyword that has a value; a keyword given
    as [None] is passed over. *)
Fixpoint set_keywords (kwargs : Kwargs) (self : Document) : result Document :=
  match kwargs with
  | [] => ret self
  | (k, v) :: rest =>
      if is_None v then set_keywords rest self
      else
        do self <- set (kw_attr k) v self;
        set_keywords rest self
  end.

(** The constructor of the base class ([owmeta_core], which is not among
    the sources), called with the remaining keywords.  A property given
    under its own name and under its alias keeps the value given under the
    alias, in whatever order the keywords are written: the aliases are set
    last. *)
Definition DataObject_init (kwargs : Kwargs) (self : Document) : result Document :=
  set_keywords (List.filter (fun kv => negb (is_alias (fst kv))) kwargs
                  ++ List.filter (fun kv => is_alias (fst kv)) kwargs)%list self.

(** ** Bibliographic entries *)

(** Modelled from the spec: [owmeta/bibtex.py] is not among the sources.
    An entry carries the fields that are populated from it: authors, title,
    year and DOI. *)
Record BibEntry : Type := mkBibEntry {
  bib_author : list string;
  bib_title : option string;
  bib_year : option string;
  bib_doi : option string
}.

(** What [BIB.loads] returns: the parsed entries, in [entries]. *)
Record BibDatabase : Type := mkBibDatabase { entries : list BibEntry }.

Definition set_opt (a : Attr) (v : option string) (self : Document) : result Document :=
  match v with
  | Some s => set a (PStr s) self
  | None => ret self
  end.

Fixpoint set_each (a : Attr) (vs : list string) (self : Document) : result Document :=
  match vs with
  | [] => ret self
  | v :: vs' => do self <- set a (PStr v) self; set_each a vs' self
  end.

(** Modelled from the spec: [BIB.update_document_with_bibtex] of
    [owmeta/bibtex.py], which is not among the sources: populate the
    author, title, year and doi fields from the entry. *)
Definition update_document_with_bibtex (self : Document) (e : BibEntry) : result Document :=
  do self <- set_each a_author (bib_author e) self;
  do self <- set_opt a_title (bib_title e) self;
  do self <- set_opt a_year (bib_year e) self;
  set_opt a_doi (bib_doi e) self.

(** What [urlparse] returns when it returns, as far as it is used. *)
Record ParseResult : Type := mkParseResult { netloc : string; path : string }.

(** What a method works on: the document [self], the URLs requested from
    the network so far, and the warnings logged so far. *)
Record World : Type := mkWorld {
  this : Document;
  requested : list string;
  logged : list string
}.

(** What an enrichment from WormBase keeps of a state: the requests, and
    the properties [wbid] and [uri]; when [keep] is set also the authors,
    to which it may add. *)
Definition kept (keep : bool) (w w' : World) : Prop :=
  requested w' = requested w
  /\ wbid (this w') = wbid (this w)
  /\ uri (this w') = uri (this w)
  /\ (keep = true -> exists more, author (this w') = (author (this w) ++ more)%list).

(** The summary document PubMed answers with, as the texts of the elements
    that [findall] selects for each of the four paths. *)
Record DocSum : Type := mkDocSum {
  AuthorList : list PyVal;
  Title : list PyVal;
  DOI : list PyVal;
  PubDate : list PyVal
}.

Definition decimal (n : nat) : string := NilEmpty.string_of_uint (Nat.to_uint n).

(** The exceptions of this module that tell a failed retrieval. *)
Definition is_retrieval_exception (e : PyExn) : bool :=
  match e with
  | WormbaseRetrievalException _ | PubmedRetrievalException _ => true
  | _ => false
  end.

(** The message of [update_with_bibtex] for a text with [n] entries. *)
Definition entry_count_message (n : nat) : string :=
  "The given BibTex string has " ++ decimal n
    ++ " entries. Cannot determine which entry to use for the document".


Section Library.

(** [rdflib]: the N3 form of a literal. *)
Variable n3 : PyVal -> string.
(** [owmeta_core]: [make_identifier], from the hashed string to the URI. *)
Variable make_identifier : string -> string.
(** [urllib]: [urlparse], which returns the parts of the URL or raises (a
    [ValueError] for a host with a bracket that is not closed). *)
Variable urlparse : string -> result ParseResult.
(** [bibtexparser], through [BIB.loads]. *)
Variable BIB_loads : string -> BibDatabase.
(** [bibtexparser]: [len] of a database, which returns or raises. *)
Variable BIB_len : BibDatabase -> result nat.

(** ** Identity *)

(** The loop of [defined_augment] over a suffix of the precedence list. *)
Fixpoint defined_augment_loop (self : Document) (ks : list Attr) : bool :=
  match ks with
  | [] => false
  | x :: ks' =>
      if has_defined_value (getattr self x) then true
      else defined_augment_loop self ks'
  end.

Definition defined_augment (self : Document) : bool :=
  defined_augment_loop self id_precedence.

(** The loop of [identifier_augment] over a suffix of the precedence list. *)
Fixpoint identifier_augment_loop (self : Document) (ks : list Attr) : result string :=
  match ks with
  | [] => raise IdentifierMissingException
  | idKind :: ks' =>
      let idprop := getattr self idKind in
      if has_defined_value idprop then
        do v <- getitem (defined_values idprop) 0;
        let s := attr_name idKind ++ ":" ++ n3 v in
        ret (make_identifier s)
      else identifier_augment_loop self ks'
  end.

Definition identifier_augment (self : Document) : result string :=
  identifier_augment_loop self id_precedence.

(** ** Construction *)

(** [str(urlparse(uri).path.split("/")[2])]; a [str] is never [None]. *)
Definition _wormbase_uri_to_wbid (uri : string) : result (option string) :=
  do parsed <- urlparse uri;
  do seg <- getitem (split "/" (path parsed)) 2;
  ret (Some seg).

Definition _pubmed_uri_to_pmid (uri : string) : result (option string) :=
  do parsed <- urlparse uri;
  do seg <- getitem (split "/" (path parsed)) 2;
  ret (Some seg).

Definition _doi_uri_to_doi (uri : string) : result (option string) :=
  do parsed <- urlparse uri;
  if contains "doi.org" (netloc parsed) then
    do d <- getitem (split1 "/" (path parsed)) 1;
    ret (Some d)
  else ret None.

Definition update_with_bibtex (self : Document) (bibtex : string) : result Document :=
  let bib_db := BIB_loads bibtex in
  if (1 <? List.length (entries bib_db))%nat then
    do n <- BIB_len bib_db;
    raise (ValueError (entry_count_message n))
  else
    do e <- getitem (entries bib_db) 0;
    update_document_with_bibtex self e.

(** [if bibtex is not None: self.update_with_bibtex(bibtex)] *)
Definition init_bibtex (bibtex : option string) (self : Document) : result Document :=
  match bibtex with
  | Some b => update_with_bibtex self b
  | None => ret self
  end.

(** [if pubmed is not None and not self.pmid.has_defined_value(): ...] *)
Definition init_pubmed (pubmed : option string) (self : Document) : result Document :=
  match pubmed with
  | Some pubmed =>
      if negb (has_defined_value (pmid self)) then
        do pmid' <-
          (if String.eqb (slice_to 4 pubmed) "http" then
             do _tmp <- _pubmed_uri_to_pmid pubmed;
             match _tmp with
             | None => raise (ValueError "Couldn't convert Pubmed URL to a PubMed ID")
             | Some t => ret t
             end
           else ret pubmed);
        set a_pmid (PStr pmid') self
      else ret self
  | None => ret self
  end.

(** [if wormbase is not None and not self.wbid.has_defined_value(): ...] *)
Definition init_wormbase (wormbase : option string) (self : Document) : result Document :=
  match wormbase with
  | Some wormbase =>
      if negb (has_defined_value (wbid self)) then
        do wbid' <-
          (if String.eqb (slice_to 4 wormbase) "http" then
             do _tmp <- _wormbase_uri_to_wbid wormbase;
             match _tmp with
             | None => raise (ValueError "Couldn't convert Wormbase URL to a Wormbase ID")
             | Some t => ret t
             end
           else ret wormbase);
        set a_wbid (PStr wbid') self
      else ret self
  | None => ret self
  end.

(** The value that [doi] holds before [self.doi.set(doi)]: the parameter,
    or the DOI taken from it when it is a URL of a DOI resolver. *)
Definition doi_of_parameter (d : string) : result string :=
  if String.eqb (slice_to 4 d) "http" then
    do _tmp <- _doi_uri_to_doi d;
    match _tmp with
    | Some t => ret t
    | None => ret d
    end
  else ret d.

(** [if doi is not None: ...] *)
Definition init_doi (doi' : option string) (self : Document) : result Document :=
  match doi' with
  | Some d =>
      do d <- doi_of_parameter d;
      set a_doi (PStr d) self
  | None => ret self
  end.

(** [Document.__init__]; [kwargs] are the keywords it does not bind. *)
Definition __init__ (bibtex doi' pubmed wormbase : option string) (kwargs : Kwargs)
  : result Document :=
  do self <- DataObject_init kwargs empty_document;
  do self <- init_bibtex bibtex self;
  do self <- init_pubmed pubmed self;
  do self <- init_wormbase wormbase self;
  init_doi doi' self.

(** ** Enrichment from remote services *)

(** [self.conf] and [self.get]: the configuration. *)
Variable conf : string -> option string.
(** Python's [str] on a value. *)
Variable py_str : PyVal -> string.
(** [urllib]: [urlencode] of the one-entry dictionary with key [q]. *)
Variable urlencode_q : PyVal -> string.
(** The network, for [_json_request]: the decoded JSON of the response to a
    URL, or [None] when the request or the decoding fails in any way. *)
Variable http_json : string -> option PyVal.
(** The network, for [pmRequest]: the parsed summary, or [None] when the
    request or the parsing raises. *)
Variable http_xml : string -> option DocSum.

Definition warning (msg : string) : M World unit :=
  modify (fun w => mkWorld (this w) (requested w) (logged w ++ [msg])%list).

Definition request (url : string) : M World unit :=
  modify (fun w => mkWorld (this w) (requested w ++ [url])%list (logged w)).

(** A method of [self] that neither asks the network nor logs. *)
Definition on_self (f : Document -> result Document) : M World unit :=
  fun w =>
    match f (this w) with
    | inl e => (inl e, w)
    | inr d => (ret tt, mkWorld d (requested w) (logged w))
    end.

(** [_json_request(url)]: every failure below it is caught and logged, and
    the empty dictionary is returned. *)
Definition _json_request (url : string) : M World PyVal :=
  doM_ request url;
  match http_json url with
  | Some j => mret j
  | None =>
      doM_ warning ("Couldn't retrieve JSON data from " ++ url);
      mret (PDict [])
  end.

(** The body of the loop over [('pmid', 'year', 'title', 'doi')]. *)
Definition wormbase_field (replace_existing : bool) (f : PyVal) (fname : Attr)
  : M World unit :=
  doM present <- lift (py_in (attr_name fname) f);
  if present then
    doM fv <- lift (py_getitem f (attr_name fname));
    doM data <- lift (py_getitem fv "data");
    if negb (is_None data) then
      (* [attr.has_defined_value] is not called: a bound method is true *)
      doM_ when (replace_existing && true) (on_self (fun d => ret (clear fname d)));
      on_self (set fname data)
    else mret tt
  else mret tt.

Definition wormbase_authors (replace_existing : bool) (f : PyVal) : M World unit :=
  doM present <- lift (py_in "authors" f);
  if present then
    doM fa <- lift (py_getitem f "authors");
    doM dat <- lift (py_getitem fa "data");
    if negb (is_None dat) then
      doM_ when (replace_existing && true) (on_self (fun d => ret (clear a_author d)));
      doM xs <- lift (py_iter dat);
      mfor xs (fun x =>
        doM label <- lift (py_getitem x "label");
        on_self (set a_author label))
    else mret tt
  else mret tt.

Definition update_from_wormbase (replace_existing : bool) : M World unit :=
  doM wbid <- gets (fun w => defined_values (wbid (this w)));
  if (List.length wbid =? 1)%nat then
    doM wbid <- lift (getitem wbid 0);
    doM_ try_except
      (let root := default "http://rest.wormbase.org" (conf "wormbase_api_root_url") in
       let url := root ++ "/rest/widget/paper/" ++ py_str wbid
                       ++ "/overview?content-type=application%2Fjson" in
       doM j <- _json_request url;
       doM has_fields <- lift (py_in "fields" j);
       if has_fields then
         doM f <- lift (py_getitem j "fields");
         doM_ wormbase_authors replace_existing f;
         mfor [a_pmid; a_year; a_title; a_doi] (wormbase_field replace_existing f)
       else mret tt)
      (warning "Couldn't retrieve Wormbase data");
    mret tt
  else if (List.length wbid =? 0)%nat then
    mraise (WormbaseRetrievalException
              ("There is no Wormbase ID attached to this Document."
                 ++ " So no data can be retrieved"))
  else
    mraise (WormbaseRetrievalException
              ("There is more than one Wormbase ID attached to this Document."
                 ++ " Please try with just one Wormbase ID")).

(** [crRequest(doi)] *)
Definition crRequest (doi' : PyVal) : M World PyVal :=
  let data_encoded := urlencode_q doi' in
  _json_request ("http://search.labs.crossref.org/dois?" ++ data_encoded).

(** [[y.replace('+', ' ').strip() for y in x]] *)
Definition clean_field (x : list string) : list string :=
  List.map (fun y => strip (replace_char "+" " " y)) x.

(** [[x[1] for x in fields if x[0] == 'rft.au']] *)
Fixpoint rft_authors (fields : list (list string)) : result (list string) :=
  match fields with
  | [] => ret []
  | x :: fields' =>
      do x0 <- getitem x 0;
      if String.eqb x0 "rft.au" then
        do x1 <- getitem x 1;
        do rest <- rft_authors fields';
        ret (x1 :: rest)
      else rft_authors fields'
  end.

Definition crossref_field (r : PyVal) (fname : Attr) : M World unit :=
  doM present <- lift (py_in (attr_name fname) r);
  if present then
    doM v <- lift (py_getitem r (attr_name fname));
    on_self (set fname v)
  else mret tt.

Definition _crossref_doi_extract : M World unit :=
  doM doi' <- gets (fun w => Property_get (doi (this w)));
  doM is_http <- lift (slice4_is_http doi');
  doM doi' <-
    (if is_http then
       match doi' with
       | PStr s =>
           doM d <- lift (_doi_uri_to_doi s);
           mret (match d with Some t => PStr t | None => PNone end)
       | _ => mret doi'
       end
     else mret doi');
  doM r <- try_except (crRequest doi') (warning "Couldn't retrieve Crossref info");
  match r with
  | None => mret tt
  | Some r =>
      doM n <- lift (py_len r);
      if (0 <? n)%nat then
        doM r0 <- lift (py_first r);
        doM coins <- lift (py_getitem r0 "coins");
        doM extra_data <- lift (py_split "&amp;" coins);
        let fields := List.map (fun x => clean_field (split "=" x)) extra_data in
        doM authors <- lift (rft_authors fields);
        doM_ mfor authors (fun a => on_self (set a_author (PStr a)));
        doM_ crossref_field r0 a_title;
        crossref_field r0 a_year
      else mret tt
  end.

(** [pmRequest(pmid)].  Whatever the request or the parser raises is caught
    by the caller, so one exception stands for all of them. *)
Definition pmRequest (pmid' : PyVal) : M World DocSum :=
  let url := "https://eutils.ncbi.nlm.nih.gov/entrez/eutils/esummary.fcgi?db=pubmed&id="
               ++ py_str pmid' in
  let key := conf "pubmed.api_key" in
  doM url <-
    (match key with
     | Some k =>
         if truthy k then mret (url ++ "&api_key=" ++ k)
         else doM_ warning "PubMed API key not defined. API calls will be limited."; mret url
     | None =>
         doM_ warning "PubMed API key not defined. API calls will be limited."; mret url
     end);
  doM_ request url;
  match http_xml url with
  | Some tree => mret tree
  | None => mraise (Exception_ "request failed")
  end.

Definition update_from_pubmed : M World unit :=
  doM pmid <- gets (fun w => defined_values (pmid (this w)));
  if (List.length pmid =? 1)%nat then
    doM pmid <- lift (getitem pmid 0);
    doM tree <- try_except (pmRequest pmid) (warning "Couldn't retrieve Pubmed info");
    match tree with
    | None => mret tt
    | Some tree =>
        doM_ mfor (AuthorList tree) (fun x => on_self (set a_author x));
        doM_ mfor (Title tree) (fun x => on_self (set a_title x));
        doM_ mfor (DOI tree) (fun x => on_self (set a_doi x));
        mfor (PubDate tree) (fun x => on_self (set a_year x))
    end
  else if (List.length pmid =? 0)%nat then
    mraise (PubmedRetrievalException
              "No Pubmed ID is attached to this document. Cannot retrieve Pubmed data")
  else
    mraise (PubmedRetrievalException
              ("More than one Pubmed ID is attached to this document."
                 ++ " Please try with just one Pubmed ID")).

End Library.

End document.

(* ===================================================================== *)
(** * owmeta/data_trans/context_merge.py *)
(* ===================================================================== *)

Module context_merge.

#[local] Set Warnings "-register-all".

(** A context is identified, and refers to the contexts it imports, in the
    order in which they were added. *)
Inductive Context : Type :=
  mkContext { ident : string; imports : list Context }.

(** [ctx.add_import(other)] *)
Definition add_import (ctx other : Context) : Context :=
  mkContext (ident ctx) (imports ctx ++ [other])%list.

(** The contexts reached from [ctx] by following imports. *)
Fixpoint closure (ctx : Context) : list Context :=
  match ctx with
  | mkContext _ imps => List.flat_map (fun c => c :: closure c) imps
  end.

(** A translation result: what [DataWithEvidenceDataSource] carries as far
    as the translator uses it. *)
Record DataWithEvidenceDataSource : Type := mkSource {
  identifier : string;
  data_context : Context;
  evidence_context : Context
}.

Abbreviation Source := DataWithEvidenceDataSource.

(** [sorted(sources, key=lambda s: s.identifier)].  Python's sort is
    stable: among sources with equal keys the one given first stays first.
    [insert] puts a source before the first one whose key is not smaller. *)
Fixpoint insert (s : Source) (l : list Source) : list Source :=
  match l with
  | [] => [s]
  | t :: l' =>
      if String.leb (identifier s) (identifier t) then s :: l
      else t :: insert s l'
  end.

Fixpoint sorted (sources : list Source) : list Source :=
  match sources with
  | [] => []
  | s :: rest => insert s (sorted rest)
  end.

Section Translator.

(** [owmeta_core]: the object that [make_new_output] builds for the given
    sources. *)
Variable new_output : list Source -> Source.

(** The state of a translator is the list of the outputs it has made. *)
Definition make_new_output (sources : list Source) : M (list Source) Source :=
  let res := new_output sources in
  doM_ modify (fun made => made ++ [res])%list;
  mret res.

(** The body of the loop over the sources. *)
Definition import_source (res src : Source) : Source :=
  mkSource (identifier res)
           (add_import (data_context res) (data_context src))
           (add_import (evidence_context res) (evidence_context src)).

Definition translate (sources : list Source) : M (list Source) Source :=
  match sources with
  | [] => mraise (Exception_ "No sources were provided")
  | _ :: _ =>
      let sources := sorted sources in
      doM res <- make_new_output sources;
      mret (List.fold_left import_source sources res)
  end.

End Translator.

End context_merge.

(* ===================================================================== *)
(** * owmeta/data_trans/wormbase.py *)
(* ===================================================================== *)

Module wormbase.

(** A record of a table read by position. *)
Abbreviation Row := (list string).

(** A record of a table read by column name ([dict_reader=True]). *)
Abbreviation DictRow := (gmap string string).

(** [line[k]] on a dictionary record *)
Definition dict_getitem (line : DictRow) (k : string) : result string :=
  match line !! k with
  | Some v => ret v
  | None => raise (KeyError k)
  end.

(** The document every translator of this module gives as evidence. *)
Record Website : Type := mkWebsite { key : string; url : string; title : string }.

Definition wormbase_website : Website :=
  mkWebsite "wormbase" "http://Wormbase.org" "WormBase".

(** ** Ion channels *)

Record ExpressionPattern : Type := mkExpressionPattern {
  wormbaseid : string;
  ep_description : string
}.

Record Channel : Type := mkChannel {
  name : string;
  gene_name : string;
  gene_WB_ID : string;
  description : string;
  expression_pattern : list ExpressionPattern
}.

Fixpoint skip_spaces (s : string) : string :=
  match s with
  | String c s' => if Ascii.eqb c " " then skip_spaces s' else s
  | EmptyString => s
  end.

(** The longest prefix of [s] without the character [stop], and the rest. *)
Fixpoint span_until (stop : ascii) (s : string) : string * string :=
  match s with
  | EmptyString => (EmptyString, EmptyString)
  | String c s' =>
      if Ascii.eqb c stop then (EmptyString, s)
      else let (p, r) := span_until stop s' in (String c p, r)
  end.

Definition newline : ascii := ascii_of_nat 10.

(** [regex.match(pat)] for the compiled pattern of the loop, as its two
    groups.  The pattern reads: spaces, an opening bracket, the first group
    of one or more characters other than a closing bracket, a closing
    bracket, spaces, the second group of any characters of the line,
    spaces.  Every repetition is greedy and none has to give back: the
    spaces end at the first character that is no space, the first group
    ends at the first closing bracket, which has to exist after at least
    one character, and the second group runs to the end of the line. *)
Definition regex_match (pat : string) : option (string * string) :=
  match skip_spaces pat with
  | String c s1 =>
      if Ascii.eqb c "[" then
        let (g1, r1) := span_until "]" s1 in
        match g1, r1 with
        | String _ _, String _ r2 =>
            let (g2, _) := span_until newline (skip_spaces r2) in
            Some (g1, g2)
        | _, _ => None
        end
      else None
  | EmptyString => None
  end.

(** [[ctx.ExpressionPattern(...) for m in matches if m is not None]] *)
Fixpoint expression_patterns (matches : list (option (string * string)))
  : list ExpressionPattern :=
  match matches with
  | [] => []
  | Some (g1, g2) :: ms => mkExpressionPattern g1 g2 :: expression_patterns ms
  | None :: ms => expression_patterns ms
  end.

(** ** The entries of a field of expression patterns, as the design
    describes them

    The design gives the field as a list of entries between the separators,
    each entry being spaces, an id in brackets, spaces and a description,
    and has the entries that are not of this form left out.  These
    definitions say so without the means of the code, to compare the code
    with. *)




Section Translators.

(** [owmeta/utils.py] is not among the sources. *)
Variable normalize_cell_name : string -> string.

(** The body of the loop of [WormbaseIonChannelCSVTranslator.translate]. *)
Definition channel_of_line (line : Row) : result Channel :=
  do l0 <- getitem line 0;
  let channel_name := upper (normalize_cell_name l0) in
  do l1 <- getitem line 1;
  let gene_name := upper l1 in
  do l2 <- getitem line 2;
  let gene_WB_ID := upper l2 in
  do expression_pattern <- getitem line 3;
  do description <- getitem line 4;
  let patterns := split " | " expression_pattern in
  let matches := List.map regex_match patterns in
  let patterns := expression_patterns matches in
  ret (mkChannel channel_name gene_name gene_WB_ID description patterns).

Fixpoint channels_of_lines (csvreader : list Row) : result (list Channel) :=
  match csvreader with
  | [] => ret []
  | line :: rest =>
      do c <- channel_of_line line;
      do cs <- channels_of_lines rest;
      ret (c :: cs)
  end.

(** [WormbaseIonChannelCSVTranslator.translate], on the records the reader
    yields: the evidence and the channels written to the data context. *)
Definition IonChannel_translate (csvreader : list Row) : result (Website * list Channel) :=
  do cs <- channels_of_lines csvreader;
  ret (wormbase_website, cs).

(** ** Cells that a channel appears in *)

Fixpoint skip_to_header_loop (reader : list Row) (rows : nat) : option Row * list Row :=
  match reader with
  | [] => (None, [])
  | row :: rest =>
      if (rows =? 3)%nat then (Some row, rest)
      else skip_to_header_loop rest (S rows)
  end.

(** [skip_to_header(reader)]: the header, and what is left in the reader. *)
Definition skip_to_header (reader : list Row) : option Row * list Row :=
  skip_to_header_loop reader 0.

Fixpoint extract_cell_names_loop (header : Row) (initial_cell_column : Z)
    (row : Row) (cols : nat) (res : list string) : result (list string) :=
  match row with
  | [] => ret res
  | col :: row' =>
      do res <-
        (if (initial_cell_column <? Z.of_nat cols)%Z then
           if String.eqb col "1" || String.eqb col "2" then
             do h <- getitem header cols;
             ret (res ++ [h])%list
           else ret res
         else ret res);
      extract_cell_names_loop header initial_cell_column row' (S cols) res
  end.

Definition extract_cell_names (header : Row) (initial_cell_column : Z) (row : Row)
  : result (list string) :=
  extract_cell_names_loop header initial_cell_column row 0 [].

(** A channel and the cells of the chosen type it appears in. *)
Record Appearance : Type := mkAppearance {
  channel : string;
  appearsIn : list string
}.

Fixpoint appearances (header : Row) (initcol : Z) (reader : list Row)
  : result (list Appearance) :=
  match reader with
  | [] => ret []
  | row :: rest =>
      do cells <- extract_cell_names header initcol row;
      do r0 <- getitem row 0;
      do more <- appearances header initcol rest;
      ret (mkAppearance r0 cells :: more)
  end.

(** [WormbaseTextMatchCSVTranslator.translate], on the rows of the file.
    Without a header the reader is exhausted and no row is translated.
    The class of the cells, which the context resolves from the name the
    data source gives, decides the type of the cells made and not their
    names; it is left out. *)
Definition TextMatch_translate (initcol : Z) (rows : list Row)
  : result (Website * list Appearance) :=
  match skip_to_header rows with
  | (Some header, reader) =>
      do apps <- appearances header initcol reader;
      ret (wormbase_website, apps)
  | (None, _) => ret (wormbase_website, [])
  end.

(** ** Muscles and neurons *)

(** [line[7] or line[8] or line[9] == '1'], as a truth value *)
Definition muscle_marked (line : Row) : result bool :=
  do l7 <- getitem line 7;
  if truthy l7 then ret true
  else
    do l8 <- getitem line 8;
    if truthy l8 then ret true
    else
      do l9 <- getitem line 9;
      ret (String.eqb l9 "1").

(** [MuscleWormBaseCSVTranslator.translate]: the names of the muscles of
    the worm, in the order of the records. *)
Fixpoint muscles (csvreader : list Row) : result (list string) :=
  match csvreader with
  | [] => ret []
  | line :: rest =>
      do marked <- muscle_marked line;
      if marked then
        do l0 <- getitem line 0;
        let muscle_name := upper (normalize_cell_name l0) in
        do ms <- muscles rest;
        ret (muscle_name :: ms)
      else muscles rest
  end.

Definition Muscle_translate (csvreader : list Row) : result (Website * list string) :=
  do ms <- muscles csvreader;
  ret (wormbase_website, ms).

(** [line[5] == '1'] *)
Definition neuron_marked (line : Row) : result bool :=
  do l5 <- getitem line 5;
  ret (String.eqb l5 "1").

Fixpoint neurons (csvreader : list Row) : result (list string) :=
  match csvreader with
  | [] => ret []
  | line :: rest =>
      do marked <- neuron_marked line;
      if marked then
        do l0 <- getitem line 0;
        let neuron_name := upper (normalize_cell_name l0) in
        do ns <- neurons rest;
        ret (neuron_name :: ns)
      else neurons rest
  end.

Definition Neuron_translate (csvreader : list Row) : result (Website * list string) :=
  do ns <- neurons csvreader;
  ret (wormbase_website, ns).

(** ** WormBase identifiers *)

(** A cell stored in a data context. *)
Record Cell : Type := mkCell { cell_ident : string; cell_name : string }.

(** [data_context.stored(Cell).query(name=n).load()]: the stored cells with
    that name. *)
Definition query_load (data_context : list Cell) (n : string) : list Cell :=
  List.filter (fun c => String.eqb (cell_name c) n) data_context.

(** A statement that a cell has a WormBase identifier. *)
Record WormbaseID : Type := mkWormbaseID { subject : Cell; wormbaseID : string }.

(** [for loaded_cell in cell.load(): doc_ctx(loaded_cell).wormbaseID(line['WormBase ID'])] *)
Fixpoint set_ids (line : DictRow) (loaded : list Cell) : result (list WormbaseID) :=
  match loaded with
  | [] => ret []
  | loaded_cell :: rest =>
      do id <- dict_getitem line "WormBase ID";
      do more <- set_ids line rest;
      ret (mkWormbaseID loaded_cell id :: more)
  end.

(** The loop over [enumerate(csvreader)], from the record numbered [num]. *)
Fixpoint IDSetter_loop (cells_source : list Cell) (csvreader : list DictRow) (num : nat)
  : result (list WormbaseID) :=
  match csvreader with
  | [] => ret []
  | line :: rest =>
      if (num <? 1)%nat then IDSetter_loop cells_source rest (S num)
      else
        do c <- dict_getitem line "Cell";
        let cell_name := normalize_cell_name c in
        let cell := query_load cells_source cell_name in
        do here <- set_ids line cell;
        do more <- IDSetter_loop cells_source rest (S num);
        ret (here ++ more)%list
  end.

(** What the design asks of the translator for one data record: a statement
    for every stored cell that has the normalised name of the record, with
    the WormBase identifier of the record. *)
Definition updates_of (cells_source : list Cell) (line : DictRow) : list WormbaseID :=
  List.map (fun c => mkWormbaseID c (default EmptyString (line !! "WormBase ID")))
           (query_load cells_source
              (normalize_cell_name (default EmptyString (line !! "Cell")))).

(** [WormbaseIDSetter.translate(data_source, cells_source)], on the records
    the reader yields and the cells of the data context of [cells_source]. *)
Definition IDSetter_translate (csvreader : list DictRow) (cells_source : list Cell)
  : result (Website * list WormbaseID) :=
  do ids <- IDSetter_loop cells_source csvreader 0;
  ret (wormbase_website, ids).

End Translators.

End wormbase.

(* ===================================================================== *)
(** * Sample data

    Stand-ins for the library functions and a few documents, sources and
    records, on which the properties below are run. *)
(* ===================================================================== *)

Module samples.

Import document context_merge wormbase.

Definition n3_angle (v : PyVal) : string :=
  match v with
  | PStr s => "<" ++ s ++ ">"
  | _ => "<>"
  end.

Definition uri_of_hash (s : string) : string := "http://openworm.org/entities/" ++ s.

Definition str_of (v : PyVal) : string :=
  match v with
  | PStr s => s
  | PInt z => decimal (Z.to_nat z)
  | _ => "None"
  end.

(** The host of a URL may hold brackets in pairs only. *)
Definition brackets_paired (host : string) : bool :=
  Bool.eqb (contains "[" host) (contains "]" host).

(** A parser of URLs of the form [scheme://host/path]; like [urlparse] it
    raises [ValueError] for a host with one bracket of a pair. *)
Definition urlparse_simple (u : string) : result ParseResult :=
  match split1 "://" u with
  | [_; rest] =>
      let parsed :=
        match split1 "/" rest with
        | [host; p] => mkParseResult host ("/" ++ p)
        | _ => mkParseResult rest ""
        end in
      if brackets_paired (netloc parsed) then ret parsed
      else raise (ValueError "Invalid IPv6 URL")
  | _ => ret (mkParseResult "" u)
  end.

Definition entry_a : BibEntry :=
  mkBibEntry ["Turing, A."; "Church, A."] (Some "On computing") (Some "1936")
             (Some "10.1000/from-bibtex").

Definition entry_b : BibEntry :=
  mkBibEntry ["Kleene, S."] (Some "Recursive predicates") (Some "1943") None.

(** A parser that knows two texts: one with one entry, one with two. *)
Definition loads_sample (bibtex : string) : BibDatabase :=
  if String.eqb bibtex "one" then mkBibDatabase [entry_a]
  else if String.eqb bibtex "two" then mkBibDatabase [entry_a; entry_b]
  else mkBibDatabase [].

(** A database counts its entries. *)
Definition len_entries (db : BibDatabase) : result nat := ret (List.length (entries db)).

(** The database of the parser defines no length: [len] of it raises. *)
Definition len_database (db : BibDatabase) : result nat := raise TypeError.

Definition no_conf (k : string) : option string := None.
Definition offline_json (u : string) : option PyVal := None.
Definition offline_xml (u : string) : option DocSum := None.

Definition lit (s : string) : PropertyValue := Literal (PStr s).

(** A document with a DOI, a PubMed ID and a WormBase ID. *)
Definition doc_all : Document :=
  mkDocument [] [lit "10.1000/xyz"] [] [lit "WBPaper00044287"] [lit "24098140"] [] [].

(** A document with a DOI only, and one that shares the DOI alone. *)
Definition doc_doi : Document := mkDocument [] [lit "10.1000/xyz"] [] [] [] [] [].

Definition doc_two_wbid : Document :=
  mkDocument [] [] [] [lit "WBPaper1"; lit "WBPaper2"] [] [] [].

Definition doc_two_pmid : Document :=
  mkDocument [] [] [] [] [lit "1"; lit "2"] [] [].

Definition world_of (d : Document) : World := mkWorld d [] [].

(** An output whose identifier is made from its sources and whose contexts
    import nothing yet. *)
Definition fresh_output (sources : list Source) : Source :=
  let id := "merge(" ++ String.concat "," (List.map identifier sources) ++ ")" in
  mkSource id (mkContext (id ++ "/data") []) (mkContext (id ++ "/evidence") []).

(** The context of the schema, and an output whose contexts import it from
    the start. *)
Definition schema_context : Context := mkContext "schema" [].

Definition schema_output (sources : list Source) : Source :=
  let id := "merge(" ++ String.concat "," (List.map identifier sources) ++ ")" in
  mkSource id (mkContext (id ++ "/data") [schema_context])
           (mkContext (id ++ "/evidence") [schema_context]).

Definition leaf (id : string) : Source :=
  mkSource id (mkContext (id ++ "/data") []) (mkContext (id ++ "/evidence") []).

Definition src_a : Source := leaf "a".
Definition src_b : Source := leaf "b".
Definition src_c : Source := leaf "c".

(** The result of a merge that starts with no output made. *)
Definition merged (sources : list Source) : result Source :=
  fst (translate fresh_output sources []).

Definition same_name (s : string) : string := s.

Definition channel_row : Row :=
  ["unc-1"; "GENE1"; "WB001"; "[WBbt:001] head neuron"; "desc"].

(** A record of the cell table with the given values in columns 7, 8, 9. *)
Definition cell_row (nm c7 c8 c9 : string) : Row :=
  [nm; ""; ""; ""; ""; ""; ""; c7; c8; c9].

(** Records of the table of identifiers: the first holds no data. *)
Definition no_data_record : DictRow := ∅.

Definition record_adal : DictRow :=
  {[ "Cell" := "ADAL"; "WormBase ID" := "WBbt:0004013" ]}.

(** A record that names no stored cell and has no identifier. *)
Definition record_unknown : DictRow := {[ "Cell" := "XYZ" ]}.

Definition stored_cells : list Cell :=
  [mkCell "cell-1" "ADAL"; mkCell "cell-2" "ADAR"; mkCell "cell-3" "ADAL"].

(** A record of the cell table that ends with column 5. *)
Definition neuron_row (nm c5 : string) : Row := [nm; ""; ""; ""; ""; c5].

(** What WormBase answers for a paper: an author, a title, and a year that
    it does not know. *)
Definition wormbase_answer : PyVal :=
  PDict [("fields",
          PDict [("authors", PDict [("data", PList [PDict [("label", PStr "Bargmann CI")]])]);
                 ("title", PDict [("data", PStr "Neurobiology of the nematode")]);
                 ("year", PDict [("data", PNone)])])].

Definition online_json (u : string) : option PyVal := Some wormbase_answer.

(** An answer of WormBase with an author, and a field [pmid] without
    data. *)
Definition malformed_json (u : string) : option PyVal :=
  Some (PDict [("fields",
                PDict [("authors",
                        PDict [("data",
                                PList (List.map (fun l => PDict [("label", l)])
                                         [PStr "Bargmann CI"]))]);
                       ("pmid", PDict [])])]).

(** The items of an encoded citation, cut at [=] and cleaned. *)
Definition coins_fields : list (list string) :=
  Eval vm_compute in
    List.map (fun x => clean_field (split "=" x))
      (split "&amp;" "ctx_ver=Z39.88-2004&amp;rft.au=Bargmann,+C.&amp;rft.au=Horvitz,+H.").

(** What PubMed answers for a paper. *)
Definition pubmed_answer : DocSum :=
  mkDocSum [PStr "Bargmann CI"; PStr "Horvitz HR"] [PStr "Chemosensory neurons"]
           [PStr "10.1016/0896-6273(91)90276-6"] [PStr "1991"].

Definition online_xml (u : string) : option DocSum := Some pubmed_answer.

(** A document known by its WormBase ID, with an author and a title. *)
Definition doc_wbid : Document :=
  mkDocument [lit "Sulston JE"] [] [] [lit "WBPaper00044287"] [] [] [lit "Draft"].

(** A document known by its PubMed ID alone. *)
Definition doc_pmid : Document := mkDocument [] [] [] [] [lit "1719723"] [] [].

(** A document whose DOI is a variable of a query and whose PubMed ID is
    known. *)
Definition doc_var_doi : Document :=
  mkDocument [] [Var "doi"] [] [] [lit "24098140"] [] [].

(** What CrossRef answers for a DOI: one item with its encoded citation. *)
Definition crossref_answer : PyVal :=
  PList [PDict [("coins", PStr "rft.au=Bargmann,+C.&amp;rft.date=1991");
                ("title", PStr "Chemosensory neurons")]].

Definition crossref_json (u : string) : option PyVal := Some crossref_answer.

(** An answer of CrossRef whose item has no encoded citation. *)
Definition crossref_bare_json (u : string) : option PyVal :=
  Some (PList [PDict [("title", PStr "Chemosensory neurons")]]).

End samples.

(* ===================================================================== *)
(** * Properties of the document identity *)
(* ===================================================================== *)

Section DocumentIdentity.

Import document.

Variable n3 : PyVal -> string.
Variable make_identifier : string -> string.

Local Abbreviation identifier := (identifier_augment n3 make_identifier).

(** A property with a defined value has a first defined value. *)
Lemma has_defined_value_first (p : Property) :
  has_defined_value p = true ->
  exists v rest, defined_values p = v :: rest.
Proof.
  induction p as [|x p IH]; simpl; [discriminate|].
  destruct x as [v|nm]; simpl.
  - intros _. eauto.
  - exact IH.
Qed.

Lemma no_defined_value_nil (p : Property) :
  has_defined_value p = false -> defined_values p = [].
Proof.
  induction p as [|x p IH]; simpl; [reflexivity|].
  destruct x as [v|nm]; simpl; [discriminate|exact IH].
Qed.

Lemma defined_values_nil_inv (p : Property) :
  defined_values p = [] -> has_defined_value p = false.
Proof.
  induction p as [|x p IH]; simpl; [reflexivity|].
  destruct x as [v|nm]; simpl; [discriminate|exact IH].
Qed.

(** Where the loop stops at a kind with a defined value. *)
Lemma identifier_loop_hit (self : Document) (k : Attr) (ks : list Attr) v rest :
  defined_values (getattr self k) = v :: rest ->
  identifier_augment_loop n3 make_identifier self (k :: ks)
  = inr (make_identifier (attr_name k ++ ":" ++ n3 v)).
Proof.
  intros Hv. simpl.
  assert (Hd : has_defined_value (getattr self k) = true).
  { destruct (has_defined_value (getattr self k)) eqn:E; [reflexivity|].
    apply no_defined_value_nil in E. congruence. }
  rewrite Hd, Hv. reflexivity.
Qed.

(** The two loops agree on every suffix of the precedence list. *)
Lemma loops_agree (self : Document) (ks : list Attr) :
  succeeds (identifier_augment_loop n3 make_identifier self ks)
  = defined_augment_loop self ks.
Proof.
  induction ks as [|k ks IH]; simpl; [reflexivity|].
  destruct (has_defined_value (getattr self k)) eqn:E; [|exact IH].
  destruct (has_defined_value_first _ E) as (v & rest & Hv).
  rewrite Hv. reflexivity.
Qed.

Lemma identifier_loop_fails (self : Document) (ks : list Attr) :
  defined_augment_loop self ks = false ->
  identifier_augment_loop n3 make_identifier self ks = inl IdentifierMissingException.
Proof.
  induction ks as [|k ks IH]; simpl; [reflexivity|].
  destruct (has_defined_value (getattr self k)); [discriminate|exact IH].
Qed.

(** C1. Whenever [doi] has a defined value -- so in particular when [doi],
    [pmid] and [wbid] all have one -- [identifier()] is the identifier made
    from the kind name [doi] and the first defined DOI, and from nothing
    else: every document with the same first defined DOI gets the same
    identifier, whatever its other properties hold. *)
Theorem identifier_uses_doi (self : Document) :
  has_defined_value (doi self) = true ->
  exists v rest,
    defined_values (doi self) = v :: rest
    /\ identifier self = inr (make_identifier ("doi:" ++ n3 v))
    /\ forall (other : Document) rest',
         defined_values (doi other) = v :: rest' -> identifier other = identifier self.
Proof.
  intros Hd.
  destruct (has_defined_value_first _ Hd) as (v & rest & Hv).
  exists v, rest. split; [exact Hv|].
  pose proof (identifier_loop_hit self a_doi [a_pmid; a_wbid; a_uri] v rest Hv) as Hself.
  split; [exact Hself|].
  intros other rest' Hother.
  unfold identifier_augment, id_precedence. rewrite Hself.
  exact (identifier_loop_hit other a_doi _ v rest' Hother).
Qed.

(** C2. [is_defined()] is true exactly when one of [doi], [pmid], [wbid],
    [uri] has a defined value; [identifier()] returns exactly when
    [is_defined()] is true, and raises [IdentifierMissingException] when
    none of the four has a defined value. *)
Theorem defined_iff_identifier (self : Document) :
  defined_augment self
  = has_defined_value (doi self) || has_defined_value (pmid self)
    || has_defined_value (wbid self) || has_defined_value (uri self)
  /\ succeeds (identifier self) = defined_augment self
  /\ (has_defined_value (doi self) = false ->
      has_defined_value (pmid self) = false ->
      has_defined_value (wbid self) = false ->
      has_defined_value (uri self) = false ->
      defined_augment self = false /\
      identifier self = inl IdentifierMissingException).
Proof.
  split; [|split].
  - unfold defined_augment, id_precedence. simpl.
    destruct (has_defined_value (doi self)), (has_defined_value (pmid self)),
      (has_defined_value (wbid self)), (has_defined_value (uri self)); reflexivity.
  - apply loops_agree.
  - intros H1 H2 H3 H4.
    assert (Hf : defined_augment self = false).
    { unfold defined_augment, id_precedence. simpl. rewrite H1, H2, H3, H4. reflexivity. }
    split; [exact Hf|].
    apply identifier_loop_fails. exact Hf.
Qed.

End DocumentIdentity.

Lemma identifier_uses_doi_witness :
  document.has_defined_value (document.doi samples.doc_all) = true /\
  document.has_defined_value (document.pmid samples.doc_all) = true /\
  document.has_defined_value (document.wbid samples.doc_all) = true /\
  document.identifier_augment samples.n3_angle samples.uri_of_hash samples.doc_all
  = inr "http://openworm.org/entities/doi:<10.1000/xyz>" /\
  document.identifier_augment samples.n3_angle samples.uri_of_hash samples.doc_doi
  = document.identifier_augment samples.n3_angle samples.uri_of_hash samples.doc_all.
Proof.
  split; [reflexivity|]. split; [reflexivity|]. split; [reflexivity|].
  destruct (identifier_uses_doi samples.n3_angle samples.uri_of_hash samples.doc_all
              eq_refl) as (v & rest & Hv & Hid & Hsame).
  injection Hv as <- <-.
  split; [exact Hid|].
  apply (Hsame samples.doc_doi []). reflexivity.
Defined.

Lemma defined_iff_identifier_witness :
  document.defined_augment document.empty_document = false /\
  document.identifier_augment samples.n3_angle samples.uri_of_hash document.empty_document
  = inl IdentifierMissingException.
Proof.
  destruct (defined_iff_identifier samples.n3_angle samples.uri_of_hash
              document.empty_document) as (_ & _ & H).
  apply H; reflexivity.
Defined.

(* ===================================================================== *)
(** * Properties of the construction of a document *)
(* ===================================================================== *)

Section DocumentConstruction.

Import document.

Variable urlparse : string -> result ParseResult.
Variable BIB_loads : string -> BibDatabase.
Variable BIB_len : BibDatabase -> result nat.

Local Abbreviation init := (__init__ urlparse BIB_loads BIB_len).

Lemma getattr_with_attr_eq (a : Attr) (p : Property) (d : Document) :
  getattr (with_attr a p d) a = p.
Proof. destruct a; reflexivity. Qed.

Lemma getattr_with_attr_ne (a b : Attr) (p : Property) (d : Document) :
  a <> b -> getattr (with_attr a p d) b = getattr d b.
Proof. destruct a, b; intros H; try reflexivity; congruence. Qed.


Lemma set_frame (a b : Attr) (v : PyVal) (d d' : Document) :
  set a v d = inr d' -> a <> b -> getattr d' b = getattr d b.
Proof.
  unfold set, Property_set. destruct v; simpl; try discriminate;
    intros [= <-] Hne; apply getattr_with_attr_ne; exact Hne.
Qed.






Lemma init_wormbase_frame (wormbase : option string) (d d' : Document) :
  init_wormbase urlparse wormbase d = inr d' ->
  forall b, b <> a_wbid -> getattr d' b = getattr d b.
Proof.
  destruct wormbase as [p|]; simpl; [|intros [= <-]; auto].
  destruct (has_defined_value (wbid d)); simpl; [intros [= <-]; auto|].
  match goal with |- bind ?m _ = _ -> _ => destruct m as [e|v] end; simpl; [discriminate|].
  intros [= <-] b Hb. destruct b; try reflexivity; congruence.
Qed.

Lemma init_doi_sets (v : string) (d d' : Document) :
  init_doi urlparse (Some v) d = inr d' ->
  exists v', doi_of_parameter urlparse v = inr v' /\ d' = with_attr a_doi [Literal (PStr v')] d.
Proof.
  unfold init_doi.
  destruct (doi_of_parameter urlparse v) as [e|v']; simpl; [discriminate|].
  intros [= <-]. exists v'. split; reflexivity.
Qed.

Lemma init_doi_frame (doi' : option string) (d d' : Document) :
  init_doi urlparse doi' d = inr d' ->
  forall b, b <> a_doi -> getattr d' b = getattr d b.
Proof.
  destruct doi' as [v|]; [|simpl; intros [= <-]; auto].
  intros H. destruct (init_doi_sets _ _ _ H) as (v' & _ & ->).
  intros b Hb. destruct b; try reflexivity; congruence.
Qed.

(** The steps of a construction that returns, in their order. *)
Lemma init_steps (bibtex doi' pubmed wormbase : option string) (kwargs : Kwargs) (d : Document) :
  init bibtex doi' pubmed wormbase kwargs = inr d ->
  exists d0 d1 d2 d3,
    DataObject_init kwargs empty_document = inr d0 /\
    init_bibtex BIB_loads BIB_len bibtex d0 = inr d1 /\
    init_pubmed urlparse pubmed d1 = inr d2 /\
    init_wormbase urlparse wormbase d2 = inr d3 /\
    init_doi urlparse doi' d3 = inr d.
Proof.
  unfold __init__.
  destruct (DataObject_init kwargs empty_document) as [e|d0] eqn:E0; simpl; [discriminate|].
  destruct (init_bibtex BIB_loads BIB_len bibtex d0) as [e|d1] eqn:E1; simpl; [discriminate|].
  destruct (init_pubmed urlparse pubmed d1) as [e|d2] eqn:E2; simpl; [discriminate|].
  destruct (init_wormbase urlparse wormbase d2) as [e|d3] eqn:E3; simpl; [discriminate|].
  intros H. exists d0, d1, d2, d3. auto.
Qed.


(** C8. A bibliographic text with more than one entry makes
    [update_with_bibtex] and the construction fail before any entry is
    applied, but the exception is not the [ValueError] that tells the
    number of entries: the count that is tested is the length of the
    entries, the count in the message is [len] of the database itself, and
    what that raises is what the construction raises. The database of the
    parser has no length, and [len] of it raises [TypeError]. The
    [ValueError] is raised only with a database whose [len] returns. *)
Theorem bibtex_entry_count (bibtex : string) (doi' pubmed wormbase : option string)
    (kwargs : Kwargs) (d0 : Document) :
  DataObject_init kwargs empty_document = inr d0 ->
  (1 < List.length (entries (BIB_loads bibtex)))%nat ->
  (forall e, BIB_len (BIB_loads bibtex) = inl e ->
     update_with_bibtex BIB_loads BIB_len d0 bibtex = inl e
     /\ init (Some bibtex) doi' pubmed wormbase kwargs = inl e)
  /\ (forall n, BIB_len (BIB_loads bibtex) = inr n ->
        init (Some bibtex) doi' pubmed wormbase kwargs
        = inl (ValueError (entry_count_message n))).
Proof.
  intros H0 Hn. apply Nat.ltb_lt in Hn. split.
  - intros e He.
    assert (Hup : update_with_bibtex BIB_loads BIB_len d0 bibtex = inl e).
    { unfold update_with_bibtex. rewrite Hn, He. reflexivity. }
    split; [exact Hup|].
    unfold __init__. rewrite H0. simpl. rewrite Hup. reflexivity.
  - intros n Hlen. unfold __init__. rewrite H0. simpl.
    unfold update_with_bibtex. rewrite Hn, Hlen. reflexivity.
Qed.

End DocumentConstruction.



Lemma bibtex_entry_count_witness :
  document.entries (samples.loads_sample "two") = [samples.entry_a; samples.entry_b]
  /\ document.__init__ samples.urlparse_simple samples.loads_sample samples.len_database
       (Some "two") None None None []
     = inl TypeError.
Proof.
  split; [reflexivity|].
  destruct (bibtex_entry_count samples.urlparse_simple samples.loads_sample
              samples.len_database "two" None None None [] _ eq_refl) as [Hraise _].
  - simpl. lia.
  - destruct (Hraise TypeError eq_refl) as [_ Hinit]. exact Hinit.
Defined.

(* ===================================================================== *)
(** * Properties of the enrichment from remote services *)
(* ===================================================================== *)

Section DocumentEnrichment.

Import document.

Variable urlparse : string -> result ParseResult.
Variable conf : string -> option string.
Variable py_str : PyVal -> string.
Variable urlencode_q : PyVal -> string.
Variable http_json : string -> option PyVal.
Variable http_xml : string -> option DocSum.

(** C5, as the code has it. [update_from_wormbase] and
    [update_from_pubmed] raise their retrieval exception, with the message
    for a missing identifier when the document has no defined [wbid]
    ([pmid]) and with the message for an ambiguous one when it has more
    than one; the state is the one before the call, so nothing was asked
    from the network and the exception reaches the caller. The CrossRef
    enrichment has no such check: without a defined [doi] it raises
    [TypeError] on the missing value, also before any request. *)
Theorem retrieval_preconditions (w : World) (replace_existing : bool) :
  (defined_values (wbid (this w)) = [] ->
     update_from_wormbase conf py_str http_json replace_existing w
     = (inl (WormbaseRetrievalException
               "There is no Wormbase ID attached to this Document. So no data can be retrieved"),
        w))
  /\ ((1 < List.length (defined_values (wbid (this w))))%nat ->
        update_from_wormbase conf py_str http_json replace_existing w
        = (inl (WormbaseRetrievalException
                  "There is more than one Wormbase ID attached to this Document. Please try with just one Wormbase ID"),
           w))
  /\ (defined_values (pmid (this w)) = [] ->
        update_from_pubmed conf py_str http_xml w
        = (inl (PubmedRetrievalException
                  "No Pubmed ID is attached to this document. Cannot retrieve Pubmed data"),
           w))
  /\ ((1 < List.length (defined_values (pmid (this w))))%nat ->
        update_from_pubmed conf py_str http_xml w
        = (inl (PubmedRetrievalException
                  "More than one Pubmed ID is attached to this document. Please try with just one Pubmed ID"),
           w))
  /\ (defined_values (doi (this w)) = [] ->
        _crossref_doi_extract urlparse urlencode_q http_json w = (inl TypeError, w)).
Proof.
  repeat split.
  - intros H. unfold update_from_wormbase, mbind, gets. rewrite H. reflexivity.
  - intros H. unfold update_from_wormbase, mbind, gets.
    destruct (defined_values (wbid (this w))) as [|v1 [|v2 rest]]; simpl in H; try lia.
    reflexivity.
  - intros H. unfold update_from_pubmed, mbind, gets. rewrite H. reflexivity.
  - intros H. unfold update_from_pubmed, mbind, gets.
    destruct (defined_values (pmid (this w))) as [|v1 [|v2 rest]]; simpl in H; try lia.
    reflexivity.
  - intros H. unfold _crossref_doi_extract, mbind, gets, Property_get. rewrite H. reflexivity.
Qed.

End DocumentEnrichment.

Lemma retrieval_preconditions_witness :
  (1 < List.length (document.defined_values (document.wbid samples.doc_two_wbid)))%nat
  /\ exists msg,
       document.update_from_wormbase samples.no_conf samples.str_of samples.offline_json
         false (samples.world_of samples.doc_two_wbid)
       = (inl (WormbaseRetrievalException msg), samples.world_of samples.doc_two_wbid)
  /\ document.update_from_pubmed samples.no_conf samples.str_of samples.offline_xml
       (samples.world_of document.empty_document)
     = (inl (PubmedRetrievalException
               "No Pubmed ID is attached to this document. Cannot retrieve Pubmed data"),
        samples.world_of document.empty_document).
Proof.
  destruct (retrieval_preconditions samples.urlparse_simple samples.no_conf samples.str_of
              samples.str_of samples.offline_json samples.offline_xml
              (samples.world_of samples.doc_two_wbid) false) as (_ & Hw2 & _).
  destruct (retrieval_preconditions samples.urlparse_simple samples.no_conf samples.str_of
              samples.str_of samples.offline_json samples.offline_xml
              (samples.world_of document.empty_document) false) as (_ & _ & Hp0 & _).
  split; [simpl; lia|].
  eexists. split; [apply Hw2; simpl; lia | apply Hp0; reflexivity].
Defined.

(** C5, as stated, fails for the CrossRef enrichment: on a document without
    a DOI it raises, but no retrieval exception. *)
Lemma crossref_without_doi_raises_no_retrieval_error :
  ~ exists e : PyExn,
      fst (document._crossref_doi_extract samples.urlparse_simple samples.str_of
             samples.offline_json (samples.world_of document.empty_document))
      = inl e
      /\ document.is_retrieval_exception e = true.
Proof.
  intros (e & He & Hr).
  vm_compute in He. injection He as <-. discriminate Hr.
Qed.

(* ===================================================================== *)
(** * Properties of the merge of contexts *)
(* ===================================================================== *)

Section ContextMerge.

Import context_merge.

Variable new_output : list Source -> Source.

Local Abbreviation merge := (translate new_output).

Lemma insert_Permutation (s : Source) (l : list Source) : insert s l ≡ₚ s :: l.
Proof.
  induction l as [|t l IH]; simpl; [reflexivity|].
  destruct (String.leb (identifier s) (identifier t)); [reflexivity|].
  rewrite IH. apply Permutation_swap.
Qed.

Lemma sorted_Permutation (l : list Source) : sorted l ≡ₚ l.
Proof.
  induction l as [|s l IH]; simpl; [reflexivity|].
  rewrite insert_Permutation, IH. reflexivity.
Qed.

(** The loop appends the contexts of the sources, in their order, to the
    imports that the output has. *)
Lemma import_loop (srcs : list Source) (res : Source) :
  let out := List.fold_left import_source srcs res in
  identifier out = identifier res
  /\ ident (data_context out) = ident (data_context res)
  /\ imports (data_context out)
     = (imports (data_context res) ++ List.map data_context srcs)%list
  /\ ident (evidence_context out) = ident (evidence_context res)
  /\ imports (evidence_context out)
     = (imports (evidence_context res) ++ List.map evidence_context srcs)%list.
Proof.
  revert res. induction srcs as [|s srcs IH]; intros res; simpl.
  - rewrite !app_nil_r. auto.
  - destruct (IH (import_source res s)) as (H1 & H2 & H3 & H4 & H5).
    simpl in *. rewrite H3, H5, <- !app_assoc. auto.
Qed.

(** A merge of one or more sources returns, and makes one output. *)
Lemma merge_returns (xs : list Source) (made : list Source) :
  xs <> [] ->
  merge xs made
  = (inr (List.fold_left import_source (sorted xs) (new_output (sorted xs))),
     (made ++ [new_output (sorted xs)])%list).
Proof. destruct xs as [|x xs]; [congruence|reflexivity]. Qed.

Lemma imports_in_closure (c x : Context) : In x (imports c) -> In x (closure c).
Proof.
  destruct c as [id imps]. simpl. intros H.
  apply in_flat_map. exists x. split; [exact H|left; reflexivity].
Qed.

Lemma closure_step (c m x : Context) :
  In m (imports c) -> In x (closure m) -> In x (closure c).
Proof.
  destruct c as [id imps]. simpl. intros Hm Hx.
  apply in_flat_map. exists m. split; [exact Hm|right; exact Hx].
Qed.

(** C4. A merge of no sources raises the exception for missing sources,
    and the outputs made are the ones made before: none is constructed,
    whereas a merge of one or more sources makes exactly one. This is the
    only translator of the sources with an input type of one or more. *)
Theorem merge_no_sources (made : list Source) :
  merge [] made = (inl (Exception_ "No sources were provided"), made)
  /\ forall xs, xs <> [] ->
       snd (merge xs made) = (made ++ [new_output (sorted xs)])%list.
Proof.
  split.
  - unfold translate, mraise, raise. reflexivity.
  - intros xs Hne. rewrite (merge_returns xs made Hne). reflexivity.
Qed.

End ContextMerge.

Lemma merge_no_sources_witness :
  context_merge.translate samples.fresh_output [] []
  = (inl (Exception_ "No sources were provided"), [])
  /\ snd (context_merge.translate samples.fresh_output [samples.src_a] [])
     = [samples.fresh_output [samples.src_a]].
Proof.
  destruct (merge_no_sources samples.fresh_output []) as [Hnone Hsome].
  split; [exact Hnone|].
  apply (Hsome [samples.src_a]). discriminate.
Defined.

(** C3, as stated, fails: regrouping changes the set of the imported
    contexts. Merging the merge of [a] and [b] with [c] imports a merged
    context and the context of [c]; merging [a] with the merge of [b] and
    [c] imports the context of [a], which the first does not import. *)
Lemma nested_merge_imports_differ :
  exists ab bc left right,
    samples.merged [samples.src_a; samples.src_b] = inr ab
    /\ samples.merged [samples.src_b; samples.src_c] = inr bc
    /\ samples.merged [ab; samples.src_c] = inr left
    /\ samples.merged [samples.src_a; bc] = inr right
    /\ In (context_merge.data_context samples.src_a)
          (context_merge.imports (context_merge.data_context right))
    /\ ~ In (context_merge.data_context samples.src_a)
            (context_merge.imports (context_merge.data_context left)).
Proof.
  eexists. eexists. eexists. eexists.
  split; [vm_compute; reflexivity|].
  split; [vm_compute; reflexivity|].
  split; [vm_compute; reflexivity|].
  split; [vm_compute; reflexivity|].
  split.
  - vm_compute. left. reflexivity.
  - vm_compute. intros [H|[H|[]]]; discriminate H.
Qed.

(* ===================================================================== *)
(** * Properties of the WormBase translators *)
(* ===================================================================== *)

Section WormbaseTranslators.

Import wormbase.

Variable normalize_cell_name : string -> string.

Lemma marker_true (col : string) :
  String.eqb col "1" || String.eqb col "2" = true <-> col = "1" \/ col = "2".
Proof.
  rewrite orb_true_iff, !String.eqb_eq. reflexivity.
Qed.

Lemma extract_cell_names_loop_cons (header : Row) (initcol : Z) (col : string) (row : Row)
    (cols : nat) (res : list string) :
  extract_cell_names_loop header initcol (col :: row) cols res
  = bind (if (initcol <? Z.of_nat cols)%Z then
            if String.eqb col "1" || String.eqb col "2" then
              bind (getitem header cols) (fun h => ret (res ++ [h])%list)
            else ret res
          else ret res)
         (fun res => extract_cell_names_loop header initcol row (S cols) res).
Proof. reflexivity. Qed.


Lemma muscle_marked_cases (line : Row) (c7 c8 c9 : string) :
  line !! 7%nat = Some c7 -> line !! 8%nat = Some c8 -> line !! 9%nat = Some c9 ->
  muscle_marked line = inr (truthy c7 || truthy c8 || String.eqb c9 "1").
Proof.
  intros H7 H8 H9. unfold muscle_marked, getitem. rewrite H7. simpl.
  destruct (truthy c7); [reflexivity|]. rewrite H8. simpl.
  destruct (truthy c8); [reflexivity|]. rewrite H9. reflexivity.
Qed.

Lemma muscles_cons (line : Row) (rest : list Row) :
  muscles normalize_cell_name (line :: rest)
  = bind (muscle_marked line)
         (fun marked =>
            if marked then
              bind (getitem line 0)
                   (fun l0 => bind (muscles normalize_cell_name rest)
                                   (fun ms => ret (upper (normalize_cell_name l0) :: ms)))
            else muscles normalize_cell_name rest).
Proof. reflexivity. Qed.



Lemma expression_patterns_In (ms : list (option (string * string))) (ep : ExpressionPattern) :
  In ep (expression_patterns ms) <-> In (Some (wormbaseid ep, ep_description ep)) ms.
Proof.
  induction ms as [|[[g1 g2]|] ms IH]; simpl; [reflexivity| |].
  - rewrite IH. split; (intros [H|H]; [left|right; exact H]).
    + subst ep. reflexivity.
    + injection H as H1 H2. subst g1 g2. destruct ep; reflexivity.
  - rewrite IH. split; [auto|]. intros [H|H]; [discriminate|exact H].
Qed.

Lemma set_ids_all (line : DictRow) (id : string) (loaded : list Cell) :
  line !! "WormBase ID" = Some id ->
  set_ids line loaded = inr (List.map (fun c => mkWormbaseID c id) loaded).
Proof.
  intros Hid. induction loaded as [|c loaded IH]; simpl; [reflexivity|].
  unfold dict_getitem. rewrite Hid. simpl. rewrite IH. reflexivity.
Qed.

Lemma IDSetter_loop_cons (cells_source : list Cell) (line : DictRow) (rest : list DictRow)
    (num : nat) :
  IDSetter_loop normalize_cell_name cells_source (line :: rest) num
  = if (num <? 1)%nat then IDSetter_loop normalize_cell_name cells_source rest (S num)
    else
      bind (dict_getitem line "Cell")
           (fun c =>
              bind (set_ids line (query_load cells_source (normalize_cell_name c)))
                   (fun here =>
                      bind (IDSetter_loop normalize_cell_name cells_source rest (S num))
                           (fun more => ret (here ++ more)%list))).
Proof. reflexivity. Qed.

(** From the second record on, every record adds its statements. *)
Lemma IDSetter_loop_data (cells_source : list Cell) (data : list DictRow) :
  Forall (fun line =>
            is_Some (line !! "Cell")
            /\ (updates_of normalize_cell_name cells_source line <> []
                -> is_Some (line !! "WormBase ID"))) data ->
  forall num, (1 <= num)%nat ->
    IDSetter_loop normalize_cell_name cells_source data num
    = inr (List.flat_map (updates_of normalize_cell_name cells_source) data).
Proof.
  induction 1 as [|line data [[c Hc] Hid] _ IH]; intros num Hnum; [reflexivity|].
  rewrite IDSetter_loop_cons.
  destruct (Nat.ltb_spec num 1) as [Hlt|_]; [lia|].
  rewrite (IH (S num) ltac:(lia)).
  unfold dict_getitem. rewrite Hc. unfold bind at 1. unfold ret at 1.
  change (List.flat_map (updates_of normalize_cell_name cells_source) (line :: data))
    with (updates_of normalize_cell_name cells_source line
            ++ List.flat_map (updates_of normalize_cell_name cells_source) data)%list.
  set (more := List.flat_map (updates_of normalize_cell_name cells_source) data).
  unfold updates_of in Hid |- *. rewrite Hc in *.
  change (default EmptyString (Some c)) with c in *.
  destruct (query_load cells_source (normalize_cell_name c)) as [|c0 loaded] eqn:Eq.
  - reflexivity.
  - destruct Hid as [id Hid]; [discriminate|].
    rewrite (set_ids_all line id (c0 :: loaded) Hid). rewrite Hid. reflexivity.
Qed.

(** C10. The record that the reader yields first holds no data and is
    passed over. For every record after it the translator asks the data
    context of the earlier translation for the cells with the normalised
    name of the record, and adds the WormBase identifier of the record to
    every cell it gets, be there none, one or many; a record without a
    match adds nothing and raises nothing, even when it has no identifier
    of its own. *)
Theorem id_setter_updates_all_matches (first : DictRow) (data : list DictRow)
    (cells_source : list Cell) :
  Forall (fun line =>
            is_Some (line !! "Cell")
            /\ (updates_of normalize_cell_name cells_source line <> []
                -> is_Some (line !! "WormBase ID"))) data ->
  IDSetter_translate normalize_cell_name (first :: data) cells_source
  = inr (wormbase_website,
         List.flat_map (updates_of normalize_cell_name cells_source) data)
  /\ (forall line,
        query_load cells_source
          (normalize_cell_name (default EmptyString (line !! "Cell"))) = [] ->
        updates_of normalize_cell_name cells_source line = [])
  /\ (forall line loaded_cell,
        In loaded_cell
           (query_load cells_source
              (normalize_cell_name (default EmptyString (line !! "Cell")))) ->
        In (mkWormbaseID loaded_cell (default EmptyString (line !! "WormBase ID")))
           (updates_of normalize_cell_name cells_source line)).
Proof.
  intros Hdata. split; [|split].
  - unfold IDSetter_translate.
    change (IDSetter_loop normalize_cell_name cells_source (first :: data) 0)
      with (IDSetter_loop normalize_cell_name cells_source data 1).
    rewrite (IDSetter_loop_data cells_source data Hdata 1 ltac:(lia)). reflexivity.
  - intros line Hq. unfold updates_of. rewrite Hq. reflexivity.
  - intros line c Hin. unfold updates_of. apply in_map_iff. exists c. auto.
Qed.

End WormbaseTranslators.



(** The test of the muscle columns takes any text in column 7 or 8 for a
    marker: a record with ["0"] in column 7 gets a Muscle. *)
Example muscle_marker_zero_makes_muscle :
  wormbase.Muscle_translate samples.same_name [samples.cell_row "adal" "0" "" ""]
  = inr (wormbase.wormbase_website, ["ADAL"]).
Proof. reflexivity. Qed.

(** An entry without brackets is left out, the others stay. *)
Example channel_unmatched_entry_dropped :
  wormbase.channel_of_line samples.same_name
    ["unc-1"; "g"; "w"; "[WBbt:001] head neuron | no brackets | [WBbt:002] tail"; "d"]
  = inr (wormbase.mkChannel "UNC-1" "G" "W" "d"
           [wormbase.mkExpressionPattern "WBbt:001" "head neuron";
            wormbase.mkExpressionPattern "WBbt:002" "tail"]).
Proof. vm_compute. reflexivity. Qed.

Lemma id_setter_updates_all_matches_witness :
  wormbase.IDSetter_translate samples.same_name
    [samples.no_data_record; samples.record_adal; samples.record_unknown]
    samples.stored_cells
  = inr (wormbase.wormbase_website,
         [wormbase.mkWormbaseID (wormbase.mkCell "cell-1" "ADAL") "WBbt:0004013";
          wormbase.mkWormbaseID (wormbase.mkCell "cell-3" "ADAL") "WBbt:0004013"]).
Proof.
  destruct (id_setter_updates_all_matches samples.same_name samples.no_data_record
              [samples.record_adal; samples.record_unknown] samples.stored_cells)
    as [Hrun _].
  - constructor; [|constructor; [|constructor]].
    + split; [eexists; reflexivity|]. intros _. eexists. reflexivity.
    + split; [eexists; reflexivity|]. intros Hne. exfalso. apply Hne. reflexivity.
  - rewrite Hrun. reflexivity.
Defined.

(* ===================================================================== *)
(** * Further properties: strings *)
(* ===================================================================== *)

Section PythonStrings.

Lemma append_cons (c : ascii) (a b : string) : String c a ++ b = String c (a ++ b).
Proof. reflexivity. Qed.


Lemma string_of_list_ascii_app (l1 l2 : list ascii) :
  string_of_list_ascii (l1 ++ l2)%list
  = string_of_list_ascii l1 ++ string_of_list_ascii l2.
Proof.
  induction l1 as [|c l1 IH]; [reflexivity|].
  change (string_of_list_ascii ((c :: l1) ++ l2)%list)
    with (String c (string_of_list_ascii (l1 ++ l2)%list)).
  rewrite IH. reflexivity.
Qed.

Lemma append_assoc (a b c : string) : (a ++ b) ++ c = a ++ (b ++ c).
Proof.
  induction a as [|x a IH]; [reflexivity|].
  rewrite !append_cons, IH. reflexivity.
Qed.

Lemma append_nil_r (a : string) : a ++ EmptyString = a.
Proof.
  induction a as [|x a IH]; [reflexivity|].
  rewrite append_cons, IH. reflexivity.
Qed.

(** Moving a character from the reversed piece to the text. *)
Lemma rev_string_cons (c : ascii) (cur : list ascii) (s : string) :
  rev_string (c :: cur) ++ s = rev_string cur ++ String c s.
Proof.
  unfold rev_string. change (List.rev (c :: cur)) with (List.rev cur ++ [c])%list.
  rewrite string_of_list_ascii_app, append_assoc. reflexivity.
Qed.

Lemma substring_all (s : string) (n : nat) :
  (String.length s <= n)%nat -> substring 0 n s = s.
Proof.
  revert n. induction s as [|c s IH]; intros n Hn.
  - destruct n; reflexivity.
  - destruct n as [|n]; simpl in Hn; [lia|]. simpl. rewrite IH; [reflexivity|lia].
Qed.

(** Whether a text holds the character [c], step by step. *)
Lemma contains_char_cons (c d : ascii) (s : string) :
  contains (String c EmptyString) (String d s)
  = Ascii.eqb c d || contains (String c EmptyString) s.
Proof. simpl. destruct (Ascii.eqb c d); reflexivity. Qed.

Lemma contains_char_app (c : ascii) (a b : string) :
  contains (String c EmptyString) (a ++ b)
  = contains (String c EmptyString) a || contains (String c EmptyString) b.
Proof.
  induction a as [|d a IH].
  - simpl. destruct b; reflexivity.
  - change (String d a ++ b) with (String d (a ++ b)).
    rewrite !contains_char_cons, IH, orb_assoc. reflexivity.
Qed.

(** A text without the separating character is one piece. *)
Lemma split_aux_no_sep (c : ascii) (s : string) (cur : list ascii) :
  contains (String c EmptyString) s = false ->
  split_aux (String c EmptyString) s 0 cur = [rev_string cur ++ s].
Proof.
  revert cur. induction s as [|d s IH]; intros cur Hs.
  - simpl. rewrite append_nil_r. reflexivity.
  - rewrite contains_char_cons in Hs. apply orb_false_iff in Hs as [Hd Hs].
    simpl. rewrite Hd. rewrite (IH (d :: cur) Hs). rewrite rev_string_cons. reflexivity.
Qed.

(** The piece before the first separating character, and the pieces of
    the rest. *)
Lemma split_aux_first (c : ascii) (a t : string) (cur : list ascii) :
  contains (String c EmptyString) a = false ->
  split_aux (String c EmptyString) (a ++ String c t) 0 cur
  = (rev_string cur ++ a) :: split_aux (String c EmptyString) t 0 [].
Proof.
  revert cur. induction a as [|d a IH]; intros cur Ha.
  - simpl. rewrite Ascii.eqb_refl, append_nil_r. reflexivity.
  - rewrite contains_char_cons in Ha. apply orb_false_iff in Ha as [Hd Ha].
    change (String d a ++ String c t) with (String d (a ++ String c t)).
    simpl. rewrite Hd. rewrite (IH (d :: cur) Ha). rewrite rev_string_cons. reflexivity.
Qed.

Lemma split_no_sep (c : ascii) (s : string) :
  contains (String c EmptyString) s = false -> split (String c EmptyString) s = [s].
Proof. intros H. unfold split. rewrite (split_aux_no_sep c s [] H). reflexivity. Qed.

Lemma split_first (c : ascii) (a t : string) :
  contains (String c EmptyString) a = false ->
  split (String c EmptyString) (a ++ String c t) = a :: split (String c EmptyString) t.
Proof. intros H. unfold split. rewrite (split_aux_first c a t [] H). reflexivity. Qed.

Lemma split1_aux_no_sep (c : ascii) (s : string) (cur : list ascii) :
  contains (String c EmptyString) s = false ->
  split1_aux (String c EmptyString) s cur = [rev_string cur ++ s].
Proof.
  revert cur. induction s as [|d s IH]; intros cur Hs.
  - simpl. rewrite append_nil_r. reflexivity.
  - rewrite contains_char_cons in Hs. apply orb_false_iff in Hs as [Hd Hs].
    simpl. rewrite Hd. rewrite (IH (d :: cur) Hs). rewrite rev_string_cons. reflexivity.
Qed.

Lemma split1_aux_first (c : ascii) (a t : string) (cur : list ascii) :
  contains (String c EmptyString) a = false ->
  split1_aux (String c EmptyString) (a ++ String c t) cur = [rev_string cur ++ a; t].
Proof.
  revert cur. induction a as [|d a IH]; intros cur Ha.
  - simpl. rewrite Ascii.eqb_refl, append_nil_r.
    rewrite substring_all; [reflexivity|lia].
  - rewrite contains_char_cons in Ha. apply orb_false_iff in Ha as [Hd Ha].
    change (String d a ++ String c t) with (String d (a ++ String c t)).
    simpl. rewrite Hd. rewrite (IH (d :: cur) Ha). rewrite rev_string_cons. reflexivity.
Qed.

End PythonStrings.

(* ===================================================================== *)
(** * Further properties: the identity of a document *)
(* ===================================================================== *)

Section DocumentIdentityKinds.

Import document.

Variable n3 : PyVal -> string.
Variable make_identifier : string -> string.

Local Abbreviation identifier := (identifier_augment n3 make_identifier).

Lemma defined_values_app (p q : Property) :
  defined_values (p ++ q)%list = (defined_values p ++ defined_values q)%list.
Proof.
  induction p as [|[v|nm] p IH]; simpl; [reflexivity| |exact IH].
  rewrite IH. reflexivity.
Qed.

Lemma defined_values_cons_defined (p : Property) v rest :
  defined_values p = v :: rest -> has_defined_value p = true.
Proof.
  intros H. destruct (has_defined_value p) eqn:E; [reflexivity|].
  apply no_defined_value_nil in E. congruence.
Qed.

(** The loop passes over the kinds without a defined value. *)
Lemma identifier_loop_skip (self : Document) (pre ks : list Attr) :
  Forall (fun a => has_defined_value (getattr self a) = false) pre ->
  identifier_augment_loop n3 make_identifier self (pre ++ ks)%list
  = identifier_augment_loop n3 make_identifier self ks.
Proof.
  induction 1 as [|a pre Ha _ IH]; [reflexivity|].
  simpl. rewrite Ha. exact IH.
Qed.

Lemma identifier_at_kind (self : Document) (pre post : list Attr) (k : Attr) v rest :
  id_precedence = (pre ++ k :: post)%list ->
  Forall (fun a => has_defined_value (getattr self a) = false) pre ->
  defined_values (getattr self k) = v :: rest ->
  identifier self = inr (make_identifier (attr_name k ++ ":" ++ n3 v)).
Proof.
  intros Hsplit Hpre Hk. unfold identifier_augment. rewrite Hsplit.
  rewrite (identifier_loop_skip self pre (k :: post) Hpre).
  exact (identifier_loop_hit n3 make_identifier self k post v rest Hk).
Qed.

(** X1. The identifier is made from the first kind in the order doi, pmid,
    wbid, uri that has a defined value, and from the first defined value
    of that kind: the kinds before it, which hold nothing or variables
    only, are passed over. *)
Theorem identifier_first_defined_kind (self : Document) (pre post : list Attr)
    (k : Attr) (v : PyVal) (rest : list PyVal) :
  id_precedence = (pre ++ k :: post)%list ->
  Forall (fun a => has_defined_value (getattr self a) = false) pre ->
  defined_values (getattr self k) = v :: rest ->
  identifier self = inr (make_identifier (attr_name k ++ ":" ++ n3 v))
  /\ defined_augment self = true.
Proof.
  intros Hsplit Hpre Hk.
  pose proof (identifier_at_kind self pre post k v rest Hsplit Hpre Hk) as Hid.
  split; [exact Hid|].
  pose proof (loops_agree n3 make_identifier self id_precedence) as Hag.
  fold (identifier_augment n3 make_identifier self) in Hag.
  rewrite Hid in Hag. symmetry. exact Hag.
Qed.

(** X2. Once a document has its identity from a kind, setting a property
    leaves the identifier as it is, unless the property is that kind or a
    kind before it in the order; a further value of a kind that holds
    several values ([uri]) leaves it as it is, too. *)
Theorem identifier_stable_under_set (self self' : Document) (pre post : list Attr)
    (k a : Attr) (v w : PyVal) (rest : list PyVal) :
  id_precedence = (pre ++ k :: post)%list ->
  Forall (fun b => has_defined_value (getattr self b) = false) pre ->
  defined_values (getattr self k) = w :: rest ->
  ~ In a pre ->
  a <> k \/ multiple a = true ->
  set a v self = inr self' ->
  identifier self' = identifier self.
Proof.
  intros Hsplit Hpre Hk Hnotin Hak Hset.
  rewrite (identifier_at_kind self pre post k w rest Hsplit Hpre Hk).
  assert (Hframe : forall b, a <> b -> getattr self' b = getattr self b).
  { intros b Hb. exact (set_frame a b v self self' Hset Hb). }
  assert (Hpre' : Forall (fun b => has_defined_value (getattr self' b) = false) pre).
  { rewrite Forall_forall in Hpre |- *. intros b Hb.
    rewrite Hframe; [apply Hpre; exact Hb|].
    intros ->. apply Hnotin. apply list_elem_of_In. exact Hb. }
  assert (Hk' : exists rest', defined_values (getattr self' k) = w :: rest').
  { assert (Hdec : a = k \/ a <> k)
      by (destruct a, k; first [left; reflexivity | right; discriminate]).
    destruct Hdec as [->|Hne].
    - destruct Hak as [Hak|Hm]; [congruence|].
      unfold set, Property_set in Hset. rewrite Hm in Hset.
      destruct v; simpl in Hset; try discriminate; injection Hset as <-;
        rewrite getattr_with_attr_eq, defined_values_app, Hk; eexists; reflexivity.
    - rewrite (Hframe k Hne). eauto. }
  destruct Hk' as [rest' Hk'].
  exact (identifier_at_kind self' pre post k w rest' Hsplit Hpre' Hk').
Qed.

End DocumentIdentityKinds.

Lemma identifier_first_defined_kind_witness :
  document.identifier_augment samples.n3_angle samples.uri_of_hash samples.doc_var_doi
  = inr "http://openworm.org/entities/pmid:<24098140>".
Proof.
  apply (identifier_first_defined_kind samples.n3_angle samples.uri_of_hash
           samples.doc_var_doi [document.a_doi] [document.a_wbid; document.a_uri]
           document.a_pmid (PStr "24098140") []).
  - reflexivity.
  - repeat constructor.
  - reflexivity.
Defined.

Lemma identifier_stable_under_set_witness :
  exists d,
    document.set document.a_wbid (PStr "WBPaper00044287") samples.doc_var_doi = inr d
    /\ document.identifier_augment samples.n3_angle samples.uri_of_hash d
       = document.identifier_augment samples.n3_angle samples.uri_of_hash samples.doc_var_doi.
Proof.
  eexists. split; [reflexivity|].
  apply (identifier_stable_under_set samples.n3_angle samples.uri_of_hash
           samples.doc_var_doi _ [document.a_doi] [document.a_wbid; document.a_uri]
           document.a_pmid document.a_wbid (PStr "WBPaper00044287") (PStr "24098140") []).
  - reflexivity.
  - repeat constructor.
  - reflexivity.
  - simpl. intros [H|[]]. discriminate H.
  - left. discriminate.
  - reflexivity.
Defined.

(* ===================================================================== *)
(** * Further properties: the parameters of the construction *)
(* ===================================================================== *)

Section ConstructionParameters.

Import document.

Variable n3 : PyVal -> string.
Variable make_identifier : string -> string.
Variable urlparse : string -> result ParseResult.
Variable BIB_loads : string -> BibDatabase.
Variable BIB_len : BibDatabase -> result nat.

Local Abbreviation init := (__init__ urlparse BIB_loads BIB_len).

Lemma getitem_error {A} (l : list A) (i : nat) (e : PyExn) :
  getitem l i = inl e <-> e = IndexError /\ (List.length l <= i)%nat.
Proof.
  unfold getitem. destruct (l !! i) as [x|] eqn:E.
  - split; [discriminate|]. intros [_ Hlen].
    apply lookup_lt_Some in E. lia.
  - apply lookup_ge_None in E. split.
    + intros [= <-]. auto.
    + intros [-> _]. reflexivity.
Qed.

(** What the step of the construction for [pubmed] raises, and when. *)
Lemma init_pubmed_error (arg : option string) (d : Document) (e : PyExn) :
  init_pubmed urlparse arg d = inl e <->
  has_defined_value (pmid d) = false
  /\ exists u, arg = Some u /\ slice_to 4 u = "http"
       /\ (urlparse u = inl e
           \/ exists parsed, urlparse u = inr parsed /\ e = IndexError
                /\ (List.length (split "/" (path parsed)) < 3)%nat).
Proof.
  unfold init_pubmed. destruct arg as [u|].
  2:{ split; [discriminate|]. intros (_ & u & Hu & _). discriminate Hu. }
  destruct (has_defined_value (pmid d)); simpl.
  { split; [discriminate|]. intros (Hd & _). discriminate Hd. }
  destruct (String.eqb_spec (slice_to 4 u) "http") as [Hh|Hh].
  - unfold _pubmed_uri_to_pmid.
    destruct (urlparse u) as [e0|parsed] eqn:Eu; simpl.
    + split.
      * intros [= <-]. split; [reflexivity|]. exists u. auto.
      * intros (_ & u' & [= <-] & _ & [Hr|(parsed & Hr & _)]); congruence.
    + destruct (getitem (split "/" (path parsed)) 2) as [e'|seg] eqn:Eg; simpl.
      * apply getitem_error in Eg as [-> Hlen]. split.
        -- intros [= <-]. split; [reflexivity|]. exists u.
           split; [reflexivity|]. split; [exact Hh|]. right. exists parsed.
           split; [exact Eu|]. split; [reflexivity|lia].
        -- intros (_ & u' & [= <-] & _ & [Hr|(parsed' & Hr & -> & _)]);
             [congruence|reflexivity].
      * split; [discriminate|].
        intros (_ & u' & [= <-] & _ & [Hr|(parsed' & Hr & _ & Hlen)]); [congruence|].
        assert (parsed' = parsed) as -> by congruence.
        assert (He : getitem (split "/" (path parsed)) 2 = inl IndexError)
          by (apply getitem_error; split; [reflexivity|lia]).
        congruence.
  - simpl. split; [discriminate|]. intros (_ & u' & [= <-] & Hh' & _). congruence.
Qed.

(** The same for [wormbase]. *)
Lemma init_wormbase_error (arg : option string) (d : Document) (e : PyExn) :
  init_wormbase urlparse arg d = inl e <->
  has_defined_value (wbid d) = false
  /\ exists u, arg = Some u /\ slice_to 4 u = "http"
       /\ (urlparse u = inl e
           \/ exists parsed, urlparse u = inr parsed /\ e = IndexError
                /\ (List.length (split "/" (path parsed)) < 3)%nat).
Proof.
  unfold init_wormbase. destruct arg as [u|].
  2:{ split; [discriminate|]. intros (_ & u & Hu & _). discriminate Hu. }
  destruct (has_defined_value (wbid d)); simpl.
  { split; [discriminate|]. intros (Hd & _). discriminate Hd. }
  destruct (String.eqb_spec (slice_to 4 u) "http") as [Hh|Hh].
  - unfold _wormbase_uri_to_wbid.
    destruct (urlparse u) as [e0|parsed] eqn:Eu; simpl.
    + split.
      * intros [= <-]. split; [reflexivity|]. exists u. auto.
      * intros (_ & u' & [= <-] & _ & [Hr|(parsed & Hr & _)]); congruence.
    + destruct (getitem (split "/" (path parsed)) 2) as [e'|seg] eqn:Eg; simpl.
      * apply getitem_error in Eg as [-> Hlen]. split.
        -- intros [= <-]. split; [reflexivity|]. exists u.
           split; [reflexivity|]. split; [exact Hh|]. right. exists parsed.
           split; [exact Eu|]. split; [reflexivity|lia].
        -- intros (_ & u' & [= <-] & _ & [Hr|(parsed' & Hr & -> & _)]);
             [congruence|reflexivity].
      * split; [discriminate|].
        intros (_ & u' & [= <-] & _ & [Hr|(parsed' & Hr & _ & Hlen)]); [congruence|].
        assert (parsed' = parsed) as -> by congruence.
        assert (He : getitem (split "/" (path parsed)) 2 = inl IndexError)
          by (apply getitem_error; split; [reflexivity|lia]).
        congruence.
  - simpl. split; [discriminate|]. intros (_ & u' & [= <-] & Hh' & _). congruence.
Qed.

(** X3. The conversion of a [pubmed] or [wormbase] URL never returns
    [None], so the [ValueError] that the constructor has for a conversion
    that failed is never raised by it. These two rules raise exactly when
    the property is not set yet and the parameter starts with [http], and
    then either what [urlparse] raises for the URL, or [IndexError] when
    the path of the URL has fewer than three pieces between slashes. *)
Theorem url_rules_errors (arg : option string) (d : Document) (e : PyExn) :
  (init_pubmed urlparse arg d = inl e <->
     has_defined_value (pmid d) = false
     /\ exists u, arg = Some u /\ slice_to 4 u = "http"
          /\ (urlparse u = inl e
              \/ exists parsed, urlparse u = inr parsed /\ e = IndexError
                   /\ (List.length (split "/" (path parsed)) < 3)%nat))
  /\ (init_wormbase urlparse arg d = inl e <->
        has_defined_value (wbid d) = false
        /\ exists u, arg = Some u /\ slice_to 4 u = "http"
             /\ (urlparse u = inl e
                 \/ exists parsed, urlparse u = inr parsed /\ e = IndexError
                      /\ (List.length (split "/" (path parsed)) < 3)%nat))
  /\ (forall uri, _pubmed_uri_to_pmid urlparse uri <> inr None
                  /\ _wormbase_uri_to_wbid urlparse uri <> inr None).
Proof.
  split; [apply init_pubmed_error|]. split; [apply init_wormbase_error|].
  intros uri. unfold _pubmed_uri_to_pmid, _wormbase_uri_to_wbid.
  destruct (urlparse uri) as [e0|parsed]; simpl; [split; discriminate|].
  destruct (getitem (split "/" (path parsed)) 2); simpl; split; discriminate.
Qed.

(** X4. The PubMed ID taken from a URL is the text between the second and
    the third slash of its path, or after the second slash when there is
    no third; what follows a third slash is dropped. *)
Theorem pubmed_url_third_piece (uri a b : string) (tail : option string)
    (parsed : ParseResult) :
  contains "/" a = false ->
  contains "/" b = false ->
  urlparse uri = inr parsed ->
  path parsed
  = String "/" (a ++ String "/" (b ++ match tail with
                                       | Some t => String "/" t
                                       | None => EmptyString
                                       end)) ->
  _pubmed_uri_to_pmid urlparse uri = inr (Some b)
  /\ (slice_to 4 uri = "http" ->
      forall d, has_defined_value (pmid d) = false ->
        exists d', init_pubmed urlparse (Some uri) d = inr d'
                   /\ pmid d' = [Literal (PStr b)]).
Proof.
  intros Ha Hb Hparsed Hpath.
  assert (Hconv : _pubmed_uri_to_pmid urlparse uri = inr (Some b)).
  { unfold _pubmed_uri_to_pmid. rewrite Hparsed. simpl bind. rewrite Hpath.
    change (String "/" (a ++ String "/" (b ++ match tail with
                                              | Some t => String "/" t
                                              | None => EmptyString
                                              end)))
      with (EmptyString ++ String "/" (a ++ String "/" (b ++ match tail with
                                              | Some t => String "/" t
                                              | None => EmptyString
                                              end))).
    rewrite (split_first "/" EmptyString _ eq_refl).
    rewrite (split_first "/" a _ Ha).
    destruct tail as [t|].
    - rewrite (split_first "/" b t Hb). reflexivity.
    - rewrite append_nil_r, (split_no_sep "/" b Hb). reflexivity. }
  split; [exact Hconv|].
  intros Hh d Hd. unfold init_pubmed. rewrite Hd. simpl.
  apply String.eqb_eq in Hh. rewrite Hh, Hconv. simpl.
  eexists. split; reflexivity.
Qed.

(** X5. The [doi] parameter is kept as it is given unless it starts with
    [http] and its host names [doi.org]; then the DOI is all that follows
    the first slash of the path, further slashes included, and a path
    without a slash raises [IndexError]. What [urlparse] raises for a
    parameter that starts with [http] is raised. *)
Theorem doi_parameter_normalisation (d : string) :
  (slice_to 4 d <> "http" -> doi_of_parameter urlparse d = inr d)
  /\ (forall parsed, urlparse d = inr parsed ->
      contains "doi.org" (netloc parsed) = false ->
      doi_of_parameter urlparse d = inr d)
  /\ (forall parsed, slice_to 4 d = "http" ->
      urlparse d = inr parsed ->
      contains "doi.org" (netloc parsed) = true ->
      (forall a rest, contains "/" a = false ->
                      path parsed = a ++ String "/" rest ->
                      doi_of_parameter urlparse d = inr rest)
      /\ (contains "/" (path parsed) = false ->
          doi_of_parameter urlparse d = inl IndexError))
  /\ (forall e, slice_to 4 d = "http" -> urlparse d = inl e ->
      doi_of_parameter urlparse d = inl e).
Proof.
  unfold doi_of_parameter, _doi_uri_to_doi. split; [|split; [|split]].
  - intros Hh. apply String.eqb_neq in Hh. rewrite Hh. reflexivity.
  - intros parsed Hp Hc. rewrite Hp. simpl bind. rewrite Hc. simpl.
    destruct (String.eqb (slice_to 4 d) "http"); reflexivity.
  - intros parsed Hh Hp Hc. apply String.eqb_eq in Hh. rewrite Hh, Hp. simpl bind.
    rewrite Hc. split.
    + intros a rest Ha Hpath. rewrite Hpath. unfold split1.
      rewrite (split1_aux_first "/" a rest [] Ha). reflexivity.
    + intros Hpath. unfold split1. rewrite (split1_aux_no_sep "/" _ [] Hpath). reflexivity.
  - intros e Hh He. apply String.eqb_eq in Hh. rewrite Hh, He. reflexivity.
Qed.

Lemma init_pubmed_defined (u : string) (d d' : Document) :
  init_pubmed urlparse (Some u) d = inr d' -> has_defined_value (pmid d') = true.
Proof.
  unfold init_pubmed. destruct (has_defined_value (pmid d)) eqn:E; simpl.
  - intros [= <-]. exact E.
  - match goal with |- bind ?m _ = _ -> _ => destruct m as [e|v] end; simpl; [discriminate|].
    intros [= <-]. reflexivity.
Qed.

Lemma init_wormbase_defined (u : string) (d d' : Document) :
  init_wormbase urlparse (Some u) d = inr d' -> has_defined_value (wbid d') = true.
Proof.
  unfold init_wormbase. destruct (has_defined_value (wbid d)) eqn:E; simpl.
  - intros [= <-]. exact E.
  - match goal with |- bind ?m _ = _ -> _ => destruct m as [e|v] end; simpl; [discriminate|].
    intros [= <-]. reflexivity.
Qed.

(** X6. A document constructed with a [doi], a [pubmed] or a [wormbase]
    parameter has an identity; with a [doi] parameter its identifier is
    the one of that DOI, whatever the other parameters and keywords
    are. *)
Theorem constructed_document_has_identity (bibtex doi' pubmed wormbase : option string)
    (kwargs : Kwargs) (d : Document) :
  init bibtex doi' pubmed wormbase kwargs = inr d ->
  (is_Some doi' \/ is_Some pubmed \/ is_Some wormbase -> defined_augment d = true)
  /\ (forall v, doi' = Some v ->
        exists v', doi_of_parameter urlparse v = inr v'
                   /\ identifier_augment n3 make_identifier d
                      = inr (make_identifier ("doi:" ++ n3 (PStr v')))).
Proof.
  intros Hinit.
  destruct (init_steps urlparse BIB_loads BIB_len _ _ _ _ _ _ Hinit)
    as (d0 & d1 & d2 & d3 & _ & _ & Ep & Ew & Ed).
  pose proof (init_wormbase_frame _ _ _ _ Ew) as Fw.
  pose proof (init_doi_frame _ _ _ _ Ed) as Fd.
  split.
  - intros Hgiven. unfold defined_augment, id_precedence. simpl.
    destruct Hgiven as [[v ->]|[[u ->]|[u ->]]].
    + destruct (init_doi_sets _ _ _ _ Ed) as (v' & _ & ->). reflexivity.
    + pose proof (init_pubmed_defined _ _ _ Ep) as Hp.
      assert (Hpd : pmid d = pmid d2).
      { transitivity (pmid d3); [exact (Fd a_pmid ltac:(discriminate))|].
        exact (Fw a_pmid ltac:(discriminate)). }
      rewrite Hpd, Hp. destruct (has_defined_value (doi d)); reflexivity.
    + pose proof (init_wormbase_defined _ _ _ Ew) as Hw.
      assert (Hwd : wbid d = wbid d3) by exact (Fd a_wbid ltac:(discriminate)).
      rewrite Hwd, Hw.
      destruct (has_defined_value (doi d)), (has_defined_value (pmid d)); reflexivity.
  - intros v ->. destruct (init_doi_sets _ _ _ _ Ed) as (v' & Hv & ->).
    exists v'. split; [exact Hv|]. reflexivity.
Qed.

End ConstructionParameters.

Lemma url_rules_errors_witness :
  document.init_pubmed samples.urlparse_simple (Some "http://www.ncbi.nlm.nih.gov/24098140")
    document.empty_document
  = inl IndexError
  /\ document.init_wormbase samples.urlparse_simple (Some "http://[") document.empty_document
     = inl (ValueError "Invalid IPv6 URL").
Proof.
  split.
  - apply (url_rules_errors samples.urlparse_simple
             (Some "http://www.ncbi.nlm.nih.gov/24098140") document.empty_document IndexError).
    split; [reflexivity|].
    exists "http://www.ncbi.nlm.nih.gov/24098140".
    split; [reflexivity|]. split; [reflexivity|]. right.
    exists (document.mkParseResult "www.ncbi.nlm.nih.gov" "/24098140").
    split; [reflexivity|]. split; [reflexivity|]. vm_compute. lia.
  - apply (url_rules_errors samples.urlparse_simple
             (Some "http://[") document.empty_document (ValueError "Invalid IPv6 URL")).
    split; [reflexivity|].
    exists "http://[". split; [reflexivity|]. split; [reflexivity|]. left. reflexivity.
Defined.

Lemma pubmed_url_third_piece_witness :
  document._pubmed_uri_to_pmid samples.urlparse_simple
    "http://www.ncbi.nlm.nih.gov/pubmed/24098140/citations"
  = inr (Some "24098140").
Proof.
  apply (pubmed_url_third_piece samples.urlparse_simple
           "http://www.ncbi.nlm.nih.gov/pubmed/24098140/citations"
           "pubmed" "24098140" (Some "citations")
           (document.mkParseResult "www.ncbi.nlm.nih.gov" "/pubmed/24098140/citations"));
    reflexivity.
Defined.

Lemma doi_parameter_normalisation_witness :
  document.doi_of_parameter samples.urlparse_simple "http://dx.doi.org/10.1007/s00454-010-9273-0"
  = inr "10.1007/s00454-010-9273-0"
  /\ document.doi_of_parameter samples.urlparse_simple "http://example.org/10.1007/xyz"
     = inr "http://example.org/10.1007/xyz"
  /\ document.doi_of_parameter samples.urlparse_simple "http://doi.org"
     = inl IndexError.
Proof.
  split; [|split].
  - destruct (doi_parameter_normalisation samples.urlparse_simple
                "http://dx.doi.org/10.1007/s00454-010-9273-0") as (_ & _ & H & _).
    destruct (H (document.mkParseResult "dx.doi.org" "/10.1007/s00454-010-9273-0")
                eq_refl eq_refl eq_refl) as [Hrest _].
    apply (Hrest EmptyString "10.1007/s00454-010-9273-0"); reflexivity.
  - destruct (doi_parameter_normalisation samples.urlparse_simple
                "http://example.org/10.1007/xyz") as (_ & H & _).
    apply (H (document.mkParseResult "example.org" "/10.1007/xyz")); reflexivity.
  - destruct (doi_parameter_normalisation samples.urlparse_simple "http://doi.org")
      as (_ & _ & H & _).
    destruct (H (document.mkParseResult "doi.org" "") eq_refl eq_refl eq_refl) as [_ Hnone].
    apply Hnone. reflexivity.
Defined.

Lemma constructed_document_has_identity_witness :
  exists d,
    document.__init__ samples.urlparse_simple samples.loads_sample samples.len_entries
      None None (Some "24098140") None [] = inr d
    /\ document.defined_augment d = true.
Proof.
  eexists. split; [reflexivity|].
  eapply (constructed_document_has_identity samples.n3_angle samples.uri_of_hash
            samples.urlparse_simple samples.loads_sample samples.len_entries
            None None (Some "24098140") None []).
  - reflexivity.
  - right. left. eexists. reflexivity.
Defined.

(* ===================================================================== *)
(** * Further properties: what a method keeps *)
(* ===================================================================== *)

Section StateEquations.

Context {St : Type}.

Lemma mbind_gets {A B} (f : St -> A) (k : A -> M St B) (w : St) :
  mbind (gets f) k w = k (f w) w.
Proof. reflexivity. Qed.

Lemma mbind_lift_ret {A B} (a : A) (k : A -> M St B) (w : St) :
  mbind (lift (inr a)) k w = k a w.
Proof. reflexivity. Qed.

Lemma mbind_lift_raise {A B} (e : PyExn) (k : A -> M St B) (w : St) :
  mbind (lift (inl e)) k w = (inl e, w).
Proof. reflexivity. Qed.

Lemma mbind_run {A B} (m : M St A) (k : A -> M St B) (w w1 : St) (a : A) :
  m w = (inr a, w1) -> mbind m k w = k a w1.
Proof. intros H. unfold mbind. rewrite H. reflexivity. Qed.

Lemma mbind_fails {A B} (m : M St A) (k : A -> M St B) (w w1 : St) (e : PyExn) :
  m w = (inl e, w1) -> mbind m k w = (inl e, w1).
Proof. intros H. unfold mbind. rewrite H. reflexivity. Qed.

(** A guarded block whose handler returns: the block's value, or [None]
    and the handler's state. *)
Lemma try_except_run {A} (m : M St A) (h : M St unit) (w : St) :
  (forall w0, exists w1, h w0 = (inr tt, w1)) ->
  (exists a, m w = (inr a, snd (m w)) /\ try_except m h w = (inr (Some a), snd (m w)))
  \/ (exists e, m w = (inl e, snd (m w))
               /\ try_except m h w = (inr None, snd (h (snd (m w))))).
Proof.
  intros Hh. unfold try_except. destruct (m w) as [[e|a] w1]; simpl.
  - right. exists e. split; [reflexivity|].
    destruct (Hh w1) as [w2 E]. rewrite E. reflexivity.
  - left. exists a. split; reflexivity.
Qed.





End StateEquations.

Section StateInvariants.

Context {St : Type}.

(** A relation between the state before and the state after that holds
    when nothing is done and composes. *)
Variable P : St -> St -> Prop.
Hypothesis P_refl : forall w, P w w.
Hypothesis P_trans : forall a b c, P a b -> P b c -> P a c.

Lemma inv_mret {A} (a : A) (w : St) : P w (snd (mret a w)).
Proof. apply P_refl. Qed.

Lemma inv_lift {A} (r : result A) (w : St) : P w (snd (lift r w)).
Proof. apply P_refl. Qed.

Lemma inv_gets {A} (f : St -> A) (w : St) : P w (snd (gets f w)).
Proof. apply P_refl. Qed.

Lemma inv_mbind {A B} (m : M St A) (k : A -> M St B) :
  (forall w, P w (snd (m w))) ->
  (forall a w, P w (snd (k a w))) ->
  forall w, P w (snd (mbind m k w)).
Proof.
  intros Hm Hk w. unfold mbind. specialize (Hm w).
  destruct (m w) as [[e|a] w1]; simpl in *; [exact Hm|].
  apply (P_trans _ w1); [exact Hm|apply Hk].
Qed.

Lemma inv_mfor {A} (l : list A) (body : A -> M St unit) :
  (forall x w, P w (snd (body x w))) ->
  forall w, P w (snd (mfor l body w)).
Proof.
  intros Hb. induction l as [|x l IH]; intros w; simpl.
  - apply P_refl.
  - apply inv_mbind; [apply Hb|intros _; exact IH].
Qed.

Lemma inv_when (b : bool) (m : M St unit) :
  (forall w, P w (snd (m w))) -> forall w, P w (snd (when b m w)).
Proof. intros Hm w. destruct b; simpl; [apply Hm|apply P_refl]. Qed.

Lemma inv_try_except {A} (m : M St A) (h : M St unit) :
  (forall w, P w (snd (m w))) ->
  (forall w, P w (snd (h w))) ->
  forall w, P w (snd (try_except m h w)).
Proof.
  intros Hm Hh w. unfold try_except. specialize (Hm w).
  destruct (m w) as [[e|a] w1]; simpl in *; [|exact Hm].
  specialize (Hh w1). destruct (h w1) as [[e'|u] w2]; simpl in *;
    apply (P_trans _ w1); assumption.
Qed.

End StateInvariants.

Section EnrichmentKeeps.

Import document.

Variable urlparse : string -> result ParseResult.
Variable conf : string -> option string.
Variable py_str : PyVal -> string.
Variable urlencode_q : PyVal -> string.
Variable http_json : string -> option PyVal.
Variable http_xml : string -> option DocSum.

Lemma kept_refl keep (w : World) : kept keep w w.
Proof. repeat split. intros _. exists []. rewrite app_nil_r. reflexivity. Qed.

Lemma kept_trans keep (a b c : World) : kept keep a b -> kept keep b c -> kept keep a c.
Proof.
  intros (H1 & H2 & H3 & H4) (G1 & G2 & G3 & G4).
  split; [congruence|]. split; [congruence|]. split; [congruence|].
  intros Hk. destruct (H4 Hk) as [m1 E1]. destruct (G4 Hk) as [m2 E2].
  exists (m1 ++ m2)%list. rewrite E2, E1, app_assoc. reflexivity.
Qed.

Local Ltac kept_bind keep :=
  apply (inv_mbind (kept keep) (kept_trans keep)).
Local Ltac kept_lift keep :=
  intros; apply (inv_lift (kept keep) (kept_refl keep)).

Lemma kept_warning keep (msg : string) (w : World) : kept keep w (snd (warning msg w)).
Proof.
  unfold warning, modify, kept. simpl. repeat split.
  intros _. exists []. rewrite app_nil_r. reflexivity.
Qed.

(** Setting a property other than [wbid] and [uri]. *)
Lemma kept_set keep (a : Attr) (v : PyVal) (w : World) :
  a <> a_wbid -> a <> a_uri -> kept keep w (snd (on_self (set a v) w)).
Proof.
  intros Hw Hu. unfold on_self.
  destruct (set a v (this w)) as [e|d] eqn:E; simpl; [apply kept_refl|].
  split; [reflexivity|].
  split; [exact (set_frame a a_wbid v _ _ E Hw)|].
  split; [exact (set_frame a a_uri v _ _ E Hu)|].
  intros _. unfold set, Property_set in E.
  destruct a; try congruence;
    destruct v; simpl in E; try discriminate; injection E as <-; simpl;
    first [ eexists; reflexivity | exists []; rewrite app_nil_r; reflexivity ].
Qed.

(** Clearing a property other than [wbid] and [uri], when the authors need
    not be kept or the property is not the authors. *)
Lemma kept_clear keep (a : Attr) (w : World) :
  a <> a_wbid -> a <> a_uri -> keep = false \/ a <> a_author ->
  kept keep w (snd (on_self (fun d => ret (clear a d)) w)).
Proof.
  intros Hw Hu Hk. unfold on_self, clear. simpl.
  split; [reflexivity|].
  split; [destruct a; try reflexivity; congruence|].
  split; [destruct a; try reflexivity; congruence|].
  intros Hkeep. destruct Hk as [Hk|Hk]; [congruence|].
  exists []. rewrite app_nil_r. destruct a; try reflexivity; congruence.
Qed.

Lemma kept_wormbase_field (replace_existing : bool) (f : PyVal) (a : Attr) :
  a <> a_wbid -> a <> a_uri -> a <> a_author ->
  forall w, kept (negb replace_existing) w (snd (wormbase_field replace_existing f a w)).
Proof.
  intros Hw Hu Ha. unfold wormbase_field.
  kept_bind (negb replace_existing); [kept_lift (negb replace_existing)|].
  intros present. destruct present; [|intros; apply kept_refl].
  kept_bind (negb replace_existing); [kept_lift (negb replace_existing)|].
  intros fv.
  kept_bind (negb replace_existing); [kept_lift (negb replace_existing)|].
  intros data. destruct (negb (is_None data)); [|intros; apply kept_refl].
  kept_bind (negb replace_existing).
  - apply (inv_when (kept _) (kept_refl _)). intros w. apply kept_clear; auto.
  - intros _ w. apply kept_set; assumption.
Qed.

Lemma kept_wormbase_authors (replace_existing : bool) (f : PyVal) :
  forall w, kept (negb replace_existing) w (snd (wormbase_authors replace_existing f w)).
Proof.
  unfold wormbase_authors.
  kept_bind (negb replace_existing); [kept_lift (negb replace_existing)|].
  intros present. destruct present; [|intros; apply kept_refl].
  kept_bind (negb replace_existing); [kept_lift (negb replace_existing)|].
  intros fa.
  kept_bind (negb replace_existing); [kept_lift (negb replace_existing)|].
  intros dat. destruct (negb (is_None dat)); [|intros; apply kept_refl].
  kept_bind (negb replace_existing).
  - destruct replace_existing.
    + apply (inv_when (kept _) (kept_refl _)).
      intros w. apply kept_clear; [discriminate|discriminate|left; reflexivity].
    + intros w. apply kept_refl.
  - intros _.
    kept_bind (negb replace_existing); [kept_lift (negb replace_existing)|].
    intros xs. apply (inv_mfor (kept _) (kept_refl _) (kept_trans _)).
    intros x.
    kept_bind (negb replace_existing); [kept_lift (negb replace_existing)|].
    intros label w. apply kept_set; discriminate.
Qed.

(** What [_json_request] does to the state. *)
Lemma json_request_state (url : string) (w : World) :
  exists j w1,
    _json_request http_json url w = (inr j, w1)
    /\ requested w1 = (requested w ++ [url])%list
    /\ this w1 = this w.
Proof.
  unfold _json_request, mbind, request, modify. simpl.
  destruct (http_json url) as [j|]; simpl; eexists; eexists;
    (split; [reflexivity|split; reflexivity]).
Qed.

(** The rest of the guarded block of [update_from_wormbase], after the
    request. *)
Lemma kept_wormbase_fields (replace_existing : bool) (j : PyVal) :
  forall w,
    kept (negb replace_existing) w
      (snd (mbind (lift (py_in "fields" j))
              (fun has_fields : bool =>
                 if has_fields then
                   mbind (lift (py_getitem j "fields"))
                     (fun f => mbind (wormbase_authors replace_existing f)
                        (fun _ => mfor [a_pmid; a_year; a_title; a_doi]
                                    (wormbase_field replace_existing f)))
                 else mret tt) w)).
Proof.
  kept_bind (negb replace_existing); [kept_lift (negb replace_existing)|].
  intros has_fields. destruct has_fields; [|intros; apply kept_refl].
  kept_bind (negb replace_existing); [kept_lift (negb replace_existing)|].
  intros f.
  kept_bind (negb replace_existing); [apply kept_wormbase_authors|].
  intros _. simpl mfor.
  kept_bind (negb replace_existing); [apply kept_wormbase_field; discriminate|]. intros _.
  kept_bind (negb replace_existing); [apply kept_wormbase_field; discriminate|]. intros _.
  kept_bind (negb replace_existing); [apply kept_wormbase_field; discriminate|]. intros _.
  kept_bind (negb replace_existing); [apply kept_wormbase_field; discriminate|]. intros _.
  intros w. apply kept_refl.
Qed.

(** X7. With exactly one WormBase ID, [update_from_wormbase] returns
    whatever the service answers: every exception is caught. It asks for
    one URL, the overview of the paper with that ID, and leaves [wbid] and
    [uri] as they are; without [replace_existing] the authors the document
    had stay, in front of the new ones. *)
Theorem update_from_wormbase_returns (w : World) (v : PyVal) (replace_existing : bool) :
  defined_values (wbid (this w)) = [v] ->
  exists w',
    update_from_wormbase conf py_str http_json replace_existing w = (inr tt, w')
    /\ requested w'
       = (requested w
            ++ [(default "http://rest.wormbase.org" (conf "wormbase_api_root_url")
                   ++ "/rest/widget/paper/" ++ py_str v
                   ++ "/overview?content-type=application%2Fjson")%string])%list
    /\ wbid (this w') = wbid (this w)
    /\ uri (this w') = uri (this w)
    /\ (replace_existing = false ->
        exists more, author (this w') = (author (this w) ++ more)%list).
Proof.
  intros Hv.
  unfold update_from_wormbase. rewrite mbind_gets, Hv.
  change (List.length [v] =? 1)%nat with true. cbv iota.
  change (getitem [v] 0) with (@inr PyExn PyVal v). rewrite mbind_lift_ret.
  set (url := default "http://rest.wormbase.org" (conf "wormbase_api_root_url")
                ++ "/rest/widget/paper/" ++ py_str v
                ++ "/overview?content-type=application%2Fjson").
  destruct (json_request_state url w) as (j & w1 & Hj & Hreq & Hthis).
  pose proof (kept_wormbase_fields replace_existing j w1) as HK.
  match goal with
  | |- context [try_except ?m ?h] =>
      destruct (try_except_run m h w) as [(a & Hm & Ht)|(e & Hm & Ht)];
        [intros w0; eexists; reflexivity| |];
        rewrite (mbind_run _ _ _ _ _ Ht);
        rewrite (mbind_run _ _ _ _ _ Hj) in Hm;
        assert (Hsnd : snd (m w) = snd (mbind (lift (py_in "fields" j))
              (fun has_fields : bool =>
                 if has_fields then
                   mbind (lift (py_getitem j "fields"))
                     (fun f => mbind (wormbase_authors replace_existing f)
                        (fun _ => mfor [a_pmid; a_year; a_title; a_doi]
                                    (wormbase_field replace_existing f)))
                 else mret tt) w1))
          by (rewrite (mbind_run _ _ _ _ _ Hj); reflexivity);
        rewrite Hsnd; clear Hsnd
  end.
  - destruct HK as (K1 & K2 & K3 & K4).
    eexists. split; [reflexivity|].
    split; [transitivity (requested w1); [exact K1|exact Hreq]|].
    split; [transitivity (wbid (this w1)); [exact K2|rewrite Hthis; reflexivity]|].
    split; [transitivity (uri (this w1)); [exact K3|rewrite Hthis; reflexivity]|].
    intros ->. destruct (K4 eq_refl) as [more Hm']. exists more.
    transitivity (author (this w1) ++ more)%list; [exact Hm'|rewrite Hthis; reflexivity].
  - destruct HK as (K1 & K2 & K3 & K4).
    eexists. split; [reflexivity|].
    unfold warning, modify. simpl.
    split; [transitivity (requested w1); [exact K1|exact Hreq]|].
    split; [transitivity (wbid (this w1)); [exact K2|rewrite Hthis; reflexivity]|].
    split; [transitivity (uri (this w1)); [exact K3|rewrite Hthis; reflexivity]|].
    intros ->. destruct (K4 eq_refl) as [more Hm']. exists more.
    transitivity (author (this w1) ++ more)%list; [exact Hm'|rewrite Hthis; reflexivity].
Qed.

End EnrichmentKeeps.

Lemma update_from_wormbase_returns_witness :
  exists w',
    document.update_from_wormbase samples.no_conf samples.str_of samples.online_json false
      (samples.world_of samples.doc_wbid) = (inr tt, w')
    /\ document.requested w'
       = ["http://rest.wormbase.org/rest/widget/paper/WBPaper00044287/overview?content-type=application%2Fjson"]
    /\ document.wbid (document.this w') = [samples.lit "WBPaper00044287"].
Proof.
  destruct (update_from_wormbase_returns samples.no_conf samples.str_of samples.online_json
              (samples.world_of samples.doc_wbid) (PStr "WBPaper00044287") false eq_refl)
    as (w' & Hrun & Hreq & Hwbid & _).
  exists w'. split; [exact Hrun|]. split; [exact Hreq|exact Hwbid].
Defined.

(* ===================================================================== *)
(** * Further properties: what an enrichment changes *)
(* ===================================================================== *)

Section EnrichmentEffects.

Import document.

Variable n3 : PyVal -> string.
Variable make_identifier : string -> string.
Variable urlparse : string -> result ParseResult.
Variable conf : string -> option string.
Variable py_str : PyVal -> string.
Variable urlencode_q : PyVal -> string.
Variable http_json : string -> option PyVal.
Variable http_xml : string -> option DocSum.

Lemma world_eta (w : World) : mkWorld (this w) (requested w) (logged w) = w.
Proof. destruct w. reflexivity. Qed.






End EnrichmentEffects.


Section EnrichmentOutcomes.

Import document.

Variable n3 : PyVal -> string.
Variable make_identifier : string -> string.
Variable urlparse : string -> result ParseResult.
Variable conf : string -> option string.
Variable py_str : PyVal -> string.
Variable urlencode_q : PyVal -> string.
Variable http_json : string -> option PyVal.
Variable http_xml : string -> option DocSum.

(** What [pmRequest] does to the state. *)
Lemma pmRequest_state (p : PyVal) (w : World) :
  exists r w1,
    pmRequest conf py_str http_xml p w = (r, w1)
    /\ this w1 = this w
    /\ (forall tree, (forall u, http_xml u = Some tree) -> r = inr tree)
    /\ ((forall u, http_xml u = None) -> exists e, r = inl e).
Proof.
  unfold pmRequest.
  destruct (conf "pubmed.api_key") as [k|]; [destruct (truthy k)|];
    unfold mbind, mret, warning, request, modify, mraise; simpl;
    match goal with
    | |- context [http_xml ?u] => destruct (http_xml u) as [tree|] eqn:E
    end; simpl; eexists; eexists;
    (split; [reflexivity|]; split; [reflexivity|]; split;
     [ intros t Ht; rewrite Ht in E; try discriminate; try (injection E as ->; reflexivity)
     | intros Hn; rewrite Hn in E; try discriminate; eexists; reflexivity ]).
Qed.

(** X9. When the network fails, each of the three enrichments returns
    without an exception and leaves the document as it was. *)
Theorem failed_request_leaves_document (w : World) :
  (forall v replace_existing,
      (forall u, http_json u = None) ->
      defined_values (wbid (this w)) = [v] ->
      exists w', update_from_wormbase conf py_str http_json replace_existing w = (inr tt, w')
                 /\ this w' = this w)
  /\ (forall v,
        (forall u, http_xml u = None) ->
        defined_values (pmid (this w)) = [v] ->
        exists w', update_from_pubmed conf py_str http_xml w = (inr tt, w')
                   /\ this w' = this w)
  /\ (forall s rest,
        (forall u, http_json u = None) ->
        defined_values (doi (this w)) = PStr s :: rest ->
        slice_to 4 s <> "http" ->
        exists w', _crossref_doi_extract urlparse urlencode_q http_json w = (inr tt, w')
                   /\ this w' = this w).
Proof.
  split; [|split].
  - intros v replace_existing Hnet Hv.
    unfold update_from_wormbase. rewrite mbind_gets, Hv.
    change (List.length [v] =? 1)%nat with true. cbv iota.
    change (getitem [v] 0) with (@inr PyExn PyVal v). rewrite mbind_lift_ret.
    unfold mbind, try_except, _json_request, mbind, request, modify, warning, modify.
    simpl. rewrite Hnet. simpl. eexists. split; reflexivity.
  - intros v Hnet Hv.
    unfold update_from_pubmed. rewrite mbind_gets, Hv.
    change (List.length [v] =? 1)%nat with true. cbv iota.
    change (getitem [v] 0) with (@inr PyExn PyVal v). rewrite mbind_lift_ret.
    destruct (pmRequest_state v w) as (r & w1 & Hr & Hthis & _ & Hfail).
    destruct (Hfail Hnet) as [e ->].
    unfold mbind at 1. unfold try_except. rewrite Hr.
    unfold warning, modify. simpl. eexists. split; [reflexivity|]. exact Hthis.
  - intros s rest Hnet Hd Hs.
    unfold _crossref_doi_extract. rewrite mbind_gets.
    unfold Property_get. rewrite Hd.
    apply String.eqb_neq in Hs.
    change (slice4_is_http (PStr s)) with (@inr PyExn bool (String.eqb (slice_to 4 s) "http")).
    rewrite mbind_lift_ret, Hs.
    unfold mbind, mret, try_except, crRequest, _json_request, mbind, request, modify,
      warning, modify.
    simpl. rewrite Hnet. simpl. eexists. split; reflexivity.
Qed.

(** Setting every text of a list, none of them [None]. *)
Lemma mfor_set (a : Attr) (xs : list PyVal) :
  Forall (fun x => is_None x = false) xs ->
  forall w, exists w',
    mfor xs (fun x => on_self (set a x)) w = (inr tt, w')
    /\ requested w' = requested w /\ logged w' = logged w
    /\ getattr (this w') a
       = (if multiple a then (getattr (this w) a ++ List.map Literal xs)%list
          else match last xs with
               | Some x => [Literal x]
               | None => getattr (this w) a
               end)
    /\ forall b, a <> b -> getattr (this w') b = getattr (this w) b.
Proof.
  induction 1 as [|x xs Hx _ IH]; intros w.
  - exists w. simpl. split; [reflexivity|]. split; [reflexivity|]. split; [reflexivity|].
    split; [|auto]. destruct (multiple a); [rewrite app_nil_r|]; reflexivity.
  - assert (Hset : on_self (set a x) w
                   = (inr tt, mkWorld (with_attr a ((if multiple a then getattr (this w) a else [])
                                                      ++ [Literal x])%list (this w))
                                      (requested w) (logged w))).
    { unfold on_self, set, Property_set. destruct x; try discriminate; reflexivity. }
    destruct (IH (mkWorld (with_attr a ((if multiple a then getattr (this w) a else [])
                                          ++ [Literal x])%list (this w))
                          (requested w) (logged w)))
      as (w' & Hrun & Hreq & Hlog & Hget & Hframe).
    exists w'. simpl mfor. rewrite (mbind_run _ _ _ _ _ Hset).
    split; [exact Hrun|]. split; [exact Hreq|]. split; [exact Hlog|]. split.
    + rewrite Hget. simpl. rewrite getattr_with_attr_eq.
      destruct (multiple a).
      * rewrite <- app_assoc. reflexivity.
      * change (last (x :: xs)) with (match xs with [] => Some x | _ => last xs end).
        destruct xs as [|y ys]; [reflexivity|].
        destruct (last (y :: ys)) eqn:El; [reflexivity|].
        apply last_None in El. discriminate.
    + intros b Hb. rewrite (Hframe b Hb). simpl. apply getattr_with_attr_ne. exact Hb.
Qed.

(** X10. When PubMed answers with texts for the authors, titles, DOIs and
    dates, and with one DOI at least, [update_from_pubmed] on a document
    with one PubMed ID returns, and the document then holds the last DOI
    of the answer and is identified by it; the PubMed ID stays. A document
    without a DOI was identified by its PubMed ID before: the text that the
    identifier is made from changes, and so does the identifier itself
    when [make_identifier] is injective. *)
Theorem update_from_pubmed_gives_doi_identity (w : World) (p x : PyVal) (tree : DocSum)
    (dois : list PyVal) :
  (forall u, http_xml u = Some tree) ->
  defined_values (pmid (this w)) = [p] ->
  Forall (fun t => is_None t = false) (AuthorList tree) ->
  Forall (fun t => is_None t = false) (Title tree) ->
  Forall (fun t => is_None t = false) (PubDate tree) ->
  DOI tree = (dois ++ [x])%list ->
  Forall (fun t => is_None t = false) (DOI tree) ->
  exists w',
    update_from_pubmed conf py_str http_xml w = (inr tt, w')
    /\ doi (this w') = [Literal x]
    /\ pmid (this w') = pmid (this w)
    /\ identifier_augment n3 make_identifier (this w')
       = inr (make_identifier ("doi:" ++ n3 x))
    /\ (has_defined_value (doi (this w)) = false ->
        identifier_augment n3 make_identifier (this w)
        = inr (make_identifier ("pmid:" ++ n3 p))
        /\ "doi:" ++ n3 x <> "pmid:" ++ n3 p
        /\ ((forall a b, make_identifier a = make_identifier b -> a = b) ->
            identifier_augment n3 make_identifier (this w')
            <> identifier_augment n3 make_identifier (this w))).
Proof.
  intros Hnet Hp Hau Hti Hda Hdoi Hdo.
  unfold update_from_pubmed. rewrite mbind_gets, Hp.
  change (List.length [p] =? 1)%nat with true. cbv iota.
  change (getitem [p] 0) with (@inr PyExn PyVal p). rewrite mbind_lift_ret.
  destruct (pmRequest_state p w) as (r & w1 & Hr & Hthis & Hok & _).
  rewrite (Hok tree Hnet) in Hr.
  assert (Htry : try_except (pmRequest conf py_str http_xml p)
                            (warning "Couldn't retrieve Pubmed info") w
                 = (inr (Some tree), w1)).
  { unfold try_except. rewrite Hr. reflexivity. }
  rewrite (mbind_run _ _ _ _ _ Htry).
  destruct (mfor_set a_author (AuthorList tree) Hau w1) as (w2 & R2 & _ & _ & _ & F2).
  destruct (mfor_set a_title (Title tree) Hti w2) as (w3 & R3 & _ & _ & _ & F3).
  destruct (mfor_set a_doi (DOI tree) Hdo w3) as (w4 & R4 & _ & _ & G4 & F4).
  destruct (mfor_set a_year (PubDate tree) Hda w4) as (w5 & R5 & _ & _ & _ & F5).
  rewrite (mbind_run _ _ _ _ _ R2), (mbind_run _ _ _ _ _ R3), (mbind_run _ _ _ _ _ R4).
  exists w5. split; [exact R5|].
  assert (Hd5 : doi (this w5) = [Literal x]).
  { transitivity (doi (this w4)); [exact (F5 a_doi ltac:(discriminate))|].
    transitivity (match last (DOI tree) with
                  | Some y => [Literal y]
                  | None => getattr (this w3) a_doi
                  end); [exact G4|].
    rewrite Hdoi, last_snoc. reflexivity. }
  assert (Hp5 : pmid (this w5) = pmid (this w)).
  { transitivity (pmid (this w4)); [exact (F5 a_pmid ltac:(discriminate))|].
    transitivity (pmid (this w3)); [exact (F4 a_pmid ltac:(discriminate))|].
    transitivity (pmid (this w2)); [exact (F3 a_pmid ltac:(discriminate))|].
    transitivity (pmid (this w1)); [exact (F2 a_pmid ltac:(discriminate))|].
    rewrite Hthis. reflexivity. }
  assert (Hid5 : identifier_augment n3 make_identifier (this w5)
                 = inr (make_identifier ("doi:" ++ n3 x))).
  { apply (identifier_at_kind n3 make_identifier (this w5) [] [a_pmid; a_wbid; a_uri]
             a_doi x []); [reflexivity|constructor|].
    simpl. rewrite Hd5. reflexivity. }
  assert (Htexts : "doi:" ++ n3 x <> "pmid:" ++ n3 p).
  { change ("doi:" ++ n3 x) with (String "d" ("oi:" ++ n3 x)).
    change ("pmid:" ++ n3 p) with (String "p" ("mid:" ++ n3 p)). discriminate. }
  split; [exact Hd5|]. split; [exact Hp5|]. split; [exact Hid5|].
  intros Hnd.
  assert (Hid0 : identifier_augment n3 make_identifier (this w)
                 = inr (make_identifier ("pmid:" ++ n3 p))).
  { apply (identifier_at_kind n3 make_identifier (this w) [a_doi] [a_wbid; a_uri]
             a_pmid p []); [reflexivity|repeat constructor; exact Hnd|exact Hp]. }
  split; [exact Hid0|]. split; [exact Htexts|].
  intros Hinj. rewrite Hid5, Hid0. intros [= Heq]. apply Htexts, Hinj, Heq.
Qed.

End EnrichmentOutcomes.

Lemma failed_request_leaves_document_witness :
  exists w',
    document.update_from_pubmed samples.no_conf samples.str_of samples.offline_xml
      (samples.world_of samples.doc_pmid) = (inr tt, w')
    /\ document.this w' = samples.doc_pmid.
Proof.
  destruct (failed_request_leaves_document samples.urlparse_simple samples.no_conf
              samples.str_of samples.str_of samples.offline_json samples.offline_xml
              (samples.world_of samples.doc_pmid)) as (_ & Hp & _).
  apply (Hp (PStr "1719723")); reflexivity.
Defined.

Lemma update_from_pubmed_gives_doi_identity_witness :
  exists w',
    document.update_from_pubmed samples.no_conf samples.str_of samples.online_xml
      (samples.world_of samples.doc_pmid) = (inr tt, w')
    /\ document.identifier_augment samples.n3_angle samples.uri_of_hash (document.this w')
       = inr "http://openworm.org/entities/doi:<10.1016/0896-6273(91)90276-6>"
    /\ document.identifier_augment samples.n3_angle samples.uri_of_hash samples.doc_pmid
       = inr "http://openworm.org/entities/pmid:<1719723>".
Proof.
  destruct (update_from_pubmed_gives_doi_identity samples.n3_angle samples.uri_of_hash
              samples.no_conf samples.str_of samples.online_xml
              (samples.world_of samples.doc_pmid) (PStr "1719723")
              (PStr "10.1016/0896-6273(91)90276-6") samples.pubmed_answer [])
    as (w' & Hrun & _ & _ & Hid & Hbefore).
  - reflexivity.
  - reflexivity.
  - repeat constructor.
  - repeat constructor.
  - repeat constructor.
  - reflexivity.
  - repeat constructor.
  - exists w'. split; [exact Hrun|]. split; [exact Hid|]. apply Hbefore. reflexivity.
Defined.

(* ===================================================================== *)
(** * Further properties: the tables of cells *)
(* ===================================================================== *)

Section CellTables.

Import wormbase.

Variable normalize_cell_name : string -> string.

Lemma getitem_Some {A} (l : list A) (i : nat) (x : A) :
  l !! i = Some x -> getitem l i = inr x.
Proof. intros H. unfold getitem. rewrite H. reflexivity. Qed.

Lemma getitem_None {A} (l : list A) (i : nat) :
  l !! i = None -> getitem l i = inl IndexError.
Proof. intros H. unfold getitem. rewrite H. reflexivity. Qed.

Lemma lookup_in_range {A} (l : list A) (i : nat) :
  (i < List.length l)%nat -> exists x, l !! i = Some x.
Proof. intros H. apply lookup_lt_is_Some_2 in H. destruct H as [x Hx]. eauto. Qed.

Lemma neurons_cons (line : Row) (rest : list Row) :
  neurons normalize_cell_name (line :: rest)
  = bind (neuron_marked line)
         (fun marked =>
            if marked then
              bind (getitem line 0)
                   (fun l0 => bind (neurons normalize_cell_name rest)
                                   (fun ns => ret (upper (normalize_cell_name l0) :: ns)))
            else neurons normalize_cell_name rest).
Proof. reflexivity. Qed.

(** X11. On records of six columns or more the neuron translator makes
    one Neuron for every record whose column 5 holds ["1"], in the order
    of the records, named by the normalised and upper-cased column 0. A
    record with fewer than six columns, be it an empty line, makes the
    whole translation raise [IndexError]. *)
Theorem neurons_of_marked_records (rows : list Row) :
  (Forall (fun r => (6 <= List.length r)%nat) rows ->
   Neuron_translate normalize_cell_name rows
   = inr (wormbase_website,
          List.map (fun r => upper (normalize_cell_name (default EmptyString (r !! 0%nat))))
            (List.filter (fun r => String.eqb (default EmptyString (r !! 5%nat)) "1") rows)))
  /\ (forall before short after,
        rows = (before ++ short :: after)%list ->
        Forall (fun r => (6 <= List.length r)%nat) before ->
        (List.length short < 6)%nat ->
        Neuron_translate normalize_cell_name rows = inl IndexError).
Proof.
  assert (Hgood : forall rs, Forall (fun r => (6 <= List.length r)%nat) rs ->
            neurons normalize_cell_name rs
            = inr (List.map (fun r => upper (normalize_cell_name (default EmptyString (r !! 0%nat))))
                     (List.filter (fun r => String.eqb (default EmptyString (r !! 5%nat)) "1") rs))).
  { induction 1 as [|r rs Hr _ IH]; [reflexivity|].
    rewrite neurons_cons. unfold neuron_marked.
    destruct (lookup_in_range r 5 ltac:(lia)) as [c5 H5].
    destruct (lookup_in_range r 0 ltac:(lia)) as [c0 H0].
    rewrite (getitem_Some r 5 c5 H5). simpl List.filter. rewrite H5. simpl.
    destruct (String.eqb c5 "1").
    - rewrite (getitem_Some r 0 c0 H0), IH. simpl. rewrite H0. reflexivity.
    - exact IH. }
  split.
  - intros Hall. unfold Neuron_translate. rewrite (Hgood rows Hall). reflexivity.
  - intros before short after -> Hbefore Hshort. unfold Neuron_translate.
    assert (Hfail : neurons normalize_cell_name (before ++ short :: after)%list = inl IndexError).
    { induction Hbefore as [|r rs Hr _ IH].
      - simpl app. rewrite neurons_cons. unfold neuron_marked.
        rewrite (getitem_None short 5); [reflexivity|].
        apply lookup_ge_None. lia.
      - change ((r :: rs) ++ short :: after)%list with (r :: (rs ++ short :: after))%list.
        rewrite neurons_cons, IH. unfold neuron_marked.
        destruct (lookup_in_range r 5 ltac:(lia)) as [c5 H5].
        destruct (lookup_in_range r 0 ltac:(lia)) as [c0 H0].
        rewrite (getitem_Some r 5 c5 H5). simpl.
        destruct (String.eqb c5 "1"); [|reflexivity].
        rewrite (getitem_Some r 0 c0 H0). reflexivity. }
    rewrite Hfail. reflexivity.
Qed.

(** The test of the muscle translator reads its three columns from the
    left and stops at the first that decides. *)
Lemma muscle_marked_branches (line : Row) :
  (line !! 7%nat = None -> muscle_marked line = inl IndexError)
  /\ (forall c7, line !! 7%nat = Some c7 -> c7 <> EmptyString ->
        muscle_marked line = inr true)
  /\ (line !! 7%nat = Some EmptyString -> line !! 8%nat = None ->
        muscle_marked line = inl IndexError)
  /\ (forall c8, line !! 7%nat = Some EmptyString -> line !! 8%nat = Some c8 ->
        c8 <> EmptyString -> muscle_marked line = inr true)
  /\ (line !! 7%nat = Some EmptyString -> line !! 8%nat = Some EmptyString ->
        line !! 9%nat = None -> muscle_marked line = inl IndexError).
Proof.
  unfold muscle_marked, getitem. repeat split.
  - intros ->. reflexivity.
  - intros c7 -> Hc. simpl. destruct c7; [congruence|reflexivity].
  - intros -> ->. reflexivity.
  - intros c8 -> -> Hc. simpl. destruct c8; [congruence|reflexivity].
  - intros -> -> ->. reflexivity.
Qed.

(** The names of the muscles of records of ten columns or more. *)
Local Abbreviation muscle_names rows :=
  (List.map (fun r : Row => upper (normalize_cell_name (default EmptyString (r !! 0%nat))))
     (List.filter
        (fun r : Row => truthy (default EmptyString (r !! 7%nat))
                        || truthy (default EmptyString (r !! 8%nat))
                        || String.eqb (default EmptyString (r !! 9%nat)) "1") rows)).

(** The muscles of the records before come first, whatever follows. *)
Lemma muscles_after (before rest : list Row) :
  Forall (fun r => (10 <= List.length r)%nat) before ->
  muscles normalize_cell_name (before ++ rest)%list
  = bind (muscles normalize_cell_name rest)
         (fun ms => ret (muscle_names before ++ ms)%list).
Proof.
  induction 1 as [|r rs Hr _ IH].
  - simpl. destruct (muscles normalize_cell_name rest); reflexivity.
  - change ((r :: rs) ++ rest)%list with (r :: (rs ++ rest))%list.
    rewrite muscles_cons, IH.
    destruct (lookup_in_range r 7 ltac:(lia)) as [c7 H7].
    destruct (lookup_in_range r 8 ltac:(lia)) as [c8 H8].
    destruct (lookup_in_range r 9 ltac:(lia)) as [c9 H9].
    destruct (lookup_in_range r 0 ltac:(lia)) as [c0 H0].
    rewrite (muscle_marked_cases r c7 c8 c9 H7 H8 H9).
    simpl List.filter. rewrite H7, H8, H9. simpl.
    destruct (truthy c7 || truthy c8 || String.eqb c9 "1").
    + rewrite (getitem_Some r 0 c0 H0). simpl.
      destruct (muscles normalize_cell_name rest); simpl; [reflexivity|].
      rewrite H0. reflexivity.
    + reflexivity.
Qed.

Lemma muscles_good (rows : list Row) :
  Forall (fun r => (10 <= List.length r)%nat) rows ->
  muscles normalize_cell_name rows = inr (muscle_names rows).
Proof.
  intros Hall. rewrite <- (app_nil_r rows) at 1.
  rewrite (muscles_after rows [] Hall). simpl. rewrite app_nil_r. reflexivity.
Qed.

(** X12. A record of the cell table that ends early still gets its Muscle
    when a column that it has decides the test: with a text in column 7,
    or in column 8 after an empty column 7, the translator makes the
    Muscle of the record between those of the records before and after it,
    though the later columns are missing. When the record ends before a
    column that the test still needs, the whole translation raises
    [IndexError] and no Muscle is returned. *)
Theorem muscles_of_short_records (before after : list Row) (line : Row) :
  Forall (fun r => (10 <= List.length r)%nat) before ->
  Forall (fun r => (10 <= List.length r)%nat) after ->
  (forall c0 c7,
      line !! 0%nat = Some c0 -> line !! 7%nat = Some c7 -> c7 <> EmptyString ->
      Muscle_translate normalize_cell_name (before ++ line :: after)%list
      = inr (wormbase_website,
             (muscle_names before
                ++ upper (normalize_cell_name c0) :: muscle_names after)%list))
  /\ (forall c0 c8,
        line !! 0%nat = Some c0 -> line !! 7%nat = Some EmptyString ->
        line !! 8%nat = Some c8 -> c8 <> EmptyString ->
        Muscle_translate normalize_cell_name (before ++ line :: after)%list
        = inr (wormbase_website,
               (muscle_names before
                  ++ upper (normalize_cell_name c0) :: muscle_names after)%list))
  /\ (line !! 7%nat = None
      \/ (line !! 7%nat = Some EmptyString /\ line !! 8%nat = None)
      \/ (line !! 7%nat = Some EmptyString /\ line !! 8%nat = Some EmptyString
          /\ line !! 9%nat = None) ->
      Muscle_translate normalize_cell_name (before ++ line :: after)%list
      = inl IndexError).
Proof.
  intros Hbefore Hafter.
  destruct (muscle_marked_branches line) as (B7 & T7 & B8 & T8 & B9).
  assert (Hyes : forall c0, line !! 0%nat = Some c0 -> muscle_marked line = inr true ->
            Muscle_translate normalize_cell_name (before ++ line :: after)%list
            = inr (wormbase_website,
                   (muscle_names before
                      ++ upper (normalize_cell_name c0) :: muscle_names after)%list)).
  { intros c0 H0 Hm. unfold Muscle_translate.
    rewrite (muscles_after before (line :: after) Hbefore).
    rewrite muscles_cons, Hm. simpl bind at 2.
    rewrite (getitem_Some line 0 c0 H0), (muscles_good after Hafter). reflexivity. }
  assert (Hno : muscle_marked line = inl IndexError ->
            Muscle_translate normalize_cell_name (before ++ line :: after)%list
            = inl IndexError).
  { intros Hm. unfold Muscle_translate.
    rewrite (muscles_after before (line :: after) Hbefore).
    rewrite muscles_cons, Hm. reflexivity. }
  split; [|split].
  - intros c0 c7 H0 H7 Hc. apply (Hyes c0 H0). exact (T7 c7 H7 Hc).
  - intros c0 c8 H0 H7 H8 Hc. apply (Hyes c0 H0). exact (T8 c8 H7 H8 Hc).
  - intros [H7|[[H7 H8]|(H7 & H8 & H9)]]; apply Hno; auto.
Qed.

(** X13. On records of ten columns or more the muscle translator makes one
    Muscle for every record that has any text in column 7 or in column 8,
    or ["1"] in column 9, in the order of the records. *)
Theorem muscles_of_marked_records (rows : list Row) :
  Forall (fun r => (10 <= List.length r)%nat) rows ->
  Muscle_translate normalize_cell_name rows
  = inr (wormbase_website,
         List.map (fun r => upper (normalize_cell_name (default EmptyString (r !! 0%nat))))
           (List.filter
              (fun r => truthy (default EmptyString (r !! 7%nat))
                        || truthy (default EmptyString (r !! 8%nat))
                        || String.eqb (default EmptyString (r !! 9%nat)) "1") rows)).
Proof.
  intros Hall. unfold Muscle_translate.
  assert (Hgood : muscles normalize_cell_name rows
            = inr (List.map (fun r => upper (normalize_cell_name (default EmptyString (r !! 0%nat))))
                     (List.filter
                        (fun r => truthy (default EmptyString (r !! 7%nat))
                                  || truthy (default EmptyString (r !! 8%nat))
                                  || String.eqb (default EmptyString (r !! 9%nat)) "1") rows))).
  { induction Hall as [|r rs Hr _ IH]; [reflexivity|].
    rewrite muscles_cons.
    destruct (lookup_in_range r 7 ltac:(lia)) as [c7 H7].
    destruct (lookup_in_range r 8 ltac:(lia)) as [c8 H8].
    destruct (lookup_in_range r 9 ltac:(lia)) as [c9 H9].
    destruct (lookup_in_range r 0 ltac:(lia)) as [c0 H0].
    rewrite (muscle_marked_cases r c7 c8 c9 H7 H8 H9).
    simpl List.filter. rewrite H7, H8, H9. simpl.
    destruct (truthy c7 || truthy c8 || String.eqb c9 "1").
    - rewrite (getitem_Some r 0 c0 H0), IH. simpl. rewrite H0. reflexivity.
    - exact IH. }
  rewrite Hgood. reflexivity.
Qed.

Lemma upper_ascii_idempotent (c : ascii) : upper_ascii (upper_ascii c) = upper_ascii c.
Proof. destruct c as [[] [] [] [] [] [] [] []]; reflexivity. Qed.

Lemma upper_idempotent (s : string) : upper (upper s) = upper s.
Proof.
  induction s as [|c s IH]; [reflexivity|].
  simpl. rewrite upper_ascii_idempotent, IH. reflexivity.
Qed.

Lemma channels_of_lines_cons (line : Row) (rest : list Row) :
  channels_of_lines normalize_cell_name (line :: rest)
  = bind (channel_of_line normalize_cell_name line)
         (fun c => bind (channels_of_lines normalize_cell_name rest)
                        (fun cs => ret (c :: cs))).
Proof. reflexivity. Qed.

Lemma channel_of_line_short (line : Row) :
  (List.length line < 5)%nat -> channel_of_line normalize_cell_name line = inl IndexError.
Proof.
  intros H. unfold channel_of_line.
  destruct line as [|l0 [|l1 [|l2 [|l3 [|l4 more]]]]]; simpl in H; try lia; reflexivity.
Qed.

(** X14. On records of five fields or more the channel translator makes
    one channel for each record, in their order; the name, the gene name
    and the gene ID of a channel are in upper case, the description is the
    field as it is given. A record with fewer than five fields makes the
    whole translation raise [IndexError]. *)
Theorem channels_of_records (rows : list Row) :
  (Forall (fun r => (5 <= List.length r)%nat) rows ->
   exists cs,
     IonChannel_translate normalize_cell_name rows = inr (wormbase_website, cs)
     /\ Forall2 (fun r c =>
                   name c = upper (normalize_cell_name (default EmptyString (r !! 0%nat)))
                   /\ upper (name c) = name c
                   /\ upper (gene_name c) = gene_name c
                   /\ upper (gene_WB_ID c) = gene_WB_ID c
                   /\ Some (description c) = r !! 4%nat) rows cs)
  /\ (forall before short after,
        rows = (before ++ short :: after)%list ->
        Forall (fun r => (5 <= List.length r)%nat) before ->
        (List.length short < 5)%nat ->
        IonChannel_translate normalize_cell_name rows = inl IndexError).
Proof.
  assert (Hone : forall r, (5 <= List.length r)%nat ->
            exists c, channel_of_line normalize_cell_name r = inr c
              /\ name c = upper (normalize_cell_name (default EmptyString (r !! 0%nat)))
              /\ upper (name c) = name c
              /\ upper (gene_name c) = gene_name c
              /\ upper (gene_WB_ID c) = gene_WB_ID c
              /\ Some (description c) = r !! 4%nat).
  { intros r Hr.
    destruct r as [|l0 [|l1 [|l2 [|l3 [|l4 more]]]]]; simpl in Hr; try lia.
    eexists. split; [reflexivity|]. simpl.
    rewrite !upper_idempotent. auto. }
  split.
  - intros Hall. unfold IonChannel_translate.
    assert (Hcs : exists cs, channels_of_lines normalize_cell_name rows = inr cs
              /\ Forall2 (fun r c =>
                   name c = upper (normalize_cell_name (default EmptyString (r !! 0%nat)))
                   /\ upper (name c) = name c
                   /\ upper (gene_name c) = gene_name c
                   /\ upper (gene_WB_ID c) = gene_WB_ID c
                   /\ Some (description c) = r !! 4%nat) rows cs).
    { induction Hall as [|r rs Hr _ IH].
      - exists []. split; [reflexivity|constructor].
      - destruct (Hone r Hr) as (c & Hc & Hprops). destruct IH as (cs & Hcs & Hall2).
        exists (c :: cs). rewrite channels_of_lines_cons, Hc, Hcs.
        split; [reflexivity|]. constructor; assumption. }
    destruct Hcs as (cs & Hcs & Hall2). exists cs. rewrite Hcs. split; [reflexivity|exact Hall2].
  - intros before short after -> Hbefore Hshort. unfold IonChannel_translate.
    assert (Hfail : channels_of_lines normalize_cell_name (before ++ short :: after)%list
                    = inl IndexError).
    { induction Hbefore as [|r rs Hr _ IH].
      - simpl app. rewrite channels_of_lines_cons, (channel_of_line_short short Hshort).
        reflexivity.
      - change ((r :: rs) ++ short :: after)%list with (r :: (rs ++ short :: after))%list.
        rewrite channels_of_lines_cons, IH.
        destruct (Hone r Hr) as (c & -> & _). reflexivity. }
    rewrite Hfail. reflexivity.
Qed.

End CellTables.

Section ChannelCellTable.

Import wormbase.

Lemma skip_to_header_loop_spec (reader : list Row) (rows : nat) :
  (rows <= 3)%nat ->
  skip_to_header_loop reader rows = (reader !! (3 - rows)%nat, drop (4 - rows) reader).
Proof.
  revert rows. induction reader as [|row rest IH]; intros rows Hr.
  - simpl. rewrite drop_nil. reflexivity.
  - simpl. destruct (Nat.eqb_spec rows 3) as [->|Hne].
    + reflexivity.
    + rewrite (IH (S rows) ltac:(lia)).
      replace (3 - rows)%nat with (S (3 - S rows)) by lia.
      replace (4 - rows)%nat with (S (4 - S rows)) by lia.
      reflexivity.
Qed.

Lemma appearances_cons (header : Row) (initcol : Z) (row : Row) (rest : list Row) :
  appearances header initcol (row :: rest)
  = bind (extract_cell_names header initcol row)
         (fun cells =>
            bind (getitem row 0)
                 (fun r0 => bind (appearances header initcol rest)
                                 (fun more => ret (mkAppearance r0 cells :: more)))).
Proof. reflexivity. Qed.

(** X15. The header of the table of channels and cells is its fourth row
    and the data are the rows after it; the three rows before the header
    are never read. A table of fewer than four rows has no header and is
    translated to nothing, without an exception; an empty row among the
    data raises [IndexError]. *)
Theorem text_match_header_is_fourth_row (initcol : Z) (rows : list Row) :
  skip_to_header rows = (rows !! 3%nat, drop 4 rows)
  /\ ((List.length rows < 4)%nat ->
      TextMatch_translate initcol rows = inr (wormbase_website, []))
  /\ (forall r0 r1 r2 r0' r1' r2' header data,
        rows = r0 :: r1 :: r2 :: header :: data ->
        TextMatch_translate initcol rows
        = TextMatch_translate initcol (r0' :: r1' :: r2' :: header :: data))
  /\ (forall r0 r1 r2 header data,
        rows = r0 :: r1 :: r2 :: header :: [] :: data ->
        TextMatch_translate initcol rows = inl IndexError).
Proof.
  assert (Hskip : forall rs, skip_to_header rs = (rs !! 3%nat, drop 4 rs)).
  { intros rs. unfold skip_to_header.
    rewrite (skip_to_header_loop_spec rs 0 ltac:(lia)). reflexivity. }
  split; [apply Hskip|]. split; [|split].
  - intros Hlen. unfold TextMatch_translate. rewrite Hskip.
    rewrite (proj2 (lookup_ge_None rows 3)); [reflexivity|lia].
  - intros r0 r1 r2 r0' r1' r2' header data ->. reflexivity.
  - intros r0 r1 r2 header data ->. unfold TextMatch_translate. rewrite Hskip.
    change ((r0 :: r1 :: r2 :: header :: [] :: data) !! 3%nat) with (Some header).
    change (drop 4 (r0 :: r1 :: r2 :: header :: [] :: data)) with (([] : Row) :: data).
    cbv iota beta. rewrite appearances_cons. reflexivity.
Qed.

(** The loop of [extract_cell_names] raises nothing but [IndexError]. *)
Lemma extract_cell_names_loop_error (header : Row) (initcol : Z) (row : Row) :
  forall cols res e,
    extract_cell_names_loop header initcol row cols res = inl e -> e = IndexError.
Proof.
  induction row as [|col row IH]; intros cols res e; [discriminate|].
  rewrite extract_cell_names_loop_cons.
  destruct (initcol <? Z.of_nat cols)%Z.
  - destruct (String.eqb col "1" || String.eqb col "2").
    + unfold getitem. destruct (header !! cols); simpl.
      * apply IH.
      * intros [= <-]. reflexivity.
    + simpl. apply IH.
  - simpl. apply IH.
Qed.

Lemma extract_cell_names_loop_beyond (header : Row) (initcol : Z) (row : Row) :
  forall cols res i col,
    row !! i = Some col ->
    (initcol < Z.of_nat (cols + i))%Z ->
    col = "1" \/ col = "2" ->
    (List.length header <= cols + i)%nat ->
    extract_cell_names_loop header initcol row cols res = inl IndexError.
Proof.
  induction row as [|c row IH]; intros cols res i col Hi Hlt Hm Hlen; [destruct i; discriminate|].
  rewrite extract_cell_names_loop_cons. destruct i as [|i].
  - simpl in Hi. injection Hi as ->. rewrite Nat.add_0_r in Hlt, Hlen.
    apply Z.ltb_lt in Hlt. rewrite Hlt.
    apply marker_true in Hm. rewrite Hm.
    rewrite (getitem_None header cols); [reflexivity|].
    apply lookup_ge_None. exact Hlen.
  - simpl in Hi.
    assert (Hstep : forall res', extract_cell_names_loop header initcol row (S cols) res'
                                 = inl IndexError).
    { intros res'. apply (IH (S cols) res' i col Hi); [|exact Hm|]; 
        replace (S cols + i)%nat with (cols + S i)%nat by lia; assumption. }
    destruct (initcol <? Z.of_nat cols)%Z.
    + destruct (String.eqb c "1" || String.eqb c "2").
      * unfold getitem. destruct (header !! cols); simpl; [apply Hstep|reflexivity].
      * simpl. apply Hstep.
    + simpl. apply Hstep.
Qed.

Lemma extract_cell_names_loop_ignores (header : Row) (initcol : Z) (pre pre' rest : Row) :
  forall cols res,
    List.length pre = List.length pre' ->
    (Z.of_nat (cols + List.length pre) <= initcol + 1)%Z ->
    extract_cell_names_loop header initcol (pre ++ rest)%list cols res
    = extract_cell_names_loop header initcol (pre' ++ rest)%list cols res.
Proof.
  revert pre'. induction pre as [|c pre IH]; intros pre' cols res Hlen Hle.
  - destruct pre'; [reflexivity|discriminate].
  - destruct pre' as [|c' pre']; [discriminate|].
    simpl in Hlen, Hle. injection Hlen as Hlen.
    change ((c :: pre) ++ rest)%list with (c :: (pre ++ rest))%list.
    change ((c' :: pre') ++ rest)%list with (c' :: (pre' ++ rest))%list.
    rewrite !extract_cell_names_loop_cons.
    destruct (Z.ltb_spec initcol (Z.of_nat cols)) as [Hlt|_]; [lia|].
    simpl. apply IH; [exact Hlen|lia].
Qed.

(** X16. A marked column that lies after the initial cell column and
    beyond the end of the header makes [extract_cell_names] raise
    [IndexError], and it raises nothing else. The columns up to the initial
    cell column, that column included, are not looked at: whatever they
    hold, markers too, the result is the same. *)
Theorem extract_cell_names_bounds (header : Row) (initcol : Z) (row : Row) :
  (forall e, extract_cell_names header initcol row = inl e -> e = IndexError)
  /\ (forall i col,
        row !! i = Some col -> (initcol < Z.of_nat i)%Z -> col = "1" \/ col = "2" ->
        (List.length header <= i)%nat ->
        extract_cell_names header initcol row = inl IndexError)
  /\ (forall pre pre' rest,
        row = (pre ++ rest)%list ->
        List.length pre = List.length pre' ->
        (Z.of_nat (List.length pre) <= initcol + 1)%Z ->
        extract_cell_names header initcol row
        = extract_cell_names header initcol (pre' ++ rest)%list).
Proof.
  unfold extract_cell_names. split; [|split].
  - intros e. apply extract_cell_names_loop_error.
  - intros i col Hi Hlt Hm Hlen.
    apply (extract_cell_names_loop_beyond header initcol row 0 [] i col); assumption.
  - intros pre pre' rest -> Hlen Hle.
    apply extract_cell_names_loop_ignores; [exact Hlen|exact Hle].
Qed.

End ChannelCellTable.

Section ExpressionPatterns.

Import wormbase.

Lemma span_until_first (c : ascii) (a t : string) :
  contains (String c EmptyString) a = false ->
  span_until c (a ++ String c t) = (a, String c t).
Proof.
  induction a as [|d a IH]; intros Ha.
  - simpl. rewrite Ascii.eqb_refl. reflexivity.
  - rewrite contains_char_cons in Ha. apply orb_false_iff in Ha as [Hd Ha].
    rewrite append_cons. simpl. rewrite Ascii.eqb_sym, Hd, (IH Ha). reflexivity.
Qed.

Lemma span_until_none (c : ascii) (a : string) :
  contains (String c EmptyString) a = false -> span_until c a = (a, EmptyString).
Proof.
  induction a as [|d a IH]; intros Ha; [reflexivity|].
  rewrite contains_char_cons in Ha. apply orb_false_iff in Ha as [Hd Ha].
  simpl. rewrite Ascii.eqb_sym, Hd, (IH Ha). reflexivity.
Qed.

Lemma span_until_cons (c d : ascii) (s : string) :
  span_until c (String d s)
  = if Ascii.eqb d c then (EmptyString, String d s)
    else (String d (fst (span_until c s)), snd (span_until c s)).
Proof. simpl. destruct (Ascii.eqb d c); [reflexivity|]. destruct (span_until c s); reflexivity. Qed.

(** The piece that [span_until] takes is free of the character. *)
Lemma span_until_free (c : ascii) (s : string) :
  contains (String c EmptyString) (fst (span_until c s)) = false.
Proof.
  induction s as [|d s IH]; [reflexivity|].
  rewrite span_until_cons. destruct (Ascii.eqb d c) eqn:E; [reflexivity|].
  change (fst (String d (fst (span_until c s)), snd (span_until c s)))
    with (String d (fst (span_until c s))).
  rewrite contains_char_cons, Ascii.eqb_sym, E, IH. reflexivity.
Qed.

Lemma skip_spaces_repeat (n : nat) (s : string) :
  skip_spaces (string_of_list_ascii (List.repeat " "%char n) ++ s) = skip_spaces s.
Proof. induction n as [|n IH]; [reflexivity|]. simpl. exact IH. Qed.

Lemma startswith_char (a c : ascii) (s : string) :
  startswith (String a EmptyString) (String c s) = Ascii.eqb a c.
Proof. simpl. destruct (Ascii.eqb a c); reflexivity. Qed.

Lemma skip_spaces_cons (c : ascii) (s : string) :
  skip_spaces (String c s) = if Ascii.eqb c " " then skip_spaces s else String c s.
Proof. reflexivity. Qed.

Lemma skip_spaces_id (s : string) : startswith " " s = false -> skip_spaces s = s.
Proof.
  destruct s as [|c s]; [reflexivity|]. intros H.
  rewrite startswith_char, Ascii.eqb_sym in H.
  rewrite skip_spaces_cons, H. reflexivity.
Qed.

Lemma skip_spaces_no_space (s : string) : startswith " " (skip_spaces s) = false.
Proof.
  induction s as [|c s IH]; [reflexivity|].
  rewrite skip_spaces_cons. destruct (Ascii.eqb c " ") eqn:E; [exact IH|].
  rewrite startswith_char, Ascii.eqb_sym. exact E.
Qed.

(** X17. An entry written as spaces, an id in brackets, spaces and a
    description is read back as that id and that description, when the id
    is not empty and has no closing bracket and the description neither
    starts with a space nor holds a line feed. Whatever entry matches, its
    id is not empty and has no closing bracket, and its description does
    not start with a space and holds no line feed. *)
Theorem expression_pattern_entry_round_trip :
  (forall (n m : nat) (id desc : string),
      id <> EmptyString ->
      contains "]" id = false ->
      startswith " " desc = false ->
      contains (String newline EmptyString) desc = false ->
      regex_match (string_of_list_ascii (List.repeat " "%char n)
                     ++ String "[" (id ++ String "]"
                          (string_of_list_ascii (List.repeat " "%char m) ++ desc)))
      = Some (id, desc))
  /\ (forall (entry g1 g2 : string),
        regex_match entry = Some (g1, g2) ->
        g1 <> EmptyString
        /\ contains "]" g1 = false
        /\ startswith " " g2 = false
        /\ contains (String newline EmptyString) g2 = false).
Proof.
  split.
  - intros n m id desc Hid Hb Hs Hn. unfold regex_match.
    rewrite skip_spaces_repeat. simpl skip_spaces. simpl Ascii.eqb. cbv iota.
    rewrite (span_until_first "]" id _ Hb).
    destruct id as [|c id]; [congruence|].
    rewrite skip_spaces_repeat, (skip_spaces_id desc Hs), (span_until_none newline desc Hn).
    reflexivity.
  - intros entry g1 g2. unfold regex_match.
    destruct (skip_spaces entry) as [|c s1]; [discriminate|].
    destruct (Ascii.eqb c "["); [|discriminate].
    pose proof (span_until_free "]" s1) as Hfree1.
    destruct (span_until "]" s1) as [p1 r1]. simpl in Hfree1.
    destruct p1 as [|x p1]; [discriminate|].
    destruct r1 as [|y r2]; [discriminate|].
    pose proof (span_until_free newline (skip_spaces r2)) as Hfree2.
    pose proof (skip_spaces_no_space r2) as Hns.
    destruct (span_until newline (skip_spaces r2)) as [p2 r3] eqn:E2. simpl in Hfree2.
    intros [= <- <-]. split; [discriminate|]. split; [exact Hfree1|]. split; [|exact Hfree2].
    destruct (skip_spaces r2) as [|z r]; simpl in E2.
    + injection E2 as <- _. reflexivity.
    + destruct (Ascii.eqb z newline).
      * injection E2 as <- _. reflexivity.
      * destruct (span_until newline r) as [q r']. injection E2 as <- _. exact Hns.
Qed.

End ExpressionPatterns.

Section IdentifierTable.

Import wormbase.

Variable normalize_cell_name : string -> string.

(** X18. The translator of WormBase identifiers makes nothing of a table
    with fewer than two records. Of a record after the first it needs the
    column [Cell]: without it the translation raises [KeyError]; the
    column [WormBase ID] it needs only when a stored cell has the name of
    the record. *)
Theorem id_setter_key_errors (first line : DictRow) (rest : list DictRow)
    (cells_source : list Cell) :
  IDSetter_translate normalize_cell_name [] cells_source = inr (wormbase_website, [])
  /\ IDSetter_translate normalize_cell_name [first] cells_source = inr (wormbase_website, [])
  /\ (line !! "Cell" = None ->
      IDSetter_translate normalize_cell_name (first :: line :: rest) cells_source
      = inl (KeyError "Cell"))
  /\ (forall c, line !! "Cell" = Some c ->
        line !! "WormBase ID" = None ->
        query_load cells_source (normalize_cell_name c) <> [] ->
        IDSetter_translate normalize_cell_name (first :: line :: rest) cells_source
        = inl (KeyError "WormBase ID"))
  /\ (forall c, line !! "Cell" = Some c ->
        line !! "WormBase ID" = None ->
        query_load cells_source (normalize_cell_name c) = [] ->
        IDSetter_translate normalize_cell_name (first :: line :: rest) cells_source
        = IDSetter_translate normalize_cell_name (first :: rest) cells_source).
Proof.
  split; [reflexivity|]. split; [reflexivity|].
  assert (Hloop : IDSetter_loop normalize_cell_name cells_source (first :: line :: rest) 0
                  = bind (dict_getitem line "Cell")
                      (fun c =>
                         bind (set_ids line (query_load cells_source (normalize_cell_name c)))
                           (fun here =>
                              bind (IDSetter_loop normalize_cell_name cells_source rest 2)
                                (fun more => ret (here ++ more)%list)))).
  { reflexivity. }
  assert (Hshift : forall data n m, (1 <= n)%nat -> (1 <= m)%nat ->
            IDSetter_loop normalize_cell_name cells_source data n
            = IDSetter_loop normalize_cell_name cells_source data m).
  { induction data as [|l data IH]; intros n m Hn Hm; [reflexivity|].
    rewrite !IDSetter_loop_cons.
    destruct (Nat.ltb_spec n 1); [lia|]. destruct (Nat.ltb_spec m 1); [lia|].
    rewrite (IH (S n) (S m)); [reflexivity|lia|lia]. }
  assert (Hret : forall (A B : Type) (a : A) (k : A -> result B), bind (inr a) k = k a)
    by reflexivity.
  unfold IDSetter_translate. rewrite Hloop. unfold dict_getitem at 1 2 3.
  split; [|split].
  - intros H. rewrite H. reflexivity.
  - intros c H Hid Hq. rewrite H, Hret.
    destruct (query_load cells_source (normalize_cell_name c)) as [|c0 loaded]; [congruence|].
    change (set_ids line (c0 :: loaded))
      with (bind (dict_getitem line "WormBase ID")
              (fun id => bind (set_ids line loaded)
                           (fun more => ret (mkWormbaseID c0 id :: more)))).
    unfold dict_getitem. rewrite Hid. reflexivity.
  - intros c H Hid Hq. rewrite H, Hret, Hq.
    change (IDSetter_loop normalize_cell_name cells_source (first :: rest) 0)
      with (IDSetter_loop normalize_cell_name cells_source rest 1).
    rewrite (Hshift rest 2%nat 1%nat); [|lia|lia].
    destruct (IDSetter_loop normalize_cell_name cells_source rest 1); reflexivity.
Qed.

End IdentifierTable.

(* ===================================================================== *)
(** * Further properties: the order of a merge *)
(* ===================================================================== *)

Section MergeOrder.

Import context_merge.

Variable new_output : list Source -> Source.

Lemma leb_not_Gt (a b : string) : String.leb a b = true <-> String.compare a b <> Gt.
Proof.
  unfold String.leb. destruct (String.compare a b); split; intros H; congruence.
Qed.

Lemma compare_trans_le (a : string) :
  forall b c, String.compare a b <> Gt -> String.compare b c <> Gt ->
              String.compare a c <> Gt.
Proof.
  induction a as [|x a IH]; intros [|y b] [|z c]; simpl; try congruence.
  unfold Ascii.compare.
  destruct (N.compare_spec (N_of_ascii x) (N_of_ascii y)) as [Exy|Lxy|Gxy];
    destruct (N.compare_spec (N_of_ascii y) (N_of_ascii z)) as [Eyz|Lyz|Gyz];
    destruct (N.compare_spec (N_of_ascii x) (N_of_ascii z)) as [Exz|Lxz|Gxz];
    try congruence; try lia.
  apply IH.
Qed.

Lemma leb_trans (a b c : string) :
  String.leb a b = true -> String.leb b c = true -> String.leb a c = true.
Proof. rewrite !leb_not_Gt. apply compare_trans_le. Qed.

Lemma leb_false_flip (a b : string) : String.leb a b = false -> String.leb b a = true.
Proof. intros H. destruct (String.leb_total a b) as [H'|H']; congruence. Qed.

(** Two sources with different identifiers are inserted in either order
    with the same result. *)
Lemma insert_insert (a b : Source) (l : list Source) :
  identifier a <> identifier b ->
  insert a (insert b l) = insert b (insert a l).
Proof.
  intros Hne.
  assert (Hab : String.leb (identifier a) (identifier b) = true ->
                String.leb (identifier b) (identifier a) = false).
  { intros H1. destruct (String.leb (identifier b) (identifier a)) eqn:H2; [|reflexivity].
    exfalso. apply Hne. apply String.leb_antisym; assumption. }
  induction l as [|t l IH].
  - simpl. destruct (String.leb (identifier a) (identifier b)) eqn:E1.
    + rewrite (Hab eq_refl). reflexivity.
    + rewrite (leb_false_flip _ _ E1). reflexivity.
  - simpl.
    destruct (String.leb (identifier b) (identifier t)) eqn:Ebt;
      destruct (String.leb (identifier a) (identifier t)) eqn:Eat; simpl.
    + destruct (String.leb (identifier a) (identifier b)) eqn:E1.
      * rewrite (Hab eq_refl), Ebt. reflexivity.
      * rewrite (leb_false_flip _ _ E1), Eat. reflexivity.
    + assert (E1 : String.leb (identifier a) (identifier b) = false).
      { destruct (String.leb (identifier a) (identifier b)) eqn:E; [|reflexivity].
        rewrite (leb_trans _ _ _ E Ebt) in Eat. discriminate. }
      rewrite E1, Eat, Ebt. reflexivity.
    + assert (E2 : String.leb (identifier b) (identifier a) = false).
      { destruct (String.leb (identifier b) (identifier a)) eqn:E; [|reflexivity].
        rewrite (leb_trans _ _ _ E Eat) in Ebt. discriminate. }
      rewrite E2, Eat, Ebt. reflexivity.
    + rewrite Eat, Ebt, IH. reflexivity.
Qed.

Lemma sorted_of_permutation (xs ys : list Source) :
  xs ≡ₚ ys -> NoDup (List.map identifier xs) -> sorted xs = sorted ys.
Proof.
  induction 1 as [|x l l' Hp IH|x y l|l l' l'' Hp1 IH1 Hp2 IH2]; intros Hnd.
  - reflexivity.
  - simpl. rewrite IH; [reflexivity|]. simpl in Hnd. apply NoDup_cons in Hnd. tauto.
  - simpl. apply insert_insert. simpl in Hnd.
    apply NoDup_cons in Hnd as [Hnotin _]. intros Heq. apply Hnotin.
    rewrite Heq. left.
  - rewrite IH1; [|exact Hnd]. apply IH2.
    rewrite <- (Permutation_map identifier Hp1). exact Hnd.
Qed.

(** X19. When the sources have identifiers that differ from one another,
    the merge gives for every order of the sources the same result in
    every part: the same output is made, for the sources in the same
    order, and its contexts list the same imports in the same order. *)
Theorem merge_independent_of_order (xs ys : list Source) (made : list Source) :
  xs ≡ₚ ys ->
  NoDup (List.map identifier xs) ->
  translate new_output xs made = translate new_output ys made.
Proof.
  intros Hp Hnd.
  destruct xs as [|x xs].
  - apply Permutation_nil in Hp. subst ys. reflexivity.
  - destruct ys as [|y ys].
    + symmetry in Hp. apply Permutation_nil in Hp. discriminate.
    + unfold translate. rewrite (sorted_of_permutation _ _ Hp Hnd). reflexivity.
Qed.

Lemma insert_Forall (Q : Source -> Prop) (s : Source) (l : list Source) :
  Q s -> Forall Q l -> Forall Q (insert s l).
Proof.
  intros Hs Hl. induction Hl as [|t l Ht Hl IH]; simpl.
  - constructor; [exact Hs|constructor].
  - destruct (String.leb (identifier s) (identifier t)).
    + constructor; [exact Hs|]. constructor; assumption.
    + constructor; [exact Ht|exact IH].
Qed.

Lemma insert_sorted (s : Source) (l : list Source) :
  StronglySorted (fun a b => String.leb (identifier a) (identifier b) = true) l ->
  StronglySorted (fun a b => String.leb (identifier a) (identifier b) = true) (insert s l).
Proof.
  induction 1 as [|t l Hl IH Ht]; simpl.
  - constructor; constructor.
  - destruct (String.leb (identifier s) (identifier t)) eqn:E.
    + constructor; [constructor; assumption|].
      constructor; [exact E|].
      eapply Forall_impl; [exact Ht|]. intros u Hu. simpl in Hu. simpl.
      exact (leb_trans _ _ _ E Hu).
    + constructor; [exact IH|].
      apply insert_Forall; [exact (leb_false_flip _ _ E)|exact Ht].
Qed.

Lemma sorted_StronglySorted (l : list Source) :
  StronglySorted (fun a b => String.leb (identifier a) (identifier b) = true) (sorted l).
Proof.
  induction l as [|s l IH]; simpl; [constructor|]. apply insert_sorted. exact IH.
Qed.

(** X20. A merge of one or more sources returns the output made for the
    sources in ascending order of their identifiers, with its identifier
    and the identifiers of its contexts as they were made; to the imports
    that its contexts had it adds the contexts of the sources in that
    order, the data context and the evidence context of one source at the
    same place. *)
Theorem merge_imports_in_ascending_order (xs : list Source) (made : list Source) :
  xs <> [] ->
  exists r,
    translate new_output xs made = (inr r, (made ++ [new_output (sorted xs)])%list)
    /\ StronglySorted (fun a b => String.leb (identifier a) (identifier b) = true) (sorted xs)
    /\ identifier r = identifier (new_output (sorted xs))
    /\ ident (data_context r) = ident (data_context (new_output (sorted xs)))
    /\ ident (evidence_context r) = ident (evidence_context (new_output (sorted xs)))
    /\ imports (data_context r)
       = (imports (data_context (new_output (sorted xs)))
            ++ List.map data_context (sorted xs))%list
    /\ imports (evidence_context r)
       = (imports (evidence_context (new_output (sorted xs)))
            ++ List.map evidence_context (sorted xs))%list.
Proof.
  intros Hne. rewrite (merge_returns new_output xs made Hne).
  eexists. split; [reflexivity|]. split; [apply sorted_StronglySorted|].
  destruct (import_loop (sorted xs) (new_output (sorted xs))) as (H1 & H2 & H3 & H4 & H5).
  repeat split; assumption.
Qed.

(** The imports of the result of a merge. *)
Lemma merge_result (ws : list Source) (made0 : list Source) :
  ws <> [] ->
  exists r,
    fst (translate new_output ws made0) = inr r
    /\ imports (data_context r)
       = (imports (data_context (new_output (sorted ws)))
            ++ List.map data_context (sorted ws))%list
    /\ imports (evidence_context r)
       = (imports (evidence_context (new_output (sorted ws)))
            ++ List.map evidence_context (sorted ws))%list.
Proof.
  intros Hws. rewrite (merge_returns new_output ws made0 Hws). simpl.
  eexists. split; [reflexivity|].
  destruct (import_loop (sorted ws) (new_output (sorted ws))) as (_ & _ & Hd & _ & He).
  split; assumption.
Qed.

(** C3, as the code has it. The merge of one or more sources returns the
    output made for the sources in the order of their identifiers; its
    data context imports what it imported when it was made and, added to
    that, the data contexts of the sources, each as often as it is given,
    and nothing else, and likewise its evidence context. Every permutation
    of the sources adds the same contexts, and gives the very same result
    when the identifiers of the sources differ from one another. The merge
    does not flatten: a merge that takes the result of an earlier merge as
    a source imports the contexts of that result, and reaches the contexts
    of the earlier sources through these imports only. *)
Theorem merge_imports (xs : list Source) (made : list Source) :
  xs <> [] ->
  exists r,
    fst (translate new_output xs made) = inr r
    /\ imports (data_context r)
       = (imports (data_context (new_output (sorted xs)))
            ++ List.map data_context (sorted xs))%list
    /\ imports (evidence_context r)
       = (imports (evidence_context (new_output (sorted xs)))
            ++ List.map evidence_context (sorted xs))%list
    /\ sorted xs ≡ₚ xs
    /\ (forall ys made', ys ≡ₚ xs ->
          exists r',
            fst (translate new_output ys made') = inr r'
            /\ imports (data_context r')
               = (imports (data_context (new_output (sorted ys)))
                    ++ List.map data_context (sorted ys))%list
            /\ imports (evidence_context r')
               = (imports (evidence_context (new_output (sorted ys)))
                    ++ List.map evidence_context (sorted ys))%list
            /\ List.map data_context (sorted ys) ≡ₚ List.map data_context (sorted xs)
            /\ List.map evidence_context (sorted ys)
               ≡ₚ List.map evidence_context (sorted xs)
            /\ (NoDup (List.map identifier xs) -> r' = r))
    /\ (forall zs made' made'',
          exists nested flat,
            fst (translate new_output (r :: zs) made') = inr nested
            /\ fst (translate new_output (xs ++ zs)%list made'') = inr flat
            /\ In (data_context r) (imports (data_context nested))
            /\ In (evidence_context r) (imports (evidence_context nested))
            /\ (forall s, In s (xs ++ zs)%list ->
                  In (data_context s) (imports (data_context flat))
                  /\ In (data_context s) (closure (data_context nested))
                  /\ In (evidence_context s) (imports (evidence_context flat))
                  /\ In (evidence_context s) (closure (evidence_context nested)))).
Proof.
  intros Hne.
  destruct (merge_result xs made Hne) as (r & Hr & Hd & He).
  exists r. split; [exact Hr|]. split; [exact Hd|]. split; [exact He|].
  split; [apply sorted_Permutation|]. split.
  - intros ys made' Hperm.
    assert (Hys : ys <> []).
    { intros ->. apply Permutation_nil in Hperm. congruence. }
    destruct (merge_result ys made' Hys) as (r' & Hr' & Hd' & He').
    exists r'. split; [exact Hr'|]. split; [exact Hd'|]. split; [exact He'|].
    assert (Hs : sorted ys ≡ₚ sorted xs).
    { rewrite !sorted_Permutation. exact Hperm. }
    split; [apply Permutation_map; exact Hs|].
    split; [apply Permutation_map; exact Hs|].
    intros Hnd.
    assert (Heq : sorted ys = sorted xs).
    { symmetry. apply sorted_of_permutation; [symmetry; exact Hperm|exact Hnd]. }
    rewrite (merge_returns new_output xs made Hne) in Hr.
    rewrite (merge_returns new_output ys made' Hys) in Hr'.
    simpl in Hr, Hr'. rewrite Heq in Hr'. congruence.
  - intros zs made' made''.
    destruct (merge_result (r :: zs) made' ltac:(discriminate)) as (nested & Hn & Hnd & Hne').
    assert (Hxz : (xs ++ zs)%list <> []).
    { destruct xs; [congruence|discriminate]. }
    destruct (merge_result (xs ++ zs)%list made'' Hxz) as (flat & Hf & Hfd & Hfe).
    exists nested, flat.
    split; [exact Hn|]. split; [exact Hf|].
    assert (Hin_r : In r (sorted (r :: zs))).
    { apply (Permutation_in _ (Permutation_sym (sorted_Permutation (r :: zs)))). left.
      reflexivity. }
    assert (Hrd : In (data_context r) (imports (data_context nested))).
    { rewrite Hnd. apply in_or_app. right. apply in_map. exact Hin_r. }
    assert (Hre : In (evidence_context r) (imports (evidence_context nested))).
    { rewrite Hne'. apply in_or_app. right. apply in_map. exact Hin_r. }
    split; [exact Hrd|]. split; [exact Hre|].
    intros s Hs.
    assert (Hs_flat : In s (sorted (xs ++ zs)%list)).
    { apply (Permutation_in _ (Permutation_sym (sorted_Permutation (xs ++ zs)%list))).
      exact Hs. }
    split; [rewrite Hfd; apply in_or_app; right; apply in_map; exact Hs_flat|].
    split; [|split; [rewrite Hfe; apply in_or_app; right; apply in_map; exact Hs_flat|]].
    + apply in_app_or in Hs as [Hs|Hs].
      * apply (closure_step _ (data_context r)); [exact Hrd|].
        apply imports_in_closure. rewrite Hd. apply in_or_app. right. apply in_map.
        apply (Permutation_in _ (Permutation_sym (sorted_Permutation xs))). exact Hs.
      * apply imports_in_closure. rewrite Hnd. apply in_or_app. right. apply in_map.
        apply (Permutation_in _ (Permutation_sym (sorted_Permutation (r :: zs)))).
        right. exact Hs.
    + apply in_app_or in Hs as [Hs|Hs].
      * apply (closure_step _ (evidence_context r)); [exact Hre|].
        apply imports_in_closure. rewrite He. apply in_or_app. right. apply in_map.
        apply (Permutation_in _ (Permutation_sym (sorted_Permutation xs))). exact Hs.
      * apply imports_in_closure. rewrite Hne'. apply in_or_app. right. apply in_map.
        apply (Permutation_in _ (Permutation_sym (sorted_Permutation (r :: zs)))).
        right. exact Hs.
Qed.

End MergeOrder.

Lemma merge_imports_witness :
  exists r,
    fst (context_merge.translate samples.schema_output [samples.src_b; samples.src_a] [])
    = inr r
    /\ context_merge.imports (context_merge.data_context r)
       = [samples.schema_context; context_merge.data_context samples.src_a;
          context_merge.data_context samples.src_b].
Proof.
  destruct (merge_imports samples.schema_output [samples.src_b; samples.src_a] [])
    as (r & Hr & Hd & _); [discriminate|].
  exists r. split; [exact Hr|]. rewrite Hd. reflexivity.
Defined.

Lemma merge_independent_of_order_witness :
  context_merge.translate samples.fresh_output [samples.src_b; samples.src_a] []
  = context_merge.translate samples.fresh_output [samples.src_a; samples.src_b] [].
Proof.
  apply (merge_independent_of_order samples.fresh_output).
  - apply Permutation_swap.
  - apply NoDup_cons. split; [|apply NoDup_singleton].
    intros H. apply list_elem_of_singleton in H. discriminate H.
Defined.

Lemma merge_imports_in_ascending_order_witness :
  exists r,
    context_merge.translate samples.fresh_output [samples.src_c; samples.src_a; samples.src_b] []
    = (inr r, [samples.fresh_output [samples.src_a; samples.src_b; samples.src_c]])
    /\ context_merge.imports (context_merge.data_context r)
       = List.map context_merge.data_context [samples.src_a; samples.src_b; samples.src_c].
Proof.
  destruct (merge_imports_in_ascending_order samples.fresh_output
              [samples.src_c; samples.src_a; samples.src_b] [])
    as (r & Hrun & _ & _ & _ & _ & Hd & _); [discriminate|].
  exists r. split; [exact Hrun|exact Hd].
Defined.

Lemma neurons_of_marked_records_witness :
  wormbase.Neuron_translate samples.same_name
    [samples.neuron_row "adal" "1"; samples.neuron_row "mu_bod" "0";
     samples.neuron_row "avar" "1"]
  = inr (wormbase.wormbase_website, ["ADAL"; "AVAR"])
  /\ wormbase.Neuron_translate samples.same_name [samples.neuron_row "adal" "1"; []]
     = inl IndexError.
Proof.
  split.
  - destruct (neurons_of_marked_records samples.same_name
                [samples.neuron_row "adal" "1"; samples.neuron_row "mu_bod" "0";
                 samples.neuron_row "avar" "1"]) as [H _].
    rewrite H; [reflexivity|]. repeat constructor.
  - destruct (neurons_of_marked_records samples.same_name
                [samples.neuron_row "adal" "1"; []]) as [_ H].
    apply (H [samples.neuron_row "adal" "1"] [] []); [reflexivity| |simpl; lia].
    repeat constructor.
Defined.

Lemma muscles_of_short_records_witness :
  wormbase.Muscle_translate samples.same_name
    [samples.cell_row "adal" "" "" "0"; ["mu_bod"; ""; ""; ""; ""; ""; ""; "x"];
     samples.cell_row "mu_int" "" "" "1"]
  = inr (wormbase.wormbase_website, ["MU_BOD"; "MU_INT"])
  /\ wormbase.Muscle_translate samples.same_name
       [samples.cell_row "mu_int" "" "" "1"; ["adal"; ""; ""; ""; ""; ""; ""; ""]]
     = inl IndexError.
Proof.
  split.
  - destruct (muscles_of_short_records samples.same_name
                [samples.cell_row "adal" "" "" "0"] [samples.cell_row "mu_int" "" "" "1"]
                ["mu_bod"; ""; ""; ""; ""; ""; ""; "x"]) as (H7 & _).
    + repeat constructor; simpl; lia.
    + repeat constructor; simpl; lia.
    + apply (H7 "mu_bod" "x"); [reflexivity|reflexivity|discriminate].
  - destruct (muscles_of_short_records samples.same_name
                [samples.cell_row "mu_int" "" "" "1"] []
                ["adal"; ""; ""; ""; ""; ""; ""; ""]) as (_ & _ & Hshort).
    + repeat constructor; simpl; lia.
    + constructor.
    + apply Hshort. right. left. split; reflexivity.
Defined.

Lemma muscles_of_marked_records_witness :
  wormbase.Muscle_translate samples.same_name
    [samples.cell_row "mu_bod" "1" "" ""; samples.cell_row "adal" "" "" "";
     samples.cell_row "pm1" "" "" "1"]
  = inr (wormbase.wormbase_website, ["MU_BOD"; "PM1"]).
Proof.
  rewrite (muscles_of_marked_records samples.same_name); [reflexivity|].
  repeat constructor; simpl; lia.
Defined.

Lemma channels_of_records_witness :
  (exists cs,
      wormbase.IonChannel_translate samples.same_name
        [samples.channel_row; samples.channel_row] = inr (wormbase.wormbase_website, cs)
      /\ List.length cs = 2%nat)
  /\ wormbase.IonChannel_translate samples.same_name [samples.channel_row; ["unc-2"]]
     = inl IndexError.
Proof.
  split.
  - destruct (channels_of_records samples.same_name
                [samples.channel_row; samples.channel_row]) as [H _].
    destruct H as (cs & Hrun & Hall); [repeat constructor; simpl; lia|].
    exists cs. split; [exact Hrun|].
    apply Forall2_length in Hall. symmetry. exact Hall.
  - destruct (channels_of_records samples.same_name [samples.channel_row; ["unc-2"]])
      as [_ H].
    apply (H [samples.channel_row] ["unc-2"] []); [reflexivity| |simpl; lia].
    repeat constructor; simpl; lia.
Defined.

Lemma text_match_header_is_fourth_row_witness :
  wormbase.TextMatch_translate 0 [["title"]; []; ["note"]]
  = inr (wormbase.wormbase_website, []).
Proof.
  destruct (text_match_header_is_fourth_row 0 [["title"]; []; ["note"]]) as (_ & H & _).
  apply H. simpl. lia.
Defined.

Lemma extract_cell_names_bounds_witness :
  wormbase.extract_cell_names ["channel"; "ADAL"] 0 ["unc-1"; "0"; "1"] = inl IndexError
  /\ wormbase.extract_cell_names ["channel"; "ADAL"] 0 ["1"; "1"]
     = wormbase.extract_cell_names ["channel"; "ADAL"] 0 ["unc-1"; "1"].
Proof.
  destruct (extract_cell_names_bounds ["channel"; "ADAL"] 0 ["unc-1"; "0"; "1"])
    as (_ & Hbeyond & _).
  destruct (extract_cell_names_bounds ["channel"; "ADAL"] 0 ["1"; "1"]) as (_ & _ & Hpre).
  split.
  - apply (Hbeyond 2%nat "1"); [reflexivity|lia|left; reflexivity|simpl; lia].
  - apply (Hpre ["1"] ["unc-1"] ["1"]); [reflexivity|reflexivity|simpl; lia].
Defined.

Lemma expression_pattern_entry_round_trip_witness :
  wormbase.regex_match " [WBbt:0005394]  pharyngeal muscle cell"
  = Some ("WBbt:0005394", "pharyngeal muscle cell").
Proof.
  destruct expression_pattern_entry_round_trip as [H _].
  apply (H 1%nat 2%nat "WBbt:0005394" "pharyngeal muscle cell"); [discriminate|reflexivity..].
Defined.

Lemma id_setter_key_errors_witness :
  wormbase.IDSetter_translate samples.same_name
    [samples.no_data_record; {[ "WormBase ID" := "WBbt:0004013" ]}; samples.record_adal]
    samples.stored_cells
  = inl (KeyError "Cell")
  /\ wormbase.IDSetter_translate samples.same_name
       [samples.no_data_record; {[ "Cell" := "ADAL" ]}] samples.stored_cells
     = inl (KeyError "WormBase ID").
Proof.
  split.
  - destruct (id_setter_key_errors samples.same_name samples.no_data_record
                {[ "WormBase ID" := "WBbt:0004013" ]} [samples.record_adal]
                samples.stored_cells) as (_ & _ & H & _).
    apply H. reflexivity.
  - destruct (id_setter_key_errors samples.same_name samples.no_data_record
                {[ "Cell" := "ADAL" ]} [] samples.stored_cells) as (_ & _ & _ & H & _).
    apply (H "ADAL"); [reflexivity|reflexivity|discriminate].
Defined.

(* ===================================================================== *)
(** * Further properties: bibliographic text and the answers of services *)
(* ===================================================================== *)

Section AnswersOfServices.

Import document.

Variable urlparse : string -> result ParseResult.
Variable BIB_loads : string -> BibDatabase.
Variable BIB_len : BibDatabase -> result nat.
Variable conf : string -> option string.
Variable py_str : PyVal -> string.
Variable http_json : string -> option PyVal.

(** X21. A bibliographic text without any entry makes [update_with_bibtex]
    and the construction raise [IndexError]: the count of the entries is
    checked for more than one only. *)
Theorem bibtex_without_entry_raises_IndexError (bibtex : string)
    (doi' pubmed wormbase : option string) (kwargs : Kwargs) (d0 : Document) :
  entries (BIB_loads bibtex) = [] ->
  update_with_bibtex BIB_loads BIB_len d0 bibtex = inl IndexError
  /\ (DataObject_init kwargs empty_document = inr d0 ->
      __init__ urlparse BIB_loads BIB_len (Some bibtex) doi' pubmed wormbase kwargs
      = inl IndexError).
Proof.
  intros He.
  assert (Hup : update_with_bibtex BIB_loads BIB_len d0 bibtex = inl IndexError).
  { unfold update_with_bibtex. rewrite He. reflexivity. }
  split; [exact Hup|].
  intros H0. unfold __init__. rewrite H0. simpl. rewrite Hup. reflexivity.
Qed.

Lemma split_aux_nonempty (sep s : string) (skip : nat) (cur : list ascii) :
  split_aux sep s skip cur <> [].
Proof.
  revert skip cur. induction s as [|c s IH]; intros skip cur; simpl; [discriminate|].
  destruct skip; [|apply IH].
  destruct (startswith sep (String c s)); [discriminate|apply IH].
Qed.

Lemma rft_authors_cons (x : list string) (fields : list (list string)) :
  rft_authors (x :: fields)
  = bind (getitem x 0)
         (fun x0 =>
            if String.eqb x0 "rft.au" then
              bind (getitem x 1)
                   (fun x1 => bind (rft_authors fields) (fun rest => ret (x1 :: rest)))
            else rft_authors fields).
Proof. reflexivity. Qed.

(** X22. The authors that the CrossRef enrichment reads from the encoded
    citation are the second pieces of the items whose first piece is
    [rft.au], in the order of the items; what follows a second [=] in an
    item is not read. An item [rft.au] without [=] raises [IndexError].
    The items are never without a first piece. *)
Theorem crossref_authors_of_fields (fields : list (list string)) :
  (forall item, clean_field (split "=" item) <> [])
  /\ (Forall (fun x => x <> []) fields ->
      Forall (fun x => x !! 0%nat = Some "rft.au" -> (2 <= List.length x)%nat) fields ->
      rft_authors fields
      = inr (List.map (fun x => default EmptyString (x !! 1%nat))
               (List.filter (fun x => String.eqb (default EmptyString (x !! 0%nat)) "rft.au")
                  fields)))
  /\ (forall before after,
        fields = (before ++ ["rft.au"] :: after)%list ->
        rft_authors fields = inl IndexError).
Proof.
  split; [|split].
  - intros item. unfold clean_field, split.
    pose proof (split_aux_nonempty "=" item 0 []) as H.
    destruct (split_aux "=" item 0 []); [congruence|discriminate].
  - intros Hne Hau. induction fields as [|x fields IH]; [reflexivity|].
    apply Forall_cons in Hne as [Hx Hne]. apply Forall_cons in Hau as [Hxa Hau].
    rewrite rft_authors_cons.
    destruct x as [|x0 x']; [congruence|].
    change (getitem (x0 :: x') 0) with (@inr PyExn string x0).
    simpl bind. simpl List.filter. simpl default.
    destruct (String.eqb_spec x0 "rft.au") as [->|Hn].
    + destruct x' as [|x1 x'']; [specialize (Hxa eq_refl); simpl in Hxa; lia|].
      change (getitem ("rft.au" :: x1 :: x'') 1) with (@inr PyExn string x1).
      simpl bind. rewrite (IH Hne Hau). reflexivity.
    + exact (IH Hne Hau).
  - intros before after ->.
    induction before as [|b before IH].
    + reflexivity.
    + change ((b :: before) ++ ["rft.au"] :: after)%list
        with (b :: (before ++ ["rft.au"] :: after))%list.
      rewrite rft_authors_cons, IH.
      destruct (getitem b 0) as [e|x0] eqn:E0; simpl.
      * apply getitem_error in E0 as [-> _]. reflexivity.
      * destruct (String.eqb x0 "rft.au"); [|reflexivity].
        destruct (getitem b 1) as [e|x1] eqn:E1; simpl; [|reflexivity].
        apply getitem_error in E1 as [-> _]. reflexivity.
Qed.

(** The loop over the authors of an answer whose items all have a label
    that is not [None]. *)
Lemma mfor_labels (labels : list PyVal) :
  Forall (fun l => is_None l = false) labels ->
  forall w,
    mfor (List.map (fun l => PDict [("label", l)]) labels)
         (fun x => mbind (lift (py_getitem x "label"))
                         (fun label => on_self (set a_author label))) w
    = (inr tt,
       mkWorld (with_attr a_author (author (this w) ++ List.map Literal labels)%list (this w))
               (requested w) (logged w)).
Proof.
  induction 1 as [|l labels Hl _ IH]; intros w.
  - simpl. rewrite app_nil_r. destruct w as [[au d u wb pm y t] rq lg]. reflexivity.
  - change (List.map (fun l0 => PDict [("label", l0)]) (l :: labels))
      with (PDict [("label", l)] :: List.map (fun l0 => PDict [("label", l0)]) labels).
    assert (Hstep : mbind (lift (py_getitem (PDict [("label", l)]) "label"))
                          (fun label => on_self (set a_author label)) w
                    = (inr tt,
                       mkWorld (with_attr a_author (author (this w) ++ [Literal l])%list (this w))
                               (requested w) (logged w))).
    { change (py_getitem (PDict [("label", l)]) "label") with (@inr PyExn PyVal l).
      rewrite mbind_lift_ret. unfold on_self, set, Property_set.
      destruct l; try discriminate; reflexivity. }
    simpl mfor. rewrite (mbind_run _ _ _ _ _ Hstep), IH. simpl.
    rewrite <- app_assoc. reflexivity.
Qed.

(** X23. An answer of WormBase that is well formed for the authors and
    malformed after them leaves the document half updated: the authors of
    the answer are added, the exception of the malformed field is caught
    and logged, and the call returns. *)
Theorem malformed_answer_keeps_earlier_updates (w : World) (v : PyVal) (labels : list PyVal)
    (more : list (string * PyVal)) :
  defined_values (wbid (this w)) = [v] ->
  Forall (fun l => is_None l = false) labels ->
  (forall u,
      http_json u
      = Some (PDict [("fields",
                      PDict (("authors",
                              PDict [("data",
                                      PList (List.map (fun l => PDict [("label", l)]) labels))])
                               :: ("pmid", PDict []) :: more))])) ->
  exists w',
    update_from_wormbase conf py_str http_json false w = (inr tt, w')
    /\ author (this w') = (author (this w) ++ List.map Literal labels)%list
    /\ last (logged w') = Some "Couldn't retrieve Wormbase data"
    /\ pmid (this w') = pmid (this w) /\ year (this w') = year (this w)
    /\ title (this w') = title (this w) /\ doi (this w') = doi (this w).
Proof.
  intros Hv Hl Hnet.
  unfold update_from_wormbase. rewrite mbind_gets, Hv.
  change (List.length [v] =? 1)%nat with true. cbv iota.
  change (getitem [v] 0) with (@inr PyExn PyVal v). rewrite mbind_lift_ret.
  set (url := default "http://rest.wormbase.org" (conf "wormbase_api_root_url")
                ++ "/rest/widget/paper/" ++ py_str v
                ++ "/overview?content-type=application%2Fjson").
  set (w1 := mkWorld (this w) (requested w ++ [url])%list (logged w)).
  assert (Hj : _json_request http_json url w
               = (inr (PDict [("fields",
                               PDict (("authors",
                                       PDict [("data",
                                               PList (List.map (fun l => PDict [("label", l)])
                                                        labels))])
                                        :: ("pmid", PDict []) :: more))]),
                  w1)).
  { unfold _json_request, mbind, request, modify. simpl. rewrite Hnet. reflexivity. }
  set (w2 := mkWorld (with_attr a_author (author (this w) ++ List.map Literal labels)%list
                        (this w))
                     (requested w ++ [url])%list (logged w)).
  match goal with
  | |- context [try_except ?m ?h] =>
      assert (Hbody : m w = (inl (KeyError "data"), w2))
  end.
  { rewrite (mbind_run _ _ _ _ _ Hj).
    change (py_in "fields" (PDict ?kv)) with (@inr PyExn bool true).
    rewrite mbind_lift_ret. cbv iota.
    match goal with
    | |- mbind (lift (py_getitem (PDict [("fields", ?f)]) "fields")) _ _ = _ =>
        change (py_getitem (PDict [("fields", f)]) "fields") with (@inr PyExn PyVal f)
    end.
    rewrite mbind_lift_ret.
    assert (Hauthors :
              wormbase_authors false
                (PDict (("authors",
                         PDict [("data",
                                 PList (List.map (fun l => PDict [("label", l)]) labels))])
                          :: ("pmid", PDict []) :: more)) w1
              = (inr tt, w2)).
    { unfold wormbase_authors.
      change (py_in "authors" (PDict ?kv)) with (@inr PyExn bool true).
      rewrite mbind_lift_ret. cbv iota.
      match goal with
      | |- mbind (lift (py_getitem (PDict (("authors", ?a) :: ?r)) "authors")) _ _ = _ =>
          change (py_getitem (PDict (("authors", a) :: r)) "authors") with (@inr PyExn PyVal a)
      end.
      rewrite mbind_lift_ret.
      match goal with
      | |- mbind (lift (py_getitem (PDict [("data", ?a)]) "data")) _ _ = _ =>
          change (py_getitem (PDict [("data", a)]) "data") with (@inr PyExn PyVal a)
      end.
      rewrite mbind_lift_ret.
      change (negb (is_None (PList ?l))) with true. cbv iota.
      change (when (false && true) ?m) with (@mret World unit tt).
      rewrite (mbind_run _ _ w1 w1 tt eq_refl).
      change (py_iter (PList ?l)) with (@inr PyExn (list PyVal) l).
      rewrite mbind_lift_ret. rewrite (mfor_labels labels Hl w1). reflexivity. }
    rewrite (mbind_run _ _ _ _ _ Hauthors).
    simpl mfor. unfold wormbase_field at 1.
    change (py_in (attr_name a_pmid) (PDict ?kv)) with (@inr PyExn bool true).
    rewrite (mbind_fails _ _ w2 w2 (KeyError "data")); [reflexivity|].
    rewrite mbind_lift_ret. cbv iota.
    match goal with
    | |- mbind (lift (py_getitem (PDict (?a :: ("pmid", ?p) :: ?r)) (attr_name a_pmid))) _ _ = _ =>
        change (py_getitem (PDict (a :: ("pmid", p) :: r)) (attr_name a_pmid))
          with (@inr PyExn PyVal p)
    end.
    rewrite mbind_lift_ret. reflexivity. }
  match goal with
  | |- context [try_except ?m ?h] =>
      assert (Htry : try_except m h w
                     = (inr None, mkWorld (this w2) (requested w2)
                                    (logged w2 ++ ["Couldn't retrieve Wormbase data"])%list))
  end.
  { unfold try_except. rewrite Hbody. reflexivity. }
  rewrite (mbind_run _ _ _ _ _ Htry).
  eexists. split; [reflexivity|]. simpl.
  split; [reflexivity|]. split; [apply last_snoc|]. repeat split.
Qed.

End AnswersOfServices.

Lemma bibtex_without_entry_raises_IndexError_witness :
  document.__init__ samples.urlparse_simple samples.loads_sample samples.len_entries
    (Some "nothing") None None None [] = inl IndexError.
Proof.
  destruct (bibtex_without_entry_raises_IndexError samples.urlparse_simple
              samples.loads_sample samples.len_entries "nothing" None None None []
              document.empty_document eq_refl) as [_ H].
  apply H. reflexivity.
Defined.

Lemma crossref_authors_of_fields_witness :
  document.rft_authors samples.coins_fields = inr ["Bargmann, C."; "Horvitz, H."]
  /\ document.rft_authors [["rft.au"]] = inl IndexError.
Proof.
  split.
  - destruct (crossref_authors_of_fields samples.coins_fields) as (_ & H & _).
    rewrite H; [vm_compute; reflexivity| |].
    + unfold samples.coins_fields. repeat constructor; discriminate.
    + unfold samples.coins_fields. repeat constructor; intros _; simpl; lia.
  - destruct (crossref_authors_of_fields [["rft.au"]]) as (_ & _ & H).
    apply (H [] []). reflexivity.
Defined.

Lemma malformed_answer_keeps_earlier_updates_witness :
  exists w',
    document.update_from_wormbase samples.no_conf samples.str_of samples.malformed_json false
      (samples.world_of samples.doc_wbid) = (inr tt, w')
    /\ document.author (document.this w')
       = [samples.lit "Sulston JE"; samples.lit "Bargmann CI"].
Proof.
  destruct (malformed_answer_keeps_earlier_updates samples.no_conf samples.str_of
              samples.malformed_json (samples.world_of samples.doc_wbid)
              (PStr "WBPaper00044287") [PStr "Bargmann CI"] [])
    as (w' & Hrun & Hau & _).
  - reflexivity.
  - repeat constructor.
  - intros u. reflexivity.
  - exists w'. split; [exact Hrun|exact Hau].
Defined.

(* ===================================================================== *)
(** * Further properties: the answers of CrossRef *)
(* ===================================================================== *)

Section CrossRefAnswers.

Import document.

Variable urlparse : string -> result ParseResult.
Variable urlencode_q : PyVal -> string.
Variable http_json : string -> option PyVal.

(** What [_crossref_doi_extract] does with the answer [r], after the
    guarded request. *)
Local Abbreviation after_request r :=
  (doM n <- lift (py_len r);
   if (0 <? n)%nat then
     doM r0 <- lift (py_first r);
     doM coins <- lift (py_getitem r0 "coins");
     doM extra_data <- lift (py_split "&amp;" coins);
     let fields := List.map (fun x => clean_field (split "=" x)) extra_data in
     doM authors <- lift (rft_authors fields);
     doM_ mfor authors (fun a => on_self (set a_author (PStr a)));
     doM_ crossref_field r0 a_title;
     crossref_field r0 a_year
   else mret tt).

(** With a DOI that is no URL and a service that answers, the enrichment
    asks for one URL and goes on with the answer. *)
Lemma crossref_answered (w : World) (s : string) (rest : list PyVal) (r : PyVal) :
  defined_values (doi (this w)) = PStr s :: rest ->
  slice_to 4 s <> "http" ->
  (forall u, http_json u = Some r) ->
  _crossref_doi_extract urlparse urlencode_q http_json w
  = after_request r
      (mkWorld (this w)
         (requested w ++ [("http://search.labs.crossref.org/dois?" ++ urlencode_q (PStr s))%string])%list
         (logged w)).
Proof.
  intros Hd Hs Hnet.
  unfold _crossref_doi_extract. rewrite mbind_gets.
  unfold Property_get. rewrite Hd.
  apply String.eqb_neq in Hs.
  change (slice4_is_http (PStr s)) with (@inr PyExn bool (String.eqb (slice_to 4 s) "http")).
  rewrite mbind_lift_ret, Hs.
  rewrite (mbind_run _ _ w w (PStr s) eq_refl).
  match goal with
  | |- mbind (try_except ?m ?h) _ _ = _ =>
      assert (Htry : try_except m h w
                     = (inr (Some r),
                        mkWorld (this w)
                          (requested w
                             ++ [("http://search.labs.crossref.org/dois?"
                                    ++ urlencode_q (PStr s))%string])%list
                          (logged w)))
  end.
  { unfold try_except, crRequest, _json_request, mbind, request, modify. simpl.
    rewrite Hnet. reflexivity. }
  rewrite (mbind_run _ _ _ _ _ Htry). reflexivity.
Qed.

(** The loop that sets the authors read from the encoded citation. *)
Lemma mfor_authors (authors : list string) (w : World) :
  mfor authors (fun a => on_self (set a_author (PStr a))) w
  = (inr tt,
     mkWorld (with_attr a_author
                (author (this w) ++ List.map (fun a => Literal (PStr a)) authors)%list (this w))
             (requested w) (logged w)).
Proof.
  revert w. induction authors as [|a authors IH]; intros w.
  - simpl. rewrite app_nil_r. destruct w as [[au d u wb pm y t] rq lg]. reflexivity.
  - assert (Hstep : on_self (set a_author (PStr a)) w
                    = (inr tt,
                       mkWorld (with_attr a_author (author (this w) ++ [Literal (PStr a)])%list
                                  (this w))
                               (requested w) (logged w))) by reflexivity.
    simpl mfor. rewrite (mbind_run _ _ _ _ _ Hstep), IH. simpl.
    rewrite <- app_assoc. reflexivity.
Qed.

(** A field of the first item of the answer: set when the item has it. *)
Lemma crossref_field_run (kv : list (string * PyVal)) (a : Attr) (w : World) :
  multiple a = false ->
  (forall t, assoc (attr_name a) kv = Some t -> is_None t = false) ->
  crossref_field (PDict kv) a w
  = (inr tt,
     match assoc (attr_name a) kv with
     | Some t => mkWorld (with_attr a [Literal t] (this w)) (requested w) (logged w)
     | None => w
     end).
Proof.
  intros Hm Ht. unfold crossref_field, py_in, py_getitem.
  destruct (assoc (attr_name a) kv) as [t|] eqn:E.
  - change (ret true) with (@inr PyExn bool true). rewrite mbind_lift_ret. cbv iota.
    change (ret t) with (@inr PyExn PyVal t). rewrite mbind_lift_ret.
    specialize (Ht t eq_refl).
    unfold on_self, set, Property_set. rewrite Hm.
    destruct t; try discriminate; reflexivity.
  - reflexivity.
Qed.

(** X24. Only the request of the CrossRef enrichment is guarded. When the
    service answers with a list whose first item has no [coins], the
    [KeyError] reaches the caller, after the one request, with nothing
    logged and the document as it was; the same answer given as an empty
    list makes the enrichment return and change nothing. *)
Theorem crossref_answer_errors_reach_caller (w : World) (s : string) (rest : list PyVal) :
  defined_values (doi (this w)) = PStr s :: rest ->
  slice_to 4 s <> "http" ->
  (forall kv more,
      (forall u, http_json u = Some (PList (PDict kv :: more))) ->
      assoc "coins" kv = None ->
      exists w',
        _crossref_doi_extract urlparse urlencode_q http_json w = (inl (KeyError "coins"), w')
        /\ this w' = this w
        /\ logged w' = logged w
        /\ requested w'
           = (requested w
                ++ [("http://search.labs.crossref.org/dois?" ++ urlencode_q (PStr s))%string])%list)
  /\ ((forall u, http_json u = Some (PList [])) ->
      exists w',
        _crossref_doi_extract urlparse urlencode_q http_json w = (inr tt, w')
        /\ this w' = this w).
Proof.
  intros Hd Hs. split.
  - intros kv more Hnet Hc.
    rewrite (crossref_answered w s rest _ Hd Hs Hnet).
    change (py_len (PList (PDict kv :: more)))
      with (@inr PyExn nat (S (List.length more))).
    rewrite mbind_lift_ret.
    change (0 <? S (List.length more))%nat with true. cbv iota.
    change (py_first (PList (PDict kv :: more))) with (@inr PyExn PyVal (PDict kv)).
    rewrite mbind_lift_ret.
    assert (Hk : py_getitem (PDict kv) "coins" = inl (KeyError "coins")).
    { unfold py_getitem. rewrite Hc. reflexivity. }
    rewrite Hk, mbind_lift_raise.
    eexists. split; [reflexivity|]. repeat split.
  - intros Hnet.
    rewrite (crossref_answered w s rest _ Hd Hs Hnet).
    eexists. split; reflexivity.
Qed.

(** X25. When the first item of the answer of CrossRef has an encoded
    citation, the enrichment adds the authors read from it after the
    authors the document had, and sets the title and the year that the
    item has, leaving each as it was when the item has none; the DOI and
    the other identities stay, and the further items are not read. *)
Theorem crossref_answer_updates (w : World) (s c : string) (rest : list PyVal)
    (kv : list (string * PyVal)) (more : list PyVal) (authors : list string) :
  defined_values (doi (this w)) = PStr s :: rest ->
  slice_to 4 s <> "http" ->
  (forall u, http_json u = Some (PList (PDict kv :: more))) ->
  assoc "coins" kv = Some (PStr c) ->
  rft_authors (List.map (fun x => clean_field (split "=" x)) (split "&amp;" c)) = inr authors ->
  (forall t, assoc "title" kv = Some t -> is_None t = false) ->
  (forall t, assoc "year" kv = Some t -> is_None t = false) ->
  exists w',
    _crossref_doi_extract urlparse urlencode_q http_json w = (inr tt, w')
    /\ author (this w')
       = (author (this w) ++ List.map (fun a => Literal (PStr a)) authors)%list
    /\ title (this w')
       = match assoc "title" kv with Some t => [Literal t] | None => title (this w) end
    /\ year (this w')
       = match assoc "year" kv with Some t => [Literal t] | None => year (this w) end
    /\ doi (this w') = doi (this w) /\ pmid (this w') = pmid (this w)
    /\ wbid (this w') = wbid (this w) /\ uri (this w') = uri (this w).
Proof.
  intros Hd Hs Hnet Hc Hau Hti Hye.
  rewrite (crossref_answered w s rest _ Hd Hs Hnet).
  change (py_len (PList (PDict kv :: more)))
    with (@inr PyExn nat (S (List.length more))).
  rewrite mbind_lift_ret.
  change (0 <? S (List.length more))%nat with true. cbv iota.
  change (py_first (PList (PDict kv :: more))) with (@inr PyExn PyVal (PDict kv)).
  rewrite mbind_lift_ret.
  assert (Hk : py_getitem (PDict kv) "coins" = inr (PStr c)).
  { unfold py_getitem. rewrite Hc. reflexivity. }
  rewrite Hk, mbind_lift_ret.
  change (py_split "&amp;" (PStr c)) with (@inr PyExn (list string) (split "&amp;" c)).
  rewrite mbind_lift_ret. cbv zeta.
  rewrite Hau, mbind_lift_ret.
  rewrite (mbind_run _ _ _ _ _ (mfor_authors authors _)).
  rewrite (mbind_run _ _ _ _ _ (crossref_field_run kv a_title _ eq_refl Hti)).
  rewrite (crossref_field_run kv a_year _ eq_refl Hye).
  eexists. split; [reflexivity|].
  change (attr_name a_title) with "title". change (attr_name a_year) with "year".
  destruct (assoc "title" kv) as [t|], (assoc "year" kv) as [y|]; simpl; repeat split.
Qed.

End CrossRefAnswers.

Lemma crossref_answer_errors_reach_caller_witness :
  exists w',
    document._crossref_doi_extract samples.urlparse_simple samples.str_of
      samples.crossref_bare_json (samples.world_of samples.doc_doi)
    = (inl (KeyError "coins"), w')
    /\ document.this w' = samples.doc_doi.
Proof.
  destruct (crossref_answer_errors_reach_caller samples.urlparse_simple samples.str_of
              samples.crossref_bare_json (samples.world_of samples.doc_doi)
              "10.1000/xyz" [] eq_refl) as [H _].
  - discriminate.
  - destruct (H [("title", PStr "Chemosensory neurons")] []) as (w' & Hrun & Hthis & _).
    + intros u. reflexivity.
    + reflexivity.
    + exists w'. split; [exact Hrun|exact Hthis].
Defined.

Lemma crossref_answer_updates_witness :
  exists w',
    document._crossref_doi_extract samples.urlparse_simple samples.str_of
      samples.crossref_json (samples.world_of samples.doc_doi)
    = (inr tt, w')
    /\ document.author (document.this w') = [samples.lit "Bargmann, C."]
    /\ document.title (document.this w') = [samples.lit "Chemosensory neurons"]
    /\ document.year (document.this w') = [].
Proof.
  destruct (crossref_answer_updates samples.urlparse_simple samples.str_of
              samples.crossref_json (samples.world_of samples.doc_doi)
              "10.1000/xyz" "rft.au=Bargmann,+C.&amp;rft.date=1991" []
              [("coins", PStr "rft.au=Bargmann,+C.&amp;rft.date=1991");
               ("title", PStr "Chemosensory neurons")] [] ["Bargmann, C."])
    as (w' & Hrun & Hau & Hti & Hye & _).
  - reflexivity.
  - discriminate.
  - intros u. reflexivity.
  - reflexivity.
  - vm_compute. reflexivity.
  - intros t Ht. vm_compute in Ht. injection Ht as <-. reflexivity.
  - intros t Ht. vm_compute in Ht. discriminate.
  - exists w'. split; [exact Hrun|]. split; [exact Hau|]. split; [exact Hti|exact Hye].
Defined.

(* ===================================================================== *)
(** * The channels and their expression patterns *)
(* ===================================================================== *)

Section ChannelEntries.

Import wormbase.

Variable normalize_cell_name : string -> string.

(** ** Cutting at the separator of the entries *)







(** ** The pattern of an entry *)









End ChannelEntries.

